(** * Tegra241 CMDQV register file and the iommufd backend

    A shallow embedding of [hw/arm/tegra241-cmdqv.c] (with the register
    layout of [hw/arm/tegra241-cmdqv.h]) and of the kernel-facing wrappers
    of [backends/iommufd.c] that the device calls.

    C integers are [Z] with the truncations written out, fixed-size arrays
    are lists checked against their declared length, pointers are
    [option]s, and every function is a computation in a state monad over
    the part of the process the code can touch.  Behaviour the C standard
    leaves undefined (an index past the end of an array, a NULL or dangling
    pointer being dereferenced) is an outcome of its own, so that a
    theorem saying "the call returns" excludes it. *)

From stdpp Require Import base option list gmap.
From Stdlib Require Import ZArith Lia.
Local Open Scope Z_scope.

(** ** Machine integers *)

Definition u32 (x : Z) : Z := x mod 2 ^ 32.
Definition u64 (x : Z) : Z := x mod 2 ^ 64.

(** [~x] at type [uint64_t] and at type [uint32_t]. *)
Definition not64 (x : Z) : Z := u64 (Z.lnot x).
Definition not32 (x : Z) : Z := u32 (Z.lnot x).

(** Modelled from the spec: [MAKE_64BIT_MASK(shift, length)] of
    qemu/bitops.h, with which the [FIELD] macro of hw/registerfields.h
    defines [R_<reg>_<field>_MASK], is missing.  It is the mask of the
    [length] bits from bit [shift] on (the spec's "bit 17" for HYP_OWN and
    "bit 0" for ENABLE): [((~0ULL) >> (64 - length)) << shift]. *)
Definition MAKE_64BIT_MASK (shift length : Z) : Z :=
  u64 (Z.shiftl (Z.shiftr (2 ^ 64 - 1) (64 - length)) shift).

(** A [case lo ... hi:] label. *)
Definition case_range (lo hi x : Z) : bool := (lo <=? x) && (x <=? hi).

(** ** errno values (asm-generic/errno-base.h) *)

Definition ENOENT : Z := 2.
Definition EIO : Z := 5.
Definition EFAULT : Z := 14.
Definition ENODEV : Z := 19.
Definition EINVAL : Z := 22.

(** ** Register layout (tegra241-cmdqv.h)

    [REG32(name, addr)] defines [A_name = addr]; [FIELD(reg, f, shift, len)]
    defines [R_reg_f_MASK = MAKE_64BIT_MASK(shift, len)]. *)

Definition A_CONFIG : Z := 0x0.
Definition V_CONFIG_RESET : Z := 0x00020403.
Definition A_PARAM : Z := 0x4.
Definition V_PARAM_RESET : Z := 0x00004011.
Definition A_STATUS : Z := 0x8.
Definition R_STATUS_CMDQV_ENABLED_MASK : Z := MAKE_64BIT_MASK 0 1.

Definition A_VI_ERR_MAP : Z := 0x14.
Definition A_VI_ERR_MAP_1 : Z := 0x18.
Definition A_VI_INT_MASK : Z := 0x1c.
Definition A_VI_INT_MASK_1 : Z := 0x20.
Definition A_CMDQ_ERR_MAP : Z := 0x24.
Definition A_CMDQ_ERR_MAP_1 : Z := 0x28.
Definition A_CMDQ_ERR_MAP_2 : Z := 0x2c.
Definition A_CMDQ_ERR_MAP_3 : Z := 0x30.

Definition A_CMDQ_ALLOC_MAP_ (i : Z) : Z := 0x200 + i * 4.
Definition A_CMDQ_ALLOC_MAP_0 : Z := A_CMDQ_ALLOC_MAP_ 0.
Definition A_CMDQ_ALLOC_MAP_127 : Z := A_CMDQ_ALLOC_MAP_ 127.

Definition A_VINTFi_CONFIG (i : Z) : Z := 0x1000 + i * 0x100.
Definition A_VINTF0_CONFIG : Z := A_VINTFi_CONFIG 0.
Definition R_VINTF0_CONFIG_ENABLE_MASK : Z := MAKE_64BIT_MASK 0 1.
Definition R_VINTF0_CONFIG_HYP_OWN_MASK : Z := MAKE_64BIT_MASK 17 1.

Definition A_VINTFi_STATUS (i : Z) : Z := 0x1004 + i * 0x100.
Definition A_VINTF0_STATUS : Z := A_VINTFi_STATUS 0.
Definition R_VINTF0_STATUS_ENABLE_OK_MASK : Z := MAKE_64BIT_MASK 0 1.

Definition A_VINTFi_LVCMDQ_ERR_MAP_ (i j : Z) : Z := 0x10c0 + j * 4 + i * 0x100.

(** Modelled from the spec: tegra241-cmdqv.c names the four error-map words
    of the virtual-interface block [A_VINTF0_CMDQ_ERR_MAP_0] to [_3], which
    the header under src/ does not declare (it declares
    [VINTF0_LVCMDQ_ERR_MAP_0] and [_3]).  The spec places "4 error-map
    words" in the block 0x1000-0x10FF; they are taken at the header's
    LVCMDQ offsets. *)
Definition A_VINTF0_CMDQ_ERR_MAP_0 : Z := A_VINTFi_LVCMDQ_ERR_MAP_ 0 0.
Definition A_VINTF0_CMDQ_ERR_MAP_3 : Z := A_VINTFi_LVCMDQ_ERR_MAP_ 0 3.

Definition VCMDQ_REG_OFFSET : Z := 0x10000.
Definition VCMDQ_REG_PAGE_SIZE : Z := 0x10000.

Definition A_VCMDQi_CONS_INDX (i : Z) : Z := 0x10000 + i * 0x80.
Definition A_VCMDQi_PROD_INDX (i : Z) : Z := 0x10000 + 0x4 + i * 0x80.
Definition A_VCMDQi_CONFIG (i : Z) : Z := 0x10000 + 0x8 + i * 0x80.
Definition A_VCMDQi_STATUS (i : Z) : Z := 0x10000 + 0xc + i * 0x80.
Definition A_VCMDQi_GERROR (i : Z) : Z := 0x10000 + 0x10 + i * 0x80.
Definition A_VCMDQi_GERRORN (i : Z) : Z := 0x10000 + 0x14 + i * 0x80.
Definition A_VCMDQi_BASE_L (i : Z) : Z := 0x20000 + i * 0x80.
Definition A_VCMDQi_BASE_H (i : Z) : Z := 0x20000 + 0x4 + i * 0x80.
Definition A_VCMDQi_CONS_INDX_BASE_DRAM_L (i : Z) : Z := 0x20000 + 0x8 + i * 0x80.
Definition A_VCMDQi_CONS_INDX_BASE_DRAM_H (i : Z) : Z := 0x20000 + 0xc + i * 0x80.

Definition A_VCMDQ0_CONS_INDX : Z := A_VCMDQi_CONS_INDX 0.
Definition A_VCMDQ0_PROD_INDX : Z := A_VCMDQi_PROD_INDX 0.
Definition A_VCMDQ0_CONFIG : Z := A_VCMDQi_CONFIG 0.
Definition A_VCMDQ0_STATUS : Z := A_VCMDQi_STATUS 0.
Definition A_VCMDQ0_GERROR : Z := A_VCMDQi_GERROR 0.
Definition A_VCMDQ0_GERRORN : Z := A_VCMDQi_GERRORN 0.
Definition A_VCMDQ127_GERRORN : Z := A_VCMDQi_GERRORN 127.
Definition A_VCMDQ0_BASE_L : Z := A_VCMDQi_BASE_L 0.
Definition A_VCMDQ0_BASE_H : Z := A_VCMDQi_BASE_H 0.
Definition A_VCMDQ0_CONS_INDX_BASE_DRAM_L : Z := A_VCMDQi_CONS_INDX_BASE_DRAM_L 0.
Definition A_VCMDQ0_CONS_INDX_BASE_DRAM_H : Z := A_VCMDQi_CONS_INDX_BASE_DRAM_H 0.
Definition A_VCMDQ127_CONS_INDX_BASE_DRAM_H : Z := A_VCMDQi_CONS_INDX_BASE_DRAM_H 127.

Definition R_VCMDQ0_BASE_L_LOG2SIZE_MASK : Z := MAKE_64BIT_MASK 0 5.
Definition R_VCMDQ0_BASE_L_ADDR_MASK : Z := MAKE_64BIT_MASK 5 27.
Definition R_VCMDQ0_BASE_H_ADDR_MASK : Z := MAKE_64BIT_MASK 0 16.

Definition A_VI_VCMDQi_CONS_INDX (i : Z) : Z := 0x30000 + i * 0x80.
Definition A_VI_VCMDQi_GERRORN (i : Z) : Z := 0x30000 + 0x14 + i * 0x80.
Definition A_VI_VCMDQi_BASE_L (i : Z) : Z := 0x40000 + i * 0x80.
Definition A_VI_VCMDQi_CONS_INDX_BASE_DRAM_H (i : Z) : Z := 0x40000 + 0xc + i * 0x80.

Definition A_VI_VCMDQ0_CONS_INDX : Z := A_VI_VCMDQi_CONS_INDX 0.
Definition A_VI_VCMDQ127_GERRORN : Z := A_VI_VCMDQi_GERRORN 127.
Definition A_VI_VCMDQ0_BASE_L : Z := A_VI_VCMDQi_BASE_L 0.
Definition A_VI_VCMDQ127_CONS_INDX_BASE_DRAM_H : Z :=
  A_VI_VCMDQi_CONS_INDX_BASE_DRAM_H 127.

(** ** Objects of the iommufd backend *)

(** [struct IOMMUFDBackend] (sysemu/iommufd.h). *)
Record IOMMUFDBackend := {
  fd : Z;
  owned : bool;
  users : Z;
}.

(** Modelled from the spec: the declarations of [struct IOMMUFDViommu] and
    [struct IOMMUFDVqueue] are missing from sysemu/iommufd.h.  The spec's
    VirtualIommu is "{id, backing-page-table-id, owning ResourceHandle}"
    and its VirtualQueue "{id, owning VirtualIommu, ...}"; the field names
    are those that [iommufd_backend_alloc_viommu] and
    [iommufd_viommu_alloc_queue] assign ([vqueue_viommu] is the field
    [viommu] of the queue).  A virtual IOMMU is owned by the SMMU and never
    changes under this device, so a pointer to it is modelled by its
    value. *)
Record IOMMUFDViommu := {
  iommufd : IOMMUFDBackend;
  s2_hwpt_id : Z;
  viommu_id : Z;
}.

Record IOMMUFDVqueue := {
  vqueue_viommu : IOMMUFDViommu;
  vqueue_id : Z;
}.

(** A [IOMMUFDVqueue *] that is not NULL: the address of a block handed out
    by [g_malloc]. *)
Definition ptr : Type := nat.

(** ** The kernel interface *)

(** [struct iommu_vqueue_tegra241_cmdqv] of linux/iommufd.h, the payload of
    a queue allocation, with the fields [tegra241_cmdqv_setup_vcmdq]
    initialises. *)
Module uapi.

Record iommu_vqueue_tegra241_cmdqv := {
  vcmdq_id : Z;
  vcmdq_log2size : Z;
  vcmdq_base : Z;
}.

(** [sizeof(struct iommu_vqueue_tegra241_cmdqv)]: two [__u32] and one
    [__aligned_u64]. *)
Definition sizeof_iommu_vqueue_tegra241_cmdqv : Z := 16.

Inductive vqueue_data_type := IOMMU_VQUEUE_DATA_TEGRA241_CMDQV.

End uapi.

(** The requests the modelled functions send with [ioctl], each with the
    fields the caller sets. *)
Inductive request :=
| IOMMU_DESTROY (id : Z)
| IOMMU_IOAS_UNMAP (ioas_id iova length : Z)
| IOMMU_HWPT_INVALIDATE (hwpt_id data_type entry_len entry_num data_uptr : Z)
| IOMMU_DEV_INVALIDATE (dev_id data_type entry_len entry_num data_uptr : Z)
| IOMMU_VQUEUE_ALLOC (viommu_id : Z) (data_type : uapi.vqueue_data_type)
    (data_len : Z) (data : uapi.iommu_vqueue_tegra241_cmdqv).

(** What the kernel answers: [r_errno = None] when the request is accepted,
    [Some e] when it is rejected with error [e]; [r_out] is the value of the
    request's output field when the call returns ([out_vqueue_id], or the
    in/out [entry_num] of an invalidation). *)
Record reply := {
  r_errno : option Z;
  r_out : Z;
}.

(** ** Diagnostics and the trace of a run *)

Inductive func_name :=
| fn_tegra241_cmdqv_read | fn_tegra241_cmdqv_read_vintf
| fn_tegra241_cmdqv_read_vcmdq | fn_tegra241_cmdqv_write
| fn_tegra241_cmdqv_write_vintf | fn_tegra241_cmdqv_write_vcmdq.

(** The messages of [qemu_log_mask(LOG_UNIMP, ...)], [error_report] and
    [warn_report], with their arguments.  The trace points
    ([trace_iommufd_backend_...]) are left out. *)
Inductive message :=
| msg_off_limit (f : func_name) (offset : Z)
| msg_unhandled_read (f : func_name) (offset : Z)
| msg_unhandled_write (f : func_name) (offset : Z)
| msg_failed_mmap_page0
| msg_failed_allocate_vcmdq (index viommu_id : Z)
| msg_failed_to_free_id (id errno : Z)
| msg_vqueue_alloc_failed (errno : Z)
| msg_ioas_unmap_failed (errno : Z)
| msg_hwpt_invalidate_failed (errno : Z)
| msg_dev_invalidate_failed (errno : Z).

Inductive event :=
| EvIoctl (fd : Z) (req : request)
| EvReport (m : message).

Definition requests_of (t : list event) : list request :=
  omap (fun e => match e with EvIoctl _ r => Some r | EvReport _ => None end) t.

(** ** The device *)

(** [struct Tegra241CMDQV]: the fields the modelled functions use.
    [vcmdq_page0] is the address of the mapped page, [None] for NULL;
    [vqueue] holds one pointer per queue slot, [None] for NULL. *)
Record Tegra241CMDQV := {
  viommu : option IOMMUFDViommu;
  vqueue : list (option ptr);
  vcmdq_page0 : option Z;
  (* Register Cache *)
  config : Z;
  param : Z;
  status : Z;
  vi_err_map : list Z;
  vi_int_mask : list Z;
  cmdq_err_map : list Z;
  cmdq_alloc_map : list Z;
  vintf_config : Z;
  vintf_status : Z;
  vintf_cmdq_err_map : list Z;
  vcmdq_cons_indx : list Z;
  vcmdq_prod_indx : list Z;
  vcmdq_config : list Z;
  vcmdq_status : list Z;
  vcmdq_gerror : list Z;
  vcmdq_gerrorn : list Z;
  vcmdq_base : list Z;
  vcmdq_cons_indx_base : list Z;
}.

(** The arrays of the struct, with their declared lengths. *)
Inductive array :=
| arr_vqueue | arr_vi_err_map | arr_vi_int_mask | arr_cmdq_err_map
| arr_cmdq_alloc_map | arr_vintf_cmdq_err_map | arr_vcmdq_cons_indx
| arr_vcmdq_prod_indx | arr_vcmdq_config | arr_vcmdq_status
| arr_vcmdq_gerror | arr_vcmdq_gerrorn | arr_vcmdq_base
| arr_vcmdq_cons_indx_base.

Definition declared_length (a : array) : Z :=
  match a with
  | arr_vi_err_map | arr_vi_int_mask | arr_cmdq_err_map => 2
  | arr_vintf_cmdq_err_map => 4
  | _ => 128
  end.

(** ** The state of a run *)

Inductive undefined_behaviour :=
| OutOfBounds (a : array) (index : Z)
| NullDereference
| UseAfterFree (p : ptr).

Inductive outcome (A : Type) : Type :=
| Ret (a : A)
| Abort
| Undefined (u : undefined_behaviour).
Arguments Ret {A} a.
Arguments Abort {A}.
Arguments Undefined {A} u.

(** Everything the modelled code reads or writes:
    - [dev], the device object [*s];
    - [smmu_viommu], the field [viommu] of [ARM_SMMU(s->smmu_dev)];
    - [shared_page], what [smmu_iommu_get_shared_page] returns;
    - [is_ram], the answers of [cpu_physical_memory_is_ram];
    - [mem], the 32-bit words of host memory the shared page lies in, by
      address (a word that is absent reads as 0);
    - [heap], the live [g_malloc] blocks that hold queue objects, and
      [next_ptr], the next address [g_malloc] hands out (addresses are not
      reused);
    - [errno];
    - [kernel], the kernel behind /dev/iommu as a function of the requests
      received so far and the current one;
    - [trace], the requests sent and diagnostics printed, oldest first. *)
Record World := {
  dev : Tegra241CMDQV;
  smmu_viommu : option IOMMUFDViommu;
  shared_page : option Z;
  is_ram : Z -> bool;
  mem : gmap Z Z;
  heap : gmap ptr IOMMUFDVqueue;
  next_ptr : ptr;
  errno : Z;
  kernel : list request -> request -> reply;
  trace : list event;
}.

(** Field updates. *)

Definition set_viommu (x : option IOMMUFDViommu) (s : Tegra241CMDQV) : Tegra241CMDQV :=
  {| viommu := x; vqueue := vqueue s; vcmdq_page0 := vcmdq_page0 s;
     config := config s; param := param s; status := status s;
     vi_err_map := vi_err_map s; vi_int_mask := vi_int_mask s;
     cmdq_err_map := cmdq_err_map s; cmdq_alloc_map := cmdq_alloc_map s;
     vintf_config := vintf_config s; vintf_status := vintf_status s;
     vintf_cmdq_err_map := vintf_cmdq_err_map s;
     vcmdq_cons_indx := vcmdq_cons_indx s;
     vcmdq_prod_indx := vcmdq_prod_indx s; vcmdq_config := vcmdq_config s;
     vcmdq_status := vcmdq_status s; vcmdq_gerror := vcmdq_gerror s;
     vcmdq_gerrorn := vcmdq_gerrorn s; vcmdq_base := vcmdq_base s;
     vcmdq_cons_indx_base := vcmdq_cons_indx_base s |}.

Definition set_vqueue (x : list (option ptr)) (s : Tegra241CMDQV) : Tegra241CMDQV :=
  {| viommu := viommu s; vqueue := x; vcmdq_page0 := vcmdq_page0 s;
     config := config s; param := param s; status := status s;
     vi_err_map := vi_err_map s; vi_int_mask := vi_int_mask s;
     cmdq_err_map := cmdq_err_map s; cmdq_alloc_map := cmdq_alloc_map s;
     vintf_config := vintf_config s; vintf_status := vintf_status s;
     vintf_cmdq_err_map := vintf_cmdq_err_map s;
     vcmdq_cons_indx := vcmdq_cons_indx s;
     vcmdq_prod_indx := vcmdq_prod_indx s; vcmdq_config := vcmdq_config s;
     vcmdq_status := vcmdq_status s; vcmdq_gerror := vcmdq_gerror s;
     vcmdq_gerrorn := vcmdq_gerrorn s; vcmdq_base := vcmdq_base s;
     vcmdq_cons_indx_base := vcmdq_cons_indx_base s |}.

Definition set_vcmdq_page0 (x : option Z) (s : Tegra241CMDQV) : Tegra241CMDQV :=
  {| viommu := viommu s; vqueue := vqueue s; vcmdq_page0 := x;
     config := config s; param := param s; status := status s;
     vi_err_map := vi_err_map s; vi_int_mask := vi_int_mask s;
     cmdq_err_map := cmdq_err_map s; cmdq_alloc_map := cmdq_alloc_map s;
     vintf_config := vintf_config s; vintf_status := vintf_status s;
     vintf_cmdq_err_map := vintf_cmdq_err_map s;
     vcmdq_cons_indx := vcmdq_cons_indx s;
     vcmdq_prod_indx := vcmdq_prod_indx s; vcmdq_config := vcmdq_config s;
     vcmdq_status := vcmdq_status s; vcmdq_gerror := vcmdq_gerror s;
     vcmdq_gerrorn := vcmdq_gerrorn s; vcmdq_base := vcmdq_base s;
     vcmdq_cons_indx_base := vcmdq_cons_indx_base s |}.

Definition set_config (x : Z) (s : Tegra241CMDQV) : Tegra241CMDQV :=
  {| viommu := viommu s; vqueue := vqueue s; vcmdq_page0 := vcmdq_page0 s;
     config := x; param := param s; status := status s;
     vi_err_map := vi_err_map s; vi_int_mask := vi_int_mask s;
     cmdq_err_map := cmdq_err_map s; cmdq_alloc_map := cmdq_alloc_map s;
     vintf_config := vintf_config s; vintf_status := vintf_status s;
     vintf_cmdq_err_map := vintf_cmdq_err_map s;
     vcmdq_cons_indx := vcmdq_cons_indx s;
     vcmdq_prod_indx := vcmdq_prod_indx s; vcmdq_config := vcmdq_config s;
     vcmdq_status := vcmdq_status s; vcmdq_gerror := vcmdq_gerror s;
     vcmdq_gerrorn := vcmdq_gerrorn s; vcmdq_base := vcmdq_base s;
     vcmdq_cons_indx_base := vcmdq_cons_indx_base s |}.

Definition set_param (x : Z) (s : Tegra241CMDQV) : Tegra241CMDQV :=
  {| viommu := viommu s; vqueue := vqueue s; vcmdq_page0 := vcmdq_page0 s;
     config := config s; param := x; status := status s;
     vi_err_map := vi_err_map s; vi_int_mask := vi_int_mask s;
     cmdq_err_map := cmdq_err_map s; cmdq_alloc_map := cmdq_alloc_map s;
     vintf_config := vintf_config s; vintf_status := vintf_status s;
     vintf_cmdq_err_map := vintf_cmdq_err_map s;
     vcmdq_cons_indx := vcmdq_cons_indx s;
     vcmdq_prod_indx := vcmdq_prod_indx s; vcmdq_config := vcmdq_config s;
     vcmdq_status := vcmdq_status s; vcmdq_gerror := vcmdq_gerror s;
     vcmdq_gerrorn := vcmdq_gerrorn s; vcmdq_base := vcmdq_base s;
     vcmdq_cons_indx_base := vcmdq_cons_indx_base s |}.

Definition set_status (x : Z) (s : Tegra241CMDQV) : Tegra241CMDQV :=
  {| viommu := viommu s; vqueue := vqueue s; vcmdq_page0 := vcmdq_page0 s;
     config := config s; param := param s; status := x;
     vi_err_map := vi_err_map s; vi_int_mask := vi_int_mask s;
     cmdq_err_map := cmdq_err_map s; cmdq_alloc_map := cmdq_alloc_map s;
     vintf_config := vintf_config s; vintf_status := vintf_status s;
     vintf_cmdq_err_map := vintf_cmdq_err_map s;
     vcmdq_cons_indx := vcmdq_cons_indx s;
     vcmdq_prod_indx := vcmdq_prod_indx s; vcmdq_config := vcmdq_config s;
     vcmdq_status := vcmdq_status s; vcmdq_gerror := vcmdq_gerror s;
     vcmdq_gerrorn := vcmdq_gerrorn s; vcmdq_base := vcmdq_base s;
     vcmdq_cons_indx_base := vcmdq_cons_indx_base s |}.

Definition set_vi_err_map (x : list Z) (s : Tegra241CMDQV) : Tegra241CMDQV :=
  {| viommu := viommu s; vqueue := vqueue s; vcmdq_page0 := vcmdq_page0 s;
     config := config s; param := param s; status := status s;
     vi_err_map := x; vi_int_mask := vi_int_mask s;
     cmdq_err_map := cmdq_err_map s; cmdq_alloc_map := cmdq_alloc_map s;
     vintf_config := vintf_config s; vintf_status := vintf_status s;
     vintf_cmdq_err_map := vintf_cmdq_err_map s;
     vcmdq_cons_indx := vcmdq_cons_indx s;
     vcmdq_prod_indx := vcmdq_prod_indx s; vcmdq_config := vcmdq_config s;
     vcmdq_status := vcmdq_status s; vcmdq_gerror := vcmdq_gerror s;
     vcmdq_gerrorn := vcmdq_gerrorn s; vcmdq_base := vcmdq_base s;
     vcmdq_cons_indx_base := vcmdq_cons_indx_base s |}.

Definition set_vi_int_mask (x : list Z) (s : Tegra241CMDQV) : Tegra241CMDQV :=
  {| viommu := viommu s; vqueue := vqueue s; vcmdq_page0 := vcmdq_page0 s;
     config := config s; param := param s; status := status s;
     vi_err_map := vi_err_map s; vi_int_mask := x;
     cmdq_err_map := cmdq_err_map s; cmdq_alloc_map := cmdq_alloc_map s;
     vintf_config := vintf_config s; vintf_status := vintf_status s;
     vintf_cmdq_err_map := vintf_cmdq_err_map s;
     vcmdq_cons_indx := vcmdq_cons_indx s;
     vcmdq_prod_indx := vcmdq_prod_indx s; vcmdq_config := vcmdq_config s;
     vcmdq_status := vcmdq_status s; vcmdq_gerror := vcmdq_gerror s;
     vcmdq_gerrorn := vcmdq_gerrorn s; vcmdq_base := vcmdq_base s;
     vcmdq_cons_indx_base := vcmdq_cons_indx_base s |}.

Definition set_cmdq_err_map (x : list Z) (s : Tegra241CMDQV) : Tegra241CMDQV :=
  {| viommu := viommu s; vqueue := vqueue s; vcmdq_page0 := vcmdq_page0 s;
     config := config s; param := param s; status := status s;
     vi_err_map := vi_err_map s; vi_int_mask := vi_int_mask s;
     cmdq_err_map := x; cmdq_alloc_map := cmdq_alloc_map s;
     vintf_config := vintf_config s; vintf_status := vintf_status s;
     vintf_cmdq_err_map := vintf_cmdq_err_map s;
     vcmdq_cons_indx := vcmdq_cons_indx s;
     vcmdq_prod_indx := vcmdq_prod_indx s; vcmdq_config := vcmdq_config s;
     vcmdq_status := vcmdq_status s; vcmdq_gerror := vcmdq_gerror s;
     vcmdq_gerrorn := vcmdq_gerrorn s; vcmdq_base := vcmdq_base s;
     vcmdq_cons_indx_base := vcmdq_cons_indx_base s |}.

Definition set_cmdq_alloc_map (x : list Z) (s : Tegra241CMDQV) : Tegra241CMDQV :=
  {| viommu := viommu s; vqueue := vqueue s; vcmdq_page0 := vcmdq_page0 s;
     config := config s; param := param s; status := status s;
     vi_err_map := vi_err_map s; vi_int_mask := vi_int_mask s;
     cmdq_err_map := cmdq_err_map s; cmdq_alloc_map := x;
     vintf_config := vintf_config s; vintf_status := vintf_status s;
     vintf_cmdq_err_map := vintf_cmdq_err_map s;
     vcmdq_cons_indx := vcmdq_cons_indx s;
     vcmdq_prod_indx := vcmdq_prod_indx s; vcmdq_config := vcmdq_config s;
     vcmdq_status := vcmdq_status s; vcmdq_gerror := vcmdq_gerror s;
     vcmdq_gerrorn := vcmdq_gerrorn s; vcmdq_base := vcmdq_base s;
     vcmdq_cons_indx_base := vcmdq_cons_indx_base s |}.

Definition set_vintf_config (x : Z) (s : Tegra241CMDQV) : Tegra241CMDQV :=
  {| viommu := viommu s; vqueue := vqueue s; vcmdq_page0 := vcmdq_page0 s;
     config := config s; param := param s; status := status s;
     vi_err_map := vi_err_map s; vi_int_mask := vi_int_mask s;
     cmdq_err_map := cmdq_err_map s; cmdq_alloc_map := cmdq_alloc_map s;
     vintf_config := x; vintf_status := vintf_status s;
     vintf_cmdq_err_map := vintf_cmdq_err_map s;
     vcmdq_cons_indx := vcmdq_cons_indx s;
     vcmdq_prod_indx := vcmdq_prod_indx s; vcmdq_config := vcmdq_config s;
     vcmdq_status := vcmdq_status s; vcmdq_gerror := vcmdq_gerror s;
     vcmdq_gerrorn := vcmdq_gerrorn s; vcmdq_base := vcmdq_base s;
     vcmdq_cons_indx_base := vcmdq_cons_indx_base s |}.

Definition set_vintf_status (x : Z) (s : Tegra241CMDQV) : Tegra241CMDQV :=
  {| viommu := viommu s; vqueue := vqueue s; vcmdq_page0 := vcmdq_page0 s;
     config := config s; param := param s; status := status s;
     vi_err_map := vi_err_map s; vi_int_mask := vi_int_mask s;
     cmdq_err_map := cmdq_err_map s; cmdq_alloc_map := cmdq_alloc_map s;
     vintf_config := vintf_config s; vintf_status := x;
     vintf_cmdq_err_map := vintf_cmdq_err_map s;
     vcmdq_cons_indx := vcmdq_cons_indx s;
     vcmdq_prod_indx := vcmdq_prod_indx s; vcmdq_config := vcmdq_config s;
     vcmdq_status := vcmdq_status s; vcmdq_gerror := vcmdq_gerror s;
     vcmdq_gerrorn := vcmdq_gerrorn s; vcmdq_base := vcmdq_base s;
     vcmdq_cons_indx_base := vcmdq_cons_indx_base s |}.

Definition set_vintf_cmdq_err_map (x : list Z) (s : Tegra241CMDQV) : Tegra241CMDQV :=
  {| viommu := viommu s; vqueue := vqueue s; vcmdq_page0 := vcmdq_page0 s;
     config := config s; param := param s; status := status s;
     vi_err_map := vi_err_map s; vi_int_mask := vi_int_mask s;
     cmdq_err_map := cmdq_err_map s; cmdq_alloc_map := cmdq_alloc_map s;
     vintf_config := vintf_config s; vintf_status := vintf_status s;
     vintf_cmdq_err_map := x; vcmdq_cons_indx := vcmdq_cons_indx s;
     vcmdq_prod_indx := vcmdq_prod_indx s; vcmdq_config := vcmdq_config s;
     vcmdq_status := vcmdq_status s; vcmdq_gerror := vcmdq_gerror s;
     vcmdq_gerrorn := vcmdq_gerrorn s; vcmdq_base := vcmdq_base s;
     vcmdq_cons_indx_base := vcmdq_cons_indx_base s |}.

Definition set_vcmdq_cons_indx (x : list Z) (s : Tegra241CMDQV) : Tegra241CMDQV :=
  {| viommu := viommu s; vqueue := vqueue s; vcmdq_page0 := vcmdq_page0 s;
     config := config s; param := param s; status := status s;
     vi_err_map := vi_err_map s; vi_int_mask := vi_int_mask s;
     cmdq_err_map := cmdq_err_map s; cmdq_alloc_map := cmdq_alloc_map s;
     vintf_config := vintf_config s; vintf_status := vintf_status s;
     vintf_cmdq_err_map := vintf_cmdq_err_map s; vcmdq_cons_indx := x;
     vcmdq_prod_indx := vcmdq_prod_indx s; vcmdq_config := vcmdq_config s;
     vcmdq_status := vcmdq_status s; vcmdq_gerror := vcmdq_gerror s;
     vcmdq_gerrorn := vcmdq_gerrorn s; vcmdq_base := vcmdq_base s;
     vcmdq_cons_indx_base := vcmdq_cons_indx_base s |}.

Definition set_vcmdq_prod_indx (x : list Z) (s : Tegra241CMDQV) : Tegra241CMDQV :=
  {| viommu := viommu s; vqueue := vqueue s; vcmdq_page0 := vcmdq_page0 s;
     config := config s; param := param s; status := status s;
     vi_err_map := vi_err_map s; vi_int_mask := vi_int_mask s;
     cmdq_err_map := cmdq_err_map s; cmdq_alloc_map := cmdq_alloc_map s;
     vintf_config := vintf_config s; vintf_status := vintf_status s;
     vintf_cmdq_err_map := vintf_cmdq_err_map s;
     vcmdq_cons_indx := vcmdq_cons_indx s; vcmdq_prod_indx := x;
     vcmdq_config := vcmdq_config s; vcmdq_status := vcmdq_status s;
     vcmdq_gerror := vcmdq_gerror s; vcmdq_gerrorn := vcmdq_gerrorn s;
     vcmdq_base := vcmdq_base s;
     vcmdq_cons_indx_base := vcmdq_cons_indx_base s |}.

Definition set_vcmdq_config (x : list Z) (s : Tegra241CMDQV) : Tegra241CMDQV :=
  {| viommu := viommu s; vqueue := vqueue s; vcmdq_page0 := vcmdq_page0 s;
     config := config s; param := param s; status := status s;
     vi_err_map := vi_err_map s; vi_int_mask := vi_int_mask s;
     cmdq_err_map := cmdq_err_map s; cmdq_alloc_map := cmdq_alloc_map s;
     vintf_config := vintf_config s; vintf_status := vintf_status s;
     vintf_cmdq_err_map := vintf_cmdq_err_map s;
     vcmdq_cons_indx := vcmdq_cons_indx s;
     vcmdq_prod_indx := vcmdq_prod_indx s; vcmdq_config := x;
     vcmdq_status := vcmdq_status s; vcmdq_gerror := vcmdq_gerror s;
     vcmdq_gerrorn := vcmdq_gerrorn s; vcmdq_base := vcmdq_base s;
     vcmdq_cons_indx_base := vcmdq_cons_indx_base s |}.

Definition set_vcmdq_status (x : list Z) (s : Tegra241CMDQV) : Tegra241CMDQV :=
  {| viommu := viommu s; vqueue := vqueue s; vcmdq_page0 := vcmdq_page0 s;
     config := config s; param := param s; status := status s;
     vi_err_map := vi_err_map s; vi_int_mask := vi_int_mask s;
     cmdq_err_map := cmdq_err_map s; cmdq_alloc_map := cmdq_alloc_map s;
     vintf_config := vintf_config s; vintf_status := vintf_status s;
     vintf_cmdq_err_map := vintf_cmdq_err_map s;
     vcmdq_cons_indx := vcmdq_cons_indx s;
     vcmdq_prod_indx := vcmdq_prod_indx s; vcmdq_config := vcmdq_config s;
     vcmdq_status := x; vcmdq_gerror := vcmdq_gerror s;
     vcmdq_gerrorn := vcmdq_gerrorn s; vcmdq_base := vcmdq_base s;
     vcmdq_cons_indx_base := vcmdq_cons_indx_base s |}.

Definition set_vcmdq_gerror (x : list Z) (s : Tegra241CMDQV) : Tegra241CMDQV :=
  {| viommu := viommu s; vqueue := vqueue s; vcmdq_page0 := vcmdq_page0 s;
     config := config s; param := param s; status := status s;
     vi_err_map := vi_err_map s; vi_int_mask := vi_int_mask s;
     cmdq_err_map := cmdq_err_map s; cmdq_alloc_map := cmdq_alloc_map s;
     vintf_config := vintf_config s; vintf_status := vintf_status s;
     vintf_cmdq_err_map := vintf_cmdq_err_map s;
     vcmdq_cons_indx := vcmdq_cons_indx s;
     vcmdq_prod_indx := vcmdq_prod_indx s; vcmdq_config := vcmdq_config s;
     vcmdq_status := vcmdq_status s; vcmdq_gerror := x;
     vcmdq_gerrorn := vcmdq_gerrorn s; vcmdq_base := vcmdq_base s;
     vcmdq_cons_indx_base := vcmdq_cons_indx_base s |}.

Definition set_vcmdq_gerrorn (x : list Z) (s : Tegra241CMDQV) : Tegra241CMDQV :=
  {| viommu := viommu s; vqueue := vqueue s; vcmdq_page0 := vcmdq_page0 s;
     config := config s; param := param s; status := status s;
     vi_err_map := vi_err_map s; vi_int_mask := vi_int_mask s;
     cmdq_err_map := cmdq_err_map s; cmdq_alloc_map := cmdq_alloc_map s;
     vintf_config := vintf_config s; vintf_status := vintf_status s;
     vintf_cmdq_err_map := vintf_cmdq_err_map s;
     vcmdq_cons_indx := vcmdq_cons_indx s;
     vcmdq_prod_indx := vcmdq_prod_indx s; vcmdq_config := vcmdq_config s;
     vcmdq_status := vcmdq_status s; vcmdq_gerror := vcmdq_gerror s;
     vcmdq_gerrorn := x; vcmdq_base := vcmdq_base s;
     vcmdq_cons_indx_base := vcmdq_cons_indx_base s |}.

Definition set_vcmdq_base (x : list Z) (s : Tegra241CMDQV) : Tegra241CMDQV :=
  {| viommu := viommu s; vqueue := vqueue s; vcmdq_page0 := vcmdq_page0 s;
     config := config s; param := param s; status := status s;
     vi_err_map := vi_err_map s; vi_int_mask := vi_int_mask s;
     cmdq_err_map := cmdq_err_map s; cmdq_alloc_map := cmdq_alloc_map s;
     vintf_config := vintf_config s; vintf_status := vintf_status s;
     vintf_cmdq_err_map := vintf_cmdq_err_map s;
     vcmdq_cons_indx := vcmdq_cons_indx s;
     vcmdq_prod_indx := vcmdq_prod_indx s; vcmdq_config := vcmdq_config s;
     vcmdq_status := vcmdq_status s; vcmdq_gerror := vcmdq_gerror s;
     vcmdq_gerrorn := vcmdq_gerrorn s; vcmdq_base := x;
     vcmdq_cons_indx_base := vcmdq_cons_indx_base s |}.

Definition set_vcmdq_cons_indx_base (x : list Z) (s : Tegra241CMDQV) : Tegra241CMDQV :=
  {| viommu := viommu s; vqueue := vqueue s; vcmdq_page0 := vcmdq_page0 s;
     config := config s; param := param s; status := status s;
     vi_err_map := vi_err_map s; vi_int_mask := vi_int_mask s;
     cmdq_err_map := cmdq_err_map s; cmdq_alloc_map := cmdq_alloc_map s;
     vintf_config := vintf_config s; vintf_status := vintf_status s;
     vintf_cmdq_err_map := vintf_cmdq_err_map s;
     vcmdq_cons_indx := vcmdq_cons_indx s;
     vcmdq_prod_indx := vcmdq_prod_indx s; vcmdq_config := vcmdq_config s;
     vcmdq_status := vcmdq_status s; vcmdq_gerror := vcmdq_gerror s;
     vcmdq_gerrorn := vcmdq_gerrorn s; vcmdq_base := vcmdq_base s;
     vcmdq_cons_indx_base := x |}.

Definition set_dev (x : Tegra241CMDQV) (w : World) : World :=
  {| dev := x; smmu_viommu := smmu_viommu w; shared_page := shared_page w;
     is_ram := is_ram w; mem := mem w; heap := heap w;
     next_ptr := next_ptr w; errno := errno w; kernel := kernel w;
     trace := trace w |}.

Definition set_mem (x : gmap Z Z) (w : World) : World :=
  {| dev := dev w; smmu_viommu := smmu_viommu w;
     shared_page := shared_page w; is_ram := is_ram w; mem := x;
     heap := heap w; next_ptr := next_ptr w; errno := errno w;
     kernel := kernel w; trace := trace w |}.

Definition set_heap (x : gmap ptr IOMMUFDVqueue) (w : World) : World :=
  {| dev := dev w; smmu_viommu := smmu_viommu w;
     shared_page := shared_page w; is_ram := is_ram w; mem := mem w;
     heap := x; next_ptr := next_ptr w; errno := errno w; kernel := kernel w;
     trace := trace w |}.

Definition set_next_ptr (x : ptr) (w : World) : World :=
  {| dev := dev w; smmu_viommu := smmu_viommu w;
     shared_page := shared_page w; is_ram := is_ram w; mem := mem w;
     heap := heap w; next_ptr := x; errno := errno w; kernel := kernel w;
     trace := trace w |}.

Definition set_errno (x : Z) (w : World) : World :=
  {| dev := dev w; smmu_viommu := smmu_viommu w;
     shared_page := shared_page w; is_ram := is_ram w; mem := mem w;
     heap := heap w; next_ptr := next_ptr w; errno := x; kernel := kernel w;
     trace := trace w |}.

Definition set_trace (x : list event) (w : World) : World :=
  {| dev := dev w; smmu_viommu := smmu_viommu w;
     shared_page := shared_page w; is_ram := is_ram w; mem := mem w;
     heap := heap w; next_ptr := next_ptr w; errno := errno w;
     kernel := kernel w; trace := x |}.

(** ** The monad of the modelled code *)

Definition M (A : Type) : Type := World -> outcome (A * World).

#[global] Instance M_ret : MRet M := fun A a w => Ret (a, w).
#[global] Instance M_bind : MBind M := fun A B k m w =>
  match m w with
  | Ret (a, w') => k a w'
  | Abort => Abort
  | Undefined u => Undefined u
  end.

Definition undefined {A} (u : undefined_behaviour) : M A := fun _ => Undefined u.
Definition abort {A} : M A := fun _ => Abort.

Definition get_dev : M Tegra241CMDQV := fun w => Ret (dev w, w).
Definition put_dev (s : Tegra241CMDQV) : M unit := fun w => Ret (tt, set_dev s w).
Definition get_errno : M Z := fun w => Ret (errno w, w).
Definition get_smmu_viommu : M (option IOMMUFDViommu) :=
  fun w => Ret (smmu_viommu w, w).
Definition cpu_physical_memory_is_ram (addr : Z) : M bool :=
  fun w => Ret (is_ram w addr, w).

(** [smmu_iommu_get_shared_page(ARM_SMMU(s->smmu_dev), size, readonly)]:
    the address of the page, [None] for NULL. *)
Definition smmu_iommu_get_shared_page (size : Z) (readonly : bool)
    : M (option Z) :=
  fun w => Ret (shared_page w, w).

(** [qemu_log_mask(LOG_UNIMP, ...)], [error_report], [warn_report]. *)
Definition report (m : message) : M unit :=
  fun w => Ret (tt, set_trace (trace w ++ [EvReport m]) w).

(** [ioctl(fd, req, &arg)]: returns 0, or -1 with [errno] set; in both cases
    the second component is the request's output field after the call. *)
Definition ioctl (fd : Z) (req : request) : M (Z * Z) := fun w =>
  let r := kernel w (requests_of (trace w)) req in
  let w' := set_trace (trace w ++ [EvIoctl fd req]) w in
  match r_errno r with
  | None => Ret ((0, r_out r), w')
  | Some e => Ret ((-1, r_out r), set_errno e w')
  end.

(** [g_malloc(sizeof(IOMMUFDVqueue))]: never NULL; the block's contents are
    unspecified until [init] is stored. *)
Definition g_malloc (init : IOMMUFDVqueue) : M ptr := fun w =>
  let p := next_ptr w in
  Ret (p, set_next_ptr (S p) (set_heap (<[p := init]> (heap w)) w)).

(** [g_free(p)] for [p] not NULL. *)
Definition g_free (p : ptr) : M unit := fun w =>
  match heap w !! p with
  | Some _ => Ret (tt, set_heap (delete p (heap w)) w)
  | None => Undefined (UseAfterFree p)
  end.

(** Reading through a [IOMMUFDVqueue *] that is not NULL. *)
Definition deref (p : ptr) : M IOMMUFDVqueue := fun w =>
  match heap w !! p with
  | Some q => Ret (q, w)
  | None => Undefined (UseAfterFree p)
  end.

Definition store (p : ptr) (q : IOMMUFDVqueue) : M unit := fun w =>
  match heap w !! p with
  | Some _ => Ret (tt, set_heap (<[p := q]> (heap w)) w)
  | None => Undefined (UseAfterFree p)
  end.

(** [a[i]] and [a[i] = v] for an array [a] of the struct. *)
Definition in_bounds (a : array) (i : Z) : bool :=
  (0 <=? i) && (i <? declared_length a).

Definition aget {A} (d : A) (a : array) (l : list A) (i : Z) : M A :=
  if in_bounds a i then mret (nth (Z.to_nat i) l d)
  else undefined (OutOfBounds a i).

Definition aset {A} (a : array) (l : list A) (i : Z) (v : A) : M (list A) :=
  if in_bounds a i then mret (<[Z.to_nat i := v]> l)
  else undefined (OutOfBounds a i).

(** [*(uint32_t * )(s->vcmdq_page0 + off)] read and written. *)
Definition page0_load (off : Z) : M Z := fun w =>
  match vcmdq_page0 (dev w) with
  | None => Undefined NullDereference
  | Some base => Ret (default 0 (mem w !! (base + off)), w)
  end.

Definition page0_store (off v : Z) : M unit := fun w =>
  match vcmdq_page0 (dev w) with
  | None => Undefined NullDereference
  | Some base => Ret (tt, set_mem (<[base + off := u32 v]> (mem w)) w)
  end.

(** ** backends/iommufd.c *)

Definition iommufd_backend_free_id (be : IOMMUFDBackend) (id : Z) : M unit :=
  '(ret, _) ← ioctl (fd be) (IOMMU_DESTROY id);
  if negb (ret =? 0) then
    e ← get_errno; report (msg_failed_to_free_id id e)
  else mret tt.


(** The caller's [*entry_num] is an argument and, with its value when the
    function returns, the second component of the result. *)
Definition iommufd_backend_invalidate_cache (be : IOMMUFDBackend)
    (hwpt_id data_type entry_len entry_num data_ptr : Z) : M (Z * Z) :=
  '(ret, cache_entry_num) ←
    ioctl (fd be)
      (IOMMU_HWPT_INVALIDATE hwpt_id data_type entry_len entry_num data_ptr);
  if negb (ret =? 0) then
    let entry_num := cache_entry_num in
    e ← get_errno;
    report (msg_hwpt_invalidate_failed e);;
    mret (- e, entry_num)
  else
    if entry_num =? cache_entry_num then mret (ret, entry_num)
    else abort.

Definition iommufd_backend_invalidate_dev_cache (be : IOMMUFDBackend)
    (dev_id data_type entry_len entry_num data_ptr : Z) : M (Z * Z) :=
  '(ret, cache_entry_num) ←
    ioctl (fd be)
      (IOMMU_DEV_INVALIDATE dev_id data_type entry_len entry_num data_ptr);
  if negb (ret =? 0) then
    let entry_num := cache_entry_num in
    e ← get_errno;
    report (msg_dev_invalidate_failed e);;
    mret (- e, entry_num)
  else
    if entry_num =? cache_entry_num then mret (ret, entry_num)
    else abort.

(** Returns the new object's address, [None] for NULL. *)
Definition iommufd_viommu_alloc_queue (v : IOMMUFDViommu)
    (data_type : uapi.vqueue_data_type) (len : Z)
    (data : uapi.iommu_vqueue_tegra241_cmdqv) : M (option ptr) :=
  let unset := {| vqueue_viommu := v; vqueue_id := 0 |} in
  vq ← g_malloc unset;
  '(ret, out_vqueue_id) ←
    ioctl (fd (iommufd v)) (IOMMU_VQUEUE_ALLOC (viommu_id v) data_type len data);
  if negb (ret =? 0) then
    e ← get_errno;
    report (msg_vqueue_alloc_failed e);;
    g_free vq;;
    mret None
  else
    store vq {| vqueue_viommu := v; vqueue_id := u32 out_vqueue_id |};;
    mret (Some vq).

(** ** hw/arm/tegra241-cmdqv.c *)

(** Access to one element of an array of the register cache: [f] projects
    the array, [setf] replaces it. *)
Definition rd_arr (a : array) (f : Tegra241CMDQV -> list Z) (i : Z) : M Z :=
  s ← get_dev; aget 0 a (f s) i.

Definition wr_arr (a : array) (f : Tegra241CMDQV -> list Z)
    (setf : list Z -> Tegra241CMDQV -> Tegra241CMDQV) (i v : Z) : M unit :=
  s ← get_dev; l ← aset a (f s) i v; put_dev (setf l s).

(** [s->arr[i] op= ...] *)
Definition modify_arr (a : array) (f : Tegra241CMDQV -> list Z)
    (setf : list Z -> Tegra241CMDQV -> Tegra241CMDQV) (i : Z) (g : Z -> Z)
    : M unit :=
  x ← rd_arr a f i; wr_arr a f setf i (g x).

(** [for (i = lo; i < lo + n; i++) body] *)
Fixpoint for_loop (n : nat) (i : Z) (body : Z -> M unit) : M unit :=
  match n with
  | O => mret tt
  | S n' => body i;; for_loop n' (i + 1) body
  end.

Definition cmdqv_init_regs : M unit :=
  s ← get_dev; put_dev (set_config V_CONFIG_RESET s);;
  s ← get_dev; put_dev (set_param V_PARAM_RESET s);;
  s ← get_dev; put_dev (set_status R_STATUS_CMDQV_ENABLED_MASK s);;
  for_loop 2 0 (fun i =>
    wr_arr arr_vi_err_map vi_err_map set_vi_err_map i 0;;
    wr_arr arr_vi_int_mask vi_int_mask set_vi_int_mask i 0;;
    wr_arr arr_cmdq_err_map cmdq_err_map set_cmdq_err_map i 0);;
  s ← get_dev; put_dev (set_vintf_config 0 s);;
  s ← get_dev; put_dev (set_vintf_status 0 s);;
  for_loop 4 0 (fun i =>
    wr_arr arr_vintf_cmdq_err_map vintf_cmdq_err_map set_vintf_cmdq_err_map i 0);;
  for_loop 128 0 (fun i =>
    wr_arr arr_cmdq_alloc_map cmdq_alloc_map set_cmdq_alloc_map i 0;;
    wr_arr arr_vcmdq_cons_indx vcmdq_cons_indx set_vcmdq_cons_indx i 0;;
    wr_arr arr_vcmdq_prod_indx vcmdq_prod_indx set_vcmdq_prod_indx i 0;;
    wr_arr arr_vcmdq_config vcmdq_config set_vcmdq_config i 0;;
    wr_arr arr_vcmdq_status vcmdq_status set_vcmdq_status i 0;;
    wr_arr arr_vcmdq_gerror vcmdq_gerror set_vcmdq_gerror i 0;;
    wr_arr arr_vcmdq_gerrorn vcmdq_gerrorn set_vcmdq_gerrorn i 0;;
    wr_arr arr_vcmdq_base vcmdq_base set_vcmdq_base i 0;;
    wr_arr arr_vcmdq_cons_indx_base vcmdq_cons_indx_base
      set_vcmdq_cons_indx_base i 0).

(** Note that offset aligns down to 0x1000 *)
Definition tegra241_cmdqv_read_vintf (offset : Z) : M Z :=
  if offset =? A_VINTF0_CONFIG then
    s ← get_dev; mret (vintf_config s)
  else if offset =? A_VINTF0_STATUS then
    s ← get_dev; mret (vintf_status s)
  else if case_range A_VINTF0_CMDQ_ERR_MAP_0 A_VINTF0_CMDQ_ERR_MAP_3 offset then
    let i := (offset - A_VINTF0_CMDQ_ERR_MAP_0) / 4 in
    rd_arr arr_vintf_cmdq_err_map vintf_cmdq_err_map i
  else
    report (msg_unhandled_read fn_tegra241_cmdqv_read_vintf offset);;
    mret 0.

(** The six registers that are refreshed from the shared page:
    [ptr = s->vcmdq_page0 + 0x80 * index + offset - 0x10000;
     s->arr[index] = *ptr; return s->arr[index];] *)
Definition read_live (a : array) (f : Tegra241CMDQV -> list Z)
    (setf : list Z -> Tegra241CMDQV -> Tegra241CMDQV) (offset index : Z) : M Z :=
  v ← page0_load (0x80 * index + offset - 0x10000);
  wr_arr a f setf index v;;
  rd_arr a f index.

(** Note that offset aligns down to 0x10000 *)
Definition tegra241_cmdqv_read_vcmdq (offset index : Z) : M Z :=
  if offset =? A_VCMDQ0_CONS_INDX then
    read_live arr_vcmdq_cons_indx vcmdq_cons_indx set_vcmdq_cons_indx offset index
  else if offset =? A_VCMDQ0_PROD_INDX then
    read_live arr_vcmdq_prod_indx vcmdq_prod_indx set_vcmdq_prod_indx offset index
  else if offset =? A_VCMDQ0_CONFIG then
    read_live arr_vcmdq_config vcmdq_config set_vcmdq_config offset index
  else if offset =? A_VCMDQ0_STATUS then
    read_live arr_vcmdq_status vcmdq_status set_vcmdq_status offset index
  else if offset =? A_VCMDQ0_GERROR then
    read_live arr_vcmdq_gerror vcmdq_gerror set_vcmdq_gerror offset index
  else if offset =? A_VCMDQ0_GERRORN then
    read_live arr_vcmdq_gerrorn vcmdq_gerrorn set_vcmdq_gerrorn offset index
  else if offset =? A_VCMDQ0_BASE_L then
    rd_arr arr_vcmdq_base vcmdq_base index
  else if offset =? A_VCMDQ0_BASE_H then
    b ← rd_arr arr_vcmdq_base vcmdq_base index; mret (Z.shiftr b 32)
  else if offset =? A_VCMDQ0_CONS_INDX_BASE_DRAM_L then
    rd_arr arr_vcmdq_cons_indx_base vcmdq_cons_indx_base index
  else if offset =? A_VCMDQ0_CONS_INDX_BASE_DRAM_H then
    b ← rd_arr arr_vcmdq_cons_indx_base vcmdq_cons_indx_base index;
    mret (Z.shiftr b 32)
  else
    report (msg_unhandled_read fn_tegra241_cmdqv_read_vcmdq offset);;
    mret 0.

(** The registration of the two RAM-device memory regions over the page is
    plumbing of the memory subsystem and leaves nothing in the state. *)
Definition tegra241_cmdqv_init_vcmdq_page0 : M Z :=
  p ← smmu_iommu_get_shared_page VCMDQ_REG_PAGE_SIZE false;
  s ← get_dev; put_dev (set_vcmdq_page0 p s);;
  s ← get_dev;
  match vcmdq_page0 s with
  | None => report msg_failed_mmap_page0;; mret (- EIO)
  | Some _ => mret 0
  end.

(** [if (!s->vcmdq_page0) tegra241_cmdqv_init_vcmdq_page0(s);] *)
Definition map_page0_once : M unit :=
  s ← get_dev;
  match vcmdq_page0 s with
  | None => tegra241_cmdqv_init_vcmdq_page0;; mret tt
  | Some _ => mret tt
  end.

Definition tegra241_cmdqv_read (offset size : Z) : M Z :=
  map_page0_once;;
  if 0x50000 <? offset then
    report (msg_off_limit fn_tegra241_cmdqv_read offset);;
    mret 0
  else
  (* Fallback to cached register values *)
  if offset =? A_CONFIG then
    s ← get_dev; mret (config s)
  else if offset =? A_PARAM then
    s ← get_dev; mret (param s)
  else if offset =? A_STATUS then
    s ← get_dev; mret (status s)
  else if case_range A_VI_ERR_MAP A_VI_ERR_MAP_1 offset then
    rd_arr arr_vi_err_map vi_err_map ((offset - A_VI_ERR_MAP) / 2)
  else if case_range A_VI_INT_MASK A_VI_INT_MASK_1 offset then
    rd_arr arr_vi_int_mask vi_int_mask ((offset - A_VI_INT_MASK) / 2)
  else if case_range A_CMDQ_ERR_MAP A_CMDQ_ERR_MAP_3 offset then
    rd_arr arr_cmdq_err_map cmdq_err_map ((offset - A_CMDQ_ERR_MAP) / 4)
  else if case_range A_CMDQ_ALLOC_MAP_0 A_CMDQ_ALLOC_MAP_127 offset then
    rd_arr arr_cmdq_alloc_map cmdq_alloc_map ((offset - A_CMDQ_ALLOC_MAP_0) / 128)
  else if case_range A_VINTF0_CONFIG A_VINTF0_CMDQ_ERR_MAP_3 offset then
    tegra241_cmdqv_read_vintf offset
  else if case_range A_VCMDQ0_CONS_INDX A_VCMDQ127_GERRORN offset then
    (* Align offset down to 0x10000 while extracting the index *)
    let index := (offset - 0x10000) / 0x80 in
    tegra241_cmdqv_read_vcmdq (offset - 0x80 * index) index
  else if case_range A_VCMDQ0_BASE_L A_VCMDQ127_CONS_INDX_BASE_DRAM_H offset then
    (* Align offset down to 0x20000 while extracting the index *)
    let index := (offset - 0x20000) / 0x80 in
    tegra241_cmdqv_read_vcmdq (offset - 0x80 * index) index
  else
    report (msg_unhandled_read fn_tegra241_cmdqv_read offset);;
    mret 0.

(** Note that offset aligns down to 0x1000 *)
Definition tegra241_cmdqv_write_vintf (offset value size : Z) : M unit :=
  if offset =? A_VINTF0_CONFIG then
    (* Strip off HYP_OWN setting from guest kernel *)
    let value := Z.land value (not64 R_VINTF0_CONFIG_HYP_OWN_MASK) in
    s ← get_dev; put_dev (set_vintf_config (u32 value) s);;
    if negb (Z.land value R_VINTF0_CONFIG_ENABLE_MASK =? 0) then
      s ← get_dev;
      put_dev (set_vintf_status (u32 R_VINTF0_STATUS_ENABLE_OK_MASK) s)
    else
      s ← get_dev;
      put_dev (set_vintf_status
                 (Z.land (vintf_status s) (not32 R_VINTF0_STATUS_ENABLE_OK_MASK)) s)
  else
    report (msg_unhandled_write fn_tegra241_cmdqv_write_vintf offset).

(** The local [vqueue] of the source is [vq] here. *)
Definition tegra241_cmdqv_setup_vcmdq (index : Z) : M Z :=
  bs_viommu ← get_smmu_viommu;
  let base_mask :=
    Z.lor R_VCMDQ0_BASE_L_ADDR_MASK (u64 (Z.shiftl R_VCMDQ0_BASE_H_ADDR_MASK 32)) in
  b ← rd_arr arr_vcmdq_base vcmdq_base index;
  let data :=
    {| uapi.vcmdq_id := index;
       uapi.vcmdq_log2size := u32 (Z.land b R_VCMDQ0_BASE_L_LOG2SIZE_MASK);
       uapi.vcmdq_base := Z.land b base_mask |} in
  s ← get_dev;
  vq ← aget None arr_vqueue (vqueue s) index;
  match bs_viommu with
  | None => mret (- ENODEV)
  | Some bsv =>
    if uapi.vcmdq_log2size data =? 0 then mret (- EINVAL)
    else
    ram ← cpu_physical_memory_is_ram (uapi.vcmdq_base data);
    if negb ram then mret (- EINVAL)
    else
    match vq with
    | Some p =>
        q ← deref p;
        iommufd_backend_free_id (iommufd bsv) (vqueue_id q);;
        g_free p
    | None => mret tt
    end;;
    s ← get_dev;
    match viommu s with
    | None => put_dev (set_viommu (Some bsv) s)
    | Some _ => mret tt
    end;;
    vq ← iommufd_viommu_alloc_queue bsv uapi.IOMMU_VQUEUE_DATA_TEGRA241_CMDQV
                uapi.sizeof_iommu_vqueue_tegra241_cmdqv data;
    match vq with
    | None =>
        report (msg_failed_allocate_vcmdq index (viommu_id bsv));;
        mret (- ENODEV)
    | Some p =>
        s ← get_dev;
        l ← aset arr_vqueue (vqueue s) index (Some p);
        put_dev (set_vqueue l s);;
        mret 0
    end
  end.

(** The four registers that are written through to the shared page:
    [ptr = s->vcmdq_page0 + 0x80 * index + offset - 0x10000;
     *ptr = s->arr[index] = value;] *)
Definition write_live (a : array) (f : Tegra241CMDQV -> list Z)
    (setf : list Z -> Tegra241CMDQV -> Tegra241CMDQV) (offset index value : Z)
    : M unit :=
  wr_arr a f setf index (u32 value);;
  page0_store (0x80 * index + offset - 0x10000) (u32 value).

(** Note that offset aligns down to 0x10000 *)
Definition tegra241_cmdqv_write_vcmdq (offset index value size : Z) : M unit :=
  if offset =? A_VCMDQ0_CONS_INDX then
    write_live arr_vcmdq_cons_indx vcmdq_cons_indx set_vcmdq_cons_indx
      offset index value
  else if offset =? A_VCMDQ0_PROD_INDX then
    write_live arr_vcmdq_prod_indx vcmdq_prod_indx set_vcmdq_prod_indx
      offset index value
  else if offset =? A_VCMDQ0_CONFIG then
    write_live arr_vcmdq_config vcmdq_config set_vcmdq_config offset index value
  else if offset =? A_VCMDQ0_GERRORN then
    write_live arr_vcmdq_gerrorn vcmdq_gerrorn set_vcmdq_gerrorn offset index value
  else if offset =? A_VCMDQ0_BASE_L then
    (if size =? 8 then
       wr_arr arr_vcmdq_base vcmdq_base set_vcmdq_base index (u64 value)
     else if size =? 4 then
       modify_arr arr_vcmdq_base vcmdq_base set_vcmdq_base index
         (fun b => Z.land b 0xffffffff00000000);;
       modify_arr arr_vcmdq_base vcmdq_base set_vcmdq_base index
         (fun b => Z.lor b (Z.land value 0xffffffff))
     else mret tt);;
    tegra241_cmdqv_setup_vcmdq index;;
    mret tt
  else if offset =? A_VCMDQ0_BASE_H then
    modify_arr arr_vcmdq_base vcmdq_base set_vcmdq_base index
      (fun b => Z.land b 0xffffffff);;
    modify_arr arr_vcmdq_base vcmdq_base set_vcmdq_base index
      (fun b => Z.lor b (u64 (Z.shiftl value 32)));;
    tegra241_cmdqv_setup_vcmdq index;;
    mret tt
  else if offset =? A_VCMDQ0_CONS_INDX_BASE_DRAM_L then
    if size =? 8 then
      wr_arr arr_vcmdq_cons_indx_base vcmdq_cons_indx_base
        set_vcmdq_cons_indx_base index (u64 value)
    else if size =? 4 then
      modify_arr arr_vcmdq_cons_indx_base vcmdq_cons_indx_base
        set_vcmdq_cons_indx_base index (fun b => Z.land b 0xffffffff);;
      modify_arr arr_vcmdq_cons_indx_base vcmdq_cons_indx_base
        set_vcmdq_cons_indx_base index (fun b => Z.lor b (Z.land value 0xffffffff))
    else mret tt
  else if offset =? A_VCMDQ0_CONS_INDX_BASE_DRAM_H then
    modify_arr arr_vcmdq_cons_indx_base vcmdq_cons_indx_base
      set_vcmdq_cons_indx_base index
      (fun b => Z.land b (u64 (Z.shiftl 0xffffffff 32)));;
    modify_arr arr_vcmdq_cons_indx_base vcmdq_cons_indx_base
      set_vcmdq_cons_indx_base index
      (fun b => Z.lor b (u64 (Z.shiftl value 32)))
  else
    report (msg_unhandled_write fn_tegra241_cmdqv_write_vcmdq offset).

(** The bodies shared by a primary window and, after [offset -= 0x20000]
    and the fall through, its alias. *)
Definition write_vcmdq_page0 (offset value size : Z) : M unit :=
  (* Align offset down to 0x10000 while extracting the index *)
  let index := (offset - 0x10000) / 0x80 in
  tegra241_cmdqv_write_vcmdq (offset - 0x80 * index) index value size.

Definition write_vcmdq_page1 (offset value size : Z) : M unit :=
  (* Align offset down to 0x20000 while extracting the index *)
  let index := (offset - 0x20000) / 0x80 in
  tegra241_cmdqv_write_vcmdq (offset - 0x80 * index) index value size.

Definition tegra241_cmdqv_write (offset value size : Z) : M unit :=
  map_page0_once;;
  if 0x50000 <? offset then
    report (msg_off_limit fn_tegra241_cmdqv_write offset)
  else
  if offset =? A_CONFIG then
    s ← get_dev; put_dev (set_config (u32 value) s)
  else if case_range A_VI_INT_MASK A_VI_INT_MASK_1 offset then
    wr_arr arr_vi_int_mask vi_int_mask set_vi_int_mask
      ((offset - A_VI_INT_MASK) / 2) (u32 value)
  else if case_range A_CMDQ_ALLOC_MAP_0 A_CMDQ_ALLOC_MAP_127 offset then
    wr_arr arr_cmdq_alloc_map cmdq_alloc_map set_cmdq_alloc_map
      ((offset - A_CMDQ_ALLOC_MAP_0) / 128) (u32 value)
  else if case_range A_VINTF0_CONFIG A_VINTF0_CMDQ_ERR_MAP_3 offset then
    tegra241_cmdqv_write_vintf offset value size
  else if case_range A_VI_VCMDQ0_CONS_INDX A_VI_VCMDQ127_GERRORN offset then
    let offset := offset - 0x20000 in
    write_vcmdq_page0 offset value size
  else if case_range A_VCMDQ0_CONS_INDX A_VCMDQ127_GERRORN offset then
    write_vcmdq_page0 offset value size
  else if case_range A_VI_VCMDQ0_BASE_L A_VI_VCMDQ127_CONS_INDX_BASE_DRAM_H offset then
    let offset := offset - 0x20000 in
    write_vcmdq_page1 offset value size
  else if case_range A_VCMDQ0_BASE_L A_VCMDQ127_CONS_INDX_BASE_DRAM_H offset then
    write_vcmdq_page1 offset value size
  else
    report (msg_unhandled_write fn_tegra241_cmdqv_write offset).

(** One turn of the loop of [cmdqv_reset]. *)
Definition cmdqv_reset_slot (i : Z) : M unit :=
  s ← get_dev;
  vq ← aget None arr_vqueue (vqueue s) i;
  match vq with
  | Some p =>
      match viommu s with
      | None => undefined NullDereference
      | Some v =>
          q ← deref p;
          iommufd_backend_free_id (iommufd v) (vqueue_id q);;
          g_free p;;
          s ← get_dev;
          l ← aset arr_vqueue (vqueue s) i None;
          put_dev (set_vqueue l s)
      end
  | None => mret tt
  end.

Definition cmdqv_reset : M unit :=
  for_loop 128 0 cmdqv_reset_slot;;
  cmdqv_init_regs.

Definition cmdqv_realize : M unit := cmdqv_reset.

(** * Properties

    The definitions below are used to state the properties; the scenarios
    at the end are concrete runs that start from the device as the object
    system creates it. *)

(** The register cache of the device, as one value. *)
Definition register_cache (s : Tegra241CMDQV) :=
  (config s, param s, status s, vi_err_map s, vi_int_mask s, cmdq_err_map s,
   cmdq_alloc_map s, vintf_config s, vintf_status s, vintf_cmdq_err_map s,
   (vcmdq_cons_indx s, vcmdq_prod_indx s, vcmdq_config s, vcmdq_status s,
    vcmdq_gerror s, vcmdq_gerrorn s, vcmdq_base s, vcmdq_cons_indx_base s)).

(** The register cache after [cmdqv_init_regs]. *)
Definition reset_registers :=
  (V_CONFIG_RESET, V_PARAM_RESET, R_STATUS_CMDQV_ENABLED_MASK,
   replicate 2 0, replicate 2 0, replicate 2 0, replicate 128 0, 0, 0,
   replicate 4 0,
   (replicate 128 0, replicate 128 0, replicate 128 0, replicate 128 0,
    replicate 128 0, replicate 128 0, replicate 128 0, replicate 128 0)).

(** [w'] differs from [w] by diagnostics printed and, at most, by the page
    pointer that the first access maps: registers, queue slots, queue
    objects and the shared page are the same and no request was sent. *)
Definition only_diagnostics (w w' : World) : Prop :=
  register_cache (dev w') = register_cache (dev w) /\
  vqueue (dev w') = vqueue (dev w) /\
  viommu (dev w') = viommu (dev w) /\
  heap w' = heap w /\ mem w' = mem w /\
  exists msgs, trace w' = trace w ++ map EvReport msgs.

(** Every array of the device has its declared length. *)
Record wf_dev (s : Tegra241CMDQV) : Prop := {
  len_vqueue : length (vqueue s) = 128%nat;
  len_vi_err_map : length (vi_err_map s) = 2%nat;
  len_vi_int_mask : length (vi_int_mask s) = 2%nat;
  len_cmdq_err_map : length (cmdq_err_map s) = 2%nat;
  len_cmdq_alloc_map : length (cmdq_alloc_map s) = 128%nat;
  len_vintf_cmdq_err_map : length (vintf_cmdq_err_map s) = 4%nat;
  len_vcmdq_cons_indx : length (vcmdq_cons_indx s) = 128%nat;
  len_vcmdq_prod_indx : length (vcmdq_prod_indx s) = 128%nat;
  len_vcmdq_config : length (vcmdq_config s) = 128%nat;
  len_vcmdq_status : length (vcmdq_status s) = 128%nat;
  len_vcmdq_gerror : length (vcmdq_gerror s) = 128%nat;
  len_vcmdq_gerrorn : length (vcmdq_gerrorn s) = 128%nat;
  len_vcmdq_base : length (vcmdq_base s) = 128%nat;
  len_vcmdq_cons_indx_base : length (vcmdq_cons_indx_base s) = 128%nat;
}.

(** The pointers of the device are valid: a queue slot that is not NULL
    points to a live queue object of its own, and then [s->viommu] is set. *)
Record wf (w : World) : Prop := {
  wf_lengths : wf_dev (dev w);
  wf_live : forall (i : nat) (p : ptr),
    vqueue (dev w) !! i = Some (Some p) ->
    is_Some (heap w !! p) /\ is_Some (viommu (dev w));
  wf_unshared : forall (i j : nat) (p : ptr),
    vqueue (dev w) !! i = Some (Some p) ->
    vqueue (dev w) !! j = Some (Some p) -> i = j;
}.

(** [l] with its first [k] elements set to [x]: an array part-way through
    a loop that assigns [x] to each element in turn. *)
Definition prefix_set {A} (x : A) (k : nat) (l : list A) : list A :=
  replicate k x ++ drop k l.

(** The device after [k] turns of each of the three loops of
    [cmdqv_init_regs]. *)
Definition zero_pairs (k : nat) (s : Tegra241CMDQV) : Tegra241CMDQV :=
  set_cmdq_err_map (prefix_set 0 k (cmdq_err_map s))
    (set_vi_int_mask (prefix_set 0 k (vi_int_mask s))
       (set_vi_err_map (prefix_set 0 k (vi_err_map s)) s)).

Definition zero_vintf_maps (k : nat) (s : Tegra241CMDQV) : Tegra241CMDQV :=
  set_vintf_cmdq_err_map (prefix_set 0 k (vintf_cmdq_err_map s)) s.

Definition zero_queues (k : nat) (s : Tegra241CMDQV) : Tegra241CMDQV :=
  set_vcmdq_cons_indx_base (prefix_set 0 k (vcmdq_cons_indx_base s))
    (set_vcmdq_base (prefix_set 0 k (vcmdq_base s))
       (set_vcmdq_gerrorn (prefix_set 0 k (vcmdq_gerrorn s))
          (set_vcmdq_gerror (prefix_set 0 k (vcmdq_gerror s))
             (set_vcmdq_status (prefix_set 0 k (vcmdq_status s))
                (set_vcmdq_config (prefix_set 0 k (vcmdq_config s))
                   (set_vcmdq_prod_indx (prefix_set 0 k (vcmdq_prod_indx s))
                      (set_vcmdq_cons_indx (prefix_set 0 k (vcmdq_cons_indx s))
                         (set_cmdq_alloc_map
                            (prefix_set 0 k (cmdq_alloc_map s)) s)))))))).

(** The queue object at [p] was in one of the first [k] slots. *)
Definition freed_before (slots : list (option ptr)) (k : nat) (p : ptr) : Prop :=
  exists i, (i < k)%nat /\ slots !! i = Some (Some p).

(** The invariant of the loop of [cmdqv_reset], started in [w], after [k]
    turns. *)
Record reset_inv (w : World) (k : nat) (w' : World) : Prop := {
  ri_dev : dev w' = set_vqueue (prefix_set None k (vqueue (dev w))) (dev w);
  ri_freed : forall p, freed_before (vqueue (dev w)) k p -> heap w' !! p = None;
  ri_kept : forall p, ~ freed_before (vqueue (dev w)) k p ->
                      heap w' !! p = heap w !! p;
  ri_destroyed : forall i p q v, (i < k)%nat ->
    vqueue (dev w) !! i = Some (Some p) -> heap w !! p = Some q ->
    viommu (dev w) = Some v ->
    EvIoctl (fd (iommufd v)) (IOMMU_DESTROY (vqueue_id q)) ∈ trace w';
  ri_mem : mem w' = mem w;
}.

(** The kernel's answer to [req] in state [w]. *)
Definition kernel_reply (w : World) (req : request) : reply :=
  kernel w (requests_of (trace w)) req.

(** How an invalidation call for [entry_num] entries, answered [r] by the
    kernel, ends in [o]. *)
Definition invalidate_contract (r : reply) (entry_num : Z)
    (o : outcome ((Z * Z) * World)) : Prop :=
  (* a call that returns success processed exactly the requested entries *)
  (forall n w', o = Ret ((0, n), w') ->
     r_errno r = None /\ r_out r = entry_num /\ n = entry_num) /\
  (* accepted, all entries processed: success *)
  (r_errno r = None -> r_out r = entry_num ->
     exists w', o = Ret ((0, entry_num), w')) /\
  (* accepted with another count: the assertion aborts the process *)
  (r_errno r = None -> r_out r <> entry_num -> o = Abort) /\
  (* rejected: a negative error, the caller's count set to the processed one *)
  (forall e, r_errno r = Some e ->
     exists w', o = Ret ((- e, r_out r), w') /\ - e < 0) /\
  (* the abort is none of the return values *)
  (o = Abort -> forall x, o <> Ret x).

(** ** Scenarios *)

Definition ENOMEM : Z := 12.

Definition be0 : IOMMUFDBackend := {| fd := 3; owned := true; users := 1 |}.

Definition viommu0 : IOMMUFDViommu :=
  {| iommufd := be0; s2_hwpt_id := 7; viommu_id := 9 |}.

(** The device object as the object system allocates it: all zero. *)
Definition zeroed : Tegra241CMDQV :=
  {| viommu := None; vqueue := replicate 128 None; vcmdq_page0 := None;
     config := 0; param := 0; status := 0;
     vi_err_map := replicate 2 0; vi_int_mask := replicate 2 0;
     cmdq_err_map := replicate 2 0; cmdq_alloc_map := replicate 128 0;
     vintf_config := 0; vintf_status := 0;
     vintf_cmdq_err_map := replicate 4 0;
     vcmdq_cons_indx := replicate 128 0; vcmdq_prod_indx := replicate 128 0;
     vcmdq_config := replicate 128 0; vcmdq_status := replicate 128 0;
     vcmdq_gerror := replicate 128 0; vcmdq_gerrorn := replicate 128 0;
     vcmdq_base := replicate 128 0; vcmdq_cons_indx_base := replicate 128 0 |}.

Definition is_vqueue_alloc (r : request) : bool :=
  match r with IOMMU_VQUEUE_ALLOC _ _ _ _ => true | _ => false end.

(** A kernel that grants one queue (id 77) and rejects every later queue
    allocation with ENOMEM, that has no mapping to unmap, that processes
    every entry of an invalidation, and that destroys what it is asked to. *)
Definition kernel_one_queue (past : list request) (req : request) : reply :=
  match req with
  | IOMMU_VQUEUE_ALLOC _ _ _ _ =>
      if existsb is_vqueue_alloc past
      then {| r_errno := Some ENOMEM; r_out := 0 |}
      else {| r_errno := None; r_out := 77 |}
  | IOMMU_IOAS_UNMAP _ _ _ => {| r_errno := Some ENOENT; r_out := 0 |}
  | IOMMU_HWPT_INVALIDATE _ _ _ n _ | IOMMU_DEV_INVALIDATE _ _ _ n _ =>
      {| r_errno := None; r_out := n |}
  | IOMMU_DESTROY _ => {| r_errno := None; r_out := 0 |}
  end.

(** A machine whose SMMU has a virtual IOMMU and a page to share, and in
    which every address the guest programs is RAM, before the device is
    realized. *)
Definition power_on : World :=
  {| dev := zeroed; smmu_viommu := Some viommu0; shared_page := Some 0x7f0000;
     is_ram := fun _ => true; mem := ∅; heap := ∅;
     next_ptr := 1%nat; errno := 0; kernel := kernel_one_queue; trace := [] |}.

Definition A_VCMDQ5_BASE_L : Z := A_VCMDQi_BASE_L 5.

(** The guest sets up queue 5 ... *)
Definition configure_queue5 : M unit :=
  cmdqv_realize;;
  tegra241_cmdqv_write A_VCMDQ5_BASE_L 0x10005 4.

(** ... and moves it, which the kernel does not grant. *)
Definition reconfigure_queue5 : M unit :=
  configure_queue5;;
  tegra241_cmdqv_write A_VCMDQ5_BASE_L 0x20006 4.

(** The state [configure_queue5] leaves: queue 5 is backed by the kernel
    queue 77, whose object lies at address 1. *)
Definition queue5_live : World :=
  {| dev :=
       set_vqueue (<[5%nat := Some 1%nat]> (replicate 128 None))
         (set_vcmdq_base (<[5%nat := 0x10005]> (replicate 128 0))
            (set_viommu (Some viommu0)
               (set_vcmdq_page0 (Some 0x7f0000)
                  (set_status 1
                     (set_param V_PARAM_RESET
                        (set_config V_CONFIG_RESET zeroed))))));
     smmu_viommu := Some viommu0; shared_page := Some 0x7f0000;
     is_ram := fun _ => true; mem := ∅;
     heap := {[ 1%nat := {| vqueue_viommu := viommu0; vqueue_id := 77 |} ]};
     next_ptr := 2%nat; errno := 0; kernel := kernel_one_queue;
     trace :=
       [EvIoctl 3
          (IOMMU_VQUEUE_ALLOC 9 uapi.IOMMU_VQUEUE_DATA_TEGRA241_CMDQV 16
             {| uapi.vcmdq_id := 5; uapi.vcmdq_log2size := 5;
                uapi.vcmdq_base := 0x10000 |})] |}.

(** Two writes to the allocation map, to entries 0 and 1, read back. *)
Definition write_alloc_map_0_1 : M (Z * Z) :=
  cmdqv_realize;;
  tegra241_cmdqv_write (A_CMDQ_ALLOC_MAP_ 0) 0x11 4;;
  tegra241_cmdqv_write (A_CMDQ_ALLOC_MAP_ 1) 0x22 4;;
  r0 ← tegra241_cmdqv_read (A_CMDQ_ALLOC_MAP_ 0) 4;
  r1 ← tegra241_cmdqv_read (A_CMDQ_ALLOC_MAP_ 1) 4;
  mret (r0, r1).

(** The guest sets up queue 5 above 4 GiB: it writes 7 to the base-high
    register, which fails the size check, then 0x10005 to the base-low
    register. *)
Definition configure_queue5_high : M unit :=
  cmdqv_realize;;
  tegra241_cmdqv_write (A_VCMDQi_BASE_H 5) 7 4;;
  tegra241_cmdqv_write A_VCMDQ5_BASE_L 0x10005 4.

(** The state [configure_queue5_high] leaves: the shadow base of queue 5
    is 0x700010005 and the queue is backed by the kernel queue 77. *)
Definition queue5_high_live : World :=
  {| dev :=
       set_vqueue (<[5%nat := Some 1%nat]> (replicate 128 None))
         (set_vcmdq_base (<[5%nat := 0x700010005]> (replicate 128 0))
            (set_viommu (Some viommu0)
               (set_vcmdq_page0 (Some 0x7f0000)
                  (set_status 1
                     (set_param V_PARAM_RESET
                        (set_config V_CONFIG_RESET zeroed))))));
     smmu_viommu := Some viommu0; shared_page := Some 0x7f0000;
     is_ram := fun _ => true; mem := ∅;
     heap := {[ 1%nat := {| vqueue_viommu := viommu0; vqueue_id := 77 |} ]};
     next_ptr := 2%nat; errno := 0; kernel := kernel_one_queue;
     trace :=
       [EvIoctl 3
          (IOMMU_VQUEUE_ALLOC 9 uapi.IOMMU_VQUEUE_DATA_TEGRA241_CMDQV 16
             {| uapi.vcmdq_id := 5; uapi.vcmdq_log2size := 5;
                uapi.vcmdq_base := 0x700010000 |})] |}.

(** A kernel that accepts every invalidation but reports one entry fewer
    than it was asked to process. *)
Definition kernel_short_count (past : list request) (req : request) : reply :=
  match req with
  | IOMMU_HWPT_INVALIDATE _ _ _ n _ | IOMMU_DEV_INVALIDATE _ _ _ n _ =>
      {| r_errno := None; r_out := n - 1 |}
  | _ => kernel_one_queue past req
  end.

(** The machine of [power_on] on that kernel. *)
Definition short_count_machine : World :=
  {| dev := zeroed; smmu_viommu := Some viommu0; shared_page := Some 0x7f0000;
     is_ram := fun _ => true; mem := ∅; heap := ∅;
     next_ptr := 1%nat; errno := 0; kernel := kernel_short_count;
     trace := [] |}.

(** * Further definitions *)

(** ** Queue set-up *)

(** The allocator's invariant: every live block lies below [next_ptr], the
    next address [g_malloc] hands out. *)
Definition heap_below (w : World) : Prop :=
  forall p : ptr, is_Some (heap w !! p) -> (p < next_ptr w)%nat.

(** [w'] is [w] but for what was printed or sent, and [errno]. *)
Definition same_but_log (w w' : World) : Prop :=
  dev w' = dev w /\ heap w' = heap w /\ mem w' = mem w /\
  next_ptr w' = next_ptr w /\ kernel w' = kernel w /\
  smmu_viommu w' = smmu_viommu w /\ is_ram w' = is_ram w /\
  shared_page w' = shared_page w.

(** The payload [tegra241_cmdqv_setup_vcmdq] builds from the shadow base
    [b] of queue [index]. *)
Definition setup_data (index b : Z) : uapi.iommu_vqueue_tegra241_cmdqv :=
  {| uapi.vcmdq_id := index;
     uapi.vcmdq_log2size := u32 (Z.land b R_VCMDQ0_BASE_L_LOG2SIZE_MASK);
     uapi.vcmdq_base :=
       Z.land b (Z.lor R_VCMDQ0_BASE_L_ADDR_MASK
                   (u64 (Z.shiftl R_VCMDQ0_BASE_H_ADDR_MASK 32))) |}.

(** The configuration in the shadow base [b] passes the checks of
    [tegra241_cmdqv_setup_vcmdq]: the SMMU has a virtual IOMMU, the size
    field is not zero and the base address is guest RAM. *)
Definition setup_checks_pass (w : World) (b : Z) : Prop :=
  is_Some (smmu_viommu w) /\
  uapi.vcmdq_log2size (setup_data 0 b) <> 0 /\
  is_ram w (uapi.vcmdq_base (setup_data 0 b)) = true.

(** The request [tegra241_cmdqv_setup_vcmdq] sends for queue [index] of
    [w] through the virtual IOMMU [bsv]. *)
Definition setup_request (index : Z) (w : World) (bsv : IOMMUFDViommu)
    : request :=
  IOMMU_VQUEUE_ALLOC (viommu_id bsv) uapi.IOMMU_VQUEUE_DATA_TEGRA241_CMDQV
    uapi.sizeof_iommu_vqueue_tegra241_cmdqv
    (setup_data index (nth (Z.to_nat index) (vcmdq_base (dev w)) 0)).

(** The request that releases the queue object in slot [index] of [w], if
    the slot holds one. *)
Definition release_request (index : Z) (w : World) : list request :=
  match vqueue (dev w) !! Z.to_nat index with
  | Some (Some p) =>
      match heap w !! p with
      | Some q => [IOMMU_DESTROY (vqueue_id q)]
      | None => []
      end
  | _ => []
  end.

(** What a call of [tegra241_cmdqv_setup_vcmdq] on slot [index] of [w],
    returning [r] in [w'], has done. *)
Definition setup_post (index : Z) (w : World) (r : Z) (w' : World) : Prop :=
  let b := nth (Z.to_nat index) (vcmdq_base (dev w)) 0 in
  let old := vqueue (dev w) !! Z.to_nat index in
  register_cache (dev w') = register_cache (dev w) /\ mem w' = mem w /\
  (r = 0 \/ r = - ENODEV \/ r = - EINVAL) /\
  (r = 0 ->
     setup_checks_pass w b /\
     vqueue (dev w') =
       <[Z.to_nat index := Some (next_ptr w)]> (vqueue (dev w)) /\
     (exists q, heap w' !! next_ptr w = Some q /\
                smmu_viommu w = Some (vqueue_viommu q)) /\
     wf w' /\ heap_below w') /\
  (r <> 0 -> vqueue (dev w') = vqueue (dev w)) /\
  (r <> 0 -> old = Some None -> heap w' = heap w /\ wf w' /\ heap_below w') /\
  (~ setup_checks_pass w b -> r <> 0 /\ w' = w) /\
  (setup_checks_pass w b ->
   forall bsv, smmu_viommu w = Some bsv ->
   let alloc := EvIoctl (fd (iommufd bsv)) (setup_request index w bsv) in
   (r = 0 <->
    r_errno (kernel w (requests_of (trace w) ++ release_request index w)
               (setup_request index w bsv)) = None) /\
   match old with
   | Some (Some p) =>
       heap w' !! p = None /\
       forall q, heap w !! p = Some q ->
       exists m1 m2,
         trace w' =
           trace w ++
           EvIoctl (fd (iommufd bsv)) (IOMMU_DESTROY (vqueue_id q)) ::
           map EvReport m1 ++ alloc :: map EvReport m2
   | _ => exists m2, trace w' = trace w ++ alloc :: map EvReport m2
   end).

(** ** Further scenarios *)

(** The realized device of [power_on] with the base register of queue 5
    programmed (ring of 2^5 entries at 0x10000) and no queue set up yet. *)
Definition queue5_programmed : World :=
  set_trace []
    (set_next_ptr 1%nat
       (set_heap ∅
          (set_dev (set_vqueue (replicate 128 None) (dev queue5_live))
             queue5_live))).

(** [queue5_live] with the base register of queue 6 programmed as well;
    the kernel of the scenario grants no second queue. *)
Definition queue6_programmed : World :=
  set_dev (set_vcmdq_base (<[6%nat := 0x30007]> (vcmdq_base (dev queue5_live)))
             (dev queue5_live)) queue5_live.

(** ** Register accesses *)

(** [w'] differs from [w] in the registers and the page pointer of the
    device and in diagnostics printed, at most: queue slots, queue objects
    and the shared page are the same and no request was sent. *)
Definition registers_only (w w' : World) : Prop :=
  vqueue (dev w') = vqueue (dev w) /\ viommu (dev w') = viommu (dev w) /\
  heap w' = heap w /\ mem w' = mem w /\
  exists msgs, trace w' = trace w ++ map EvReport msgs.

(** The per-queue registers that live in the shared page, by their place
    in the 0x80-byte block of a queue in the first per-queue window. *)
Inductive live_register :=
| CONS_INDX | PROD_INDX | CONFIG | STATUS | GERROR | GERRORN.

Definition live_offset (k : live_register) : Z :=
  match k with
  | CONS_INDX => 0x0 | PROD_INDX => 0x4 | CONFIG => 0x8
  | STATUS => 0xc | GERROR => 0x10 | GERRORN => 0x14
  end.

(** [A_VCMDQi_CONS_INDX i], [A_VCMDQi_PROD_INDX i], ... *)
Definition live_address (k : live_register) (i : Z) : Z :=
  0x10000 + live_offset k + i * 0x80.

(** The array of the register cache that shadows the register. *)
Definition live_shadow (k : live_register) : Tegra241CMDQV -> list Z :=
  match k with
  | CONS_INDX => vcmdq_cons_indx | PROD_INDX => vcmdq_prod_indx
  | CONFIG => vcmdq_config | STATUS => vcmdq_status
  | GERROR => vcmdq_gerror | GERRORN => vcmdq_gerrorn
  end.

(** The registers [tegra241_cmdqv_write_vcmdq] has a case for. *)
Definition live_writable (k : live_register) : bool :=
  match k with STATUS | GERROR => false | _ => true end.

(** The shared page is mapped at [base], or will be by the next access. *)
Definition page_at (w : World) (base : Z) : Prop :=
  vcmdq_page0 (dev w) = Some base \/
  (vcmdq_page0 (dev w) = None /\ shared_page w = Some base).

(** [queue5_live] after the hardware has raised bit 0 of the status word
    of queue 5 in the shared page. *)
Definition queue5_status_raised : World :=
  set_mem {[ 0x7f0000 + 0x80 * 5 + 0xc := 1 ]} queue5_live.

(** A machine whose SMMU has neither a virtual IOMMU nor a page to
    share. *)
Definition no_shared_page : World :=
  {| dev := zeroed; smmu_viommu := None; shared_page := None;
     is_ram := fun _ => true; mem := ∅; heap := ∅; next_ptr := 1%nat;
     errno := 0; kernel := kernel_one_queue; trace := [] |}.

(** [o] lies in the per-queue window [lo..hi] and, within the 0x80-byte
    block of its queue, at one of [offsets]. *)
Definition in_queue_window (lo hi o : Z) (offsets : list Z) : bool :=
  case_range lo hi o && existsb (Z.eqb ((o - lo) mod 0x80)) offsets.

(** The offsets at which [tegra241_cmdqv_write] stores something. *)
Definition write_handled (o : Z) : bool :=
  (o =? A_CONFIG) ||
  case_range A_VI_INT_MASK A_VI_INT_MASK_1 o ||
  case_range A_CMDQ_ALLOC_MAP_0 A_CMDQ_ALLOC_MAP_127 o ||
  (o =? A_VINTF0_CONFIG) ||
  in_queue_window A_VCMDQ0_CONS_INDX A_VCMDQ127_GERRORN o
    [0x0; 0x4; 0x8; 0x14] ||
  in_queue_window A_VI_VCMDQ0_CONS_INDX A_VI_VCMDQ127_GERRORN o
    [0x0; 0x4; 0x8; 0x14] ||
  in_queue_window A_VCMDQ0_BASE_L A_VCMDQ127_CONS_INDX_BASE_DRAM_H o
    [0x0; 0x4; 0x8; 0xc] ||
  in_queue_window A_VI_VCMDQ0_BASE_L A_VI_VCMDQ127_CONS_INDX_BASE_DRAM_H o
    [0x0; 0x4; 0x8; 0xc].

(** The offsets at which [tegra241_cmdqv_read] reads a register. *)
Definition read_handled (o : Z) : bool :=
  (o =? A_CONFIG) || (o =? A_PARAM) || (o =? A_STATUS) ||
  case_range A_VI_ERR_MAP A_VI_ERR_MAP_1 o ||
  case_range A_VI_INT_MASK A_VI_INT_MASK_1 o ||
  case_range A_CMDQ_ERR_MAP A_CMDQ_ERR_MAP_3 o ||
  case_range A_CMDQ_ALLOC_MAP_0 A_CMDQ_ALLOC_MAP_127 o ||
  (o =? A_VINTF0_CONFIG) || (o =? A_VINTF0_STATUS) ||
  case_range A_VINTF0_CMDQ_ERR_MAP_0 A_VINTF0_CMDQ_ERR_MAP_3 o ||
  in_queue_window A_VCMDQ0_CONS_INDX A_VCMDQ127_GERRORN o
    [0x0; 0x4; 0x8; 0xc; 0x10; 0x14] ||
  in_queue_window A_VCMDQ0_BASE_L A_VCMDQ127_CONS_INDX_BASE_DRAM_H o
    [0x0; 0x4; 0x8; 0xc].

(** ** The backend object (backends/iommufd.c)

    The functions that create, connect and release an [IOMMUFDBackend]
    touch nothing of the device: they are modelled over a state of their
    own, with the object, the host's answers to [qemu_open_old] and the
    system calls made. *)

Inductive host_event :=
| ev_open_dev_iommu (result : Z)   (* qemu_open_old("/dev/iommu", O_RDWR) *)
| ev_close (fd : Z)                (* close(fd) *)
| ev_error_opening_failed          (* error_setg_errno(errp, errno, ...) *)
| ev_error_parse_fd.               (* error_prepend(errp, ...) *)

(** [backend_obj] is [*be]; [qemu_open_old] is what the next call of
    [qemu_open_old] returns, given the events so far; [host_events] are the
    events, oldest first. *)
Record Host := {
  backend_obj : IOMMUFDBackend;
  qemu_open_old : list host_event -> Z;
  host_events : list host_event;
}.

Definition set_backend_obj (x : IOMMUFDBackend) (h : Host) : Host :=
  {| backend_obj := x; qemu_open_old := qemu_open_old h;
     host_events := host_events h |}.

Definition log_event (e : host_event) (h : Host) : Host :=
  {| backend_obj := backend_obj h; qemu_open_old := qemu_open_old h;
     host_events := host_events h ++ [e] |}.

Definition set_fd (x : Z) (be : IOMMUFDBackend) : IOMMUFDBackend :=
  {| fd := x; owned := owned be; users := users be |}.
Definition set_owned (x : bool) (be : IOMMUFDBackend) : IOMMUFDBackend :=
  {| fd := fd be; owned := x; users := users be |}.
Definition set_users (x : Z) (be : IOMMUFDBackend) : IOMMUFDBackend :=
  {| fd := fd be; owned := owned be; users := x |}.

Definition iommufd_backend_init (h : Host) : Host :=
  let be := backend_obj h in
  let be := set_fd (-1) be in
  let be := set_users 0 be in
  let be := set_owned true be in
  set_backend_obj be h.

Definition iommufd_backend_finalize (h : Host) : Host :=
  let be := backend_obj h in
  if owned be then
    let h := log_event (ev_close (fd be)) h in
    set_backend_obj (set_fd (-1) be) h
  else h.

(** [monitor_fd] is what [monitor_fd_param(monitor_cur(), str, errp)]
    returns. *)
Definition iommufd_backend_set_fd (monitor_fd : Z) (h : Host) : Host :=
  let be := backend_obj h in
  let fd := monitor_fd in
  if fd =? -1 then log_event ev_error_parse_fd h
  else
    let be := set_fd fd be in
    let be := set_owned false be in
    set_backend_obj be h.

Definition iommufd_backend_can_be_deleted (h : Host) : bool :=
  users (backend_obj h) =? 0.

(** [be->users] is a [uint32_t]. *)
Definition iommufd_backend_connect (h : Host) : Z * Host :=
  let be := backend_obj h in
  if owned be && (users be =? 0) then
    let fd := qemu_open_old h (host_events h) in
    let h := log_event (ev_open_dev_iommu fd) h in
    if fd <? 0 then
      (fd, log_event ev_error_opening_failed h)
    else
      let be := set_fd fd be in
      (0, set_backend_obj (set_users (u32 (users be + 1)) be) h)
  else
    (0, set_backend_obj (set_users (u32 (users be + 1)) be) h).

Definition iommufd_backend_disconnect (h : Host) : Host :=
  let be := backend_obj h in
  if users be =? 0 then h
  else
    let be := set_users (u32 (users be - 1)) be in
    if (users be =? 0) && owned be then
      let h := log_event (ev_close (fd be)) h in
      set_backend_obj (set_fd (-1) be) h
    else set_backend_obj be h.

(** Sequences of connections and disconnections. *)
Inductive backend_op := op_connect | op_disconnect.

Definition backend_step (h : Host) (op : backend_op) : Host :=
  match op with
  | op_connect => (iommufd_backend_connect h).2
  | op_disconnect => iommufd_backend_disconnect h
  end.

Definition backend_run (ops : list backend_op) (h : Host) : Host :=
  foldl backend_step h ops.

(** The descriptors that the events have opened and not closed again;
    [None] once a descriptor is closed that is not open. *)
Definition track_step (acc : option (list Z)) (e : host_event)
    : option (list Z) :=
  match acc, e with
  | None, _ => None
  | Some l, ev_open_dev_iommu r => Some (if 0 <=? r then l ++ [r] else l)
  | Some l, ev_close f =>
      if bool_decide (f ∈ l) then Some (remove Z.eq_dec f l) else None
  | Some l, _ => Some l
  end.

Definition open_descriptors (evs : list host_event) : option (list Z) :=
  foldl track_step (Some []) evs.

(** A host on which /dev/iommu opens as descriptor 7, with an object as
    the object system allocates it (all zero). *)
Definition host0 : Host :=
  {| backend_obj := {| fd := 0; owned := false; users := 0 |};
     qemu_open_old := fun _ => 7; host_events := [] |}.

(** A host on which /dev/iommu cannot be opened. *)
Definition host_no_iommu : Host :=
  {| backend_obj := {| fd := 0; owned := false; users := 0 |};
     qemu_open_old := fun _ => -1; host_events := [] |}.

(** ** The other requests of the backend (backends/iommufd.c)

    The wrappers of the requests that the device model does not send are
    modelled over a state of their own: [errno], the kernel, the requests
    sent and messages printed, and the heap of the [IOMMUFDViommu] objects
    that [iommufd_backend_alloc_viommu] allocates.  The trace points are
    left out. *)

(** The set [map.flags] of [struct iommu_ioas_map]: one boolean per flag
    that the source names. *)
Record ioas_map_flags := {
  IOMMU_IOAS_MAP_READABLE : bool;
  IOMMU_IOAS_MAP_FIXED_IOVA : bool;
  IOMMU_IOAS_MAP_WRITEABLE : bool;
}.

Inductive backend_request :=
| IOMMU_IOAS_ALLOC (flags : Z)
| IOMMU_IOAS_MAP (flags : ioas_map_flags) (ioas_id user_va iova length : Z)
| IOMMU_HWPT_ALLOC (flags dev_id pt_id data_type data_len data_uptr : Z)
| IOMMU_VIOMMU_ALLOC (type dev_id hwpt_id : Z)
| IOMMU_GET_HW_INFO (dev_id data_len data_uptr : Z).

(** The messages of [error_setg_errno] (through [errp]), [error_report]
    and [warn_report], each with the value of [errno] it prints. *)
Inductive backend_message :=
| errp_failed_to_allocate_ioas (errno : Z)
| warn_ioas_map_failed_pci_bar (errno : Z)
| msg_ioas_map_failed (errno : Z)
| msg_hwpt_alloc_failed (errno : Z)
| msg_viommu_alloc_failed (errno : Z)
| errp_failed_to_get_hardware_info (errno : Z).

Inductive backend_event :=
| BeIoctl (fd : Z) (req : backend_request)
| BeReport (m : backend_message).

Definition backend_requests_of (t : list backend_event)
    : list backend_request :=
  omap (fun e => match e with BeIoctl _ r => Some r | BeReport _ => None end) t.

Record Sys := {
  sys_errno : Z;
  sys_kernel : list backend_request -> backend_request -> reply;
  sys_trace : list backend_event;
  viommu_heap : gmap ptr IOMMUFDViommu;
  viommu_next : ptr;
}.

Definition sys_log (e : backend_event) (s : Sys) : Sys :=
  {| sys_errno := sys_errno s; sys_kernel := sys_kernel s;
     sys_trace := sys_trace s ++ [e];
     viommu_heap := viommu_heap s; viommu_next := viommu_next s |}.

Definition set_sys_errno (e : Z) (s : Sys) : Sys :=
  {| sys_errno := e; sys_kernel := sys_kernel s; sys_trace := sys_trace s;
     viommu_heap := viommu_heap s; viommu_next := viommu_next s |}.

Definition set_viommu_heap (x : gmap ptr IOMMUFDViommu) (s : Sys) : Sys :=
  {| sys_errno := sys_errno s; sys_kernel := sys_kernel s;
     sys_trace := sys_trace s; viommu_heap := x;
     viommu_next := viommu_next s |}.

Definition set_viommu_next (x : ptr) (s : Sys) : Sys :=
  {| sys_errno := sys_errno s; sys_kernel := sys_kernel s;
     sys_trace := sys_trace s; viommu_heap := viommu_heap s;
     viommu_next := x |}.

(** The kernel's answer to [req] in state [s]. *)
Definition sys_reply (s : Sys) (req : backend_request) : reply :=
  sys_kernel s (backend_requests_of (sys_trace s)) req.

(** [ioctl(fd, req, &arg)]: 0, or -1 with [errno] set; with it the
    request's output field after the call. *)
Definition sys_ioctl (fd : Z) (req : backend_request) (s : Sys)
    : (Z * Z) * Sys :=
  let r := sys_reply s req in
  let s' := sys_log (BeIoctl fd req) s in
  match r_errno r with
  | None => ((0, r_out r), s')
  | Some e => ((-1, r_out r), set_sys_errno e s')
  end.

(** The caller's [*ioas_id] is an argument and, with its value when the
    function returns, the second component of the result. *)
Definition iommufd_backend_alloc_ioas (be : IOMMUFDBackend) (ioas_id : Z)
    (s : Sys) : (Z * Z) * Sys :=
  let '((ret, out_ioas_id), s) := sys_ioctl (fd be) (IOMMU_IOAS_ALLOC 0) s in
  if negb (ret =? 0) then
    ((ret, ioas_id),
     sys_log (BeReport (errp_failed_to_allocate_ioas (sys_errno s))) s)
  else
    ((ret, u32 out_ioas_id), s).

Definition iommufd_backend_map_dma (be : IOMMUFDBackend)
    (ioas_id iova size vaddr : Z) (readonly : bool) (s : Sys) : Z * Sys :=
  let flags :=
    {| IOMMU_IOAS_MAP_READABLE := true; IOMMU_IOAS_MAP_FIXED_IOVA := true;
       IOMMU_IOAS_MAP_WRITEABLE := false |} in
  let flags :=
    if negb readonly then
      {| IOMMU_IOAS_MAP_READABLE := IOMMU_IOAS_MAP_READABLE flags;
         IOMMU_IOAS_MAP_FIXED_IOVA := IOMMU_IOAS_MAP_FIXED_IOVA flags;
         IOMMU_IOAS_MAP_WRITEABLE := true |}
    else flags in
  let '((ret, _), s) :=
    sys_ioctl (fd be) (IOMMU_IOAS_MAP flags ioas_id vaddr iova size) s in
  if negb (ret =? 0) then
    let ret := - sys_errno s in
    (* TODO: Not support mapping hardware PCI BAR region for now. *)
    if sys_errno s =? EFAULT then
      (ret, sys_log (BeReport (warn_ioas_map_failed_pci_bar (sys_errno s))) s)
    else
      (ret, sys_log (BeReport (msg_ioas_map_failed (sys_errno s))) s)
  else (ret, s).

(** The caller's [*out_hwpt] is an argument and, with its value when the
    function returns, the second component of the result. *)
Definition iommufd_backend_alloc_hwpt (be : IOMMUFDBackend)
    (dev_id pt_id flags data_type data_len data_ptr out_hwpt : Z) (s : Sys)
    : (Z * Z) * Sys :=
  let '((ret, out_hwpt_id), s) :=
    sys_ioctl (fd be)
      (IOMMU_HWPT_ALLOC flags dev_id pt_id data_type data_len data_ptr) s in
  if negb (ret =? 0) then
    let ret := - sys_errno s in
    ((ret, out_hwpt), sys_log (BeReport (msg_hwpt_alloc_failed (sys_errno s))) s)
  else
    ((ret, u32 out_hwpt_id), s).

(** Returns the new object's address, [None] for NULL.  [g_malloc] never
    returns NULL. *)
Definition iommufd_backend_alloc_viommu (be : IOMMUFDBackend)
    (dev_id viommu_type hwpt_id : Z) (s : Sys) : option ptr * Sys :=
  let unset := {| iommufd := be; s2_hwpt_id := 0; viommu_id := 0 |} in
  let p := viommu_next s in
  let s := set_viommu_next (S p)
             (set_viommu_heap (<[p := unset]> (viommu_heap s)) s) in
  let '((ret, out_viommu_id), s) :=
    sys_ioctl (fd be) (IOMMU_VIOMMU_ALLOC viommu_type dev_id hwpt_id) s in
  if negb (ret =? 0) then
    let s := sys_log (BeReport (msg_viommu_alloc_failed (sys_errno s))) s in
    (None, set_viommu_heap (delete p (viommu_heap s)) s)
  else
    (Some p,
     set_viommu_heap
       (<[p := {| iommufd := be; s2_hwpt_id := hwpt_id;
                  viommu_id := u32 out_viommu_id |}]> (viommu_heap s)) s).

(** The caller's [*type] is an argument and, with its value when the
    function returns, the second component of the result. *)
Definition iommufd_backend_get_device_info (be : IOMMUFDBackend)
    (devid type data len : Z) (s : Sys) : (Z * Z) * Sys :=
  let '((ret, out_data_type), s) :=
    sys_ioctl (fd be) (IOMMU_GET_HW_INFO devid len data) s in
  if negb (ret =? 0) then
    ((ret, type),
     sys_log (BeReport (errp_failed_to_get_hardware_info (sys_errno s))) s)
  else
    ((ret, u32 out_data_type), s).

(** A kernel that accepts every request and answers 42, and one that
    rejects every request with EFAULT. *)
Definition sys_granting : Sys :=
  {| sys_errno := 0;
     sys_kernel := fun _ _ => {| r_errno := None; r_out := 42 |};
     sys_trace := []; viommu_heap := ∅; viommu_next := 1%nat |}.

Definition sys_rejecting : Sys :=
  {| sys_errno := 0;
     sys_kernel := fun _ _ => {| r_errno := Some EFAULT; r_out := 0 |};
     sys_trace := []; viommu_heap := ∅; viommu_next := 1%nat |}.

(** ** What a computation leaves alone *)

(** The machine around the device is the same in [w] and [w']: the SMMU's
    virtual IOMMU and page, the extent of guest RAM and the kernel. *)
Definition env_same (w w' : World) : Prop :=
  smmu_viommu w' = smmu_viommu w /\ is_ram w' = is_ram w /\
  kernel w' = kernel w /\ shared_page w' = shared_page w.

(** [m] never changes the machine around the device. *)
Definition keeps_env {A} (m : M A) : Prop :=
  forall w a w', m w = Ret (a, w') -> env_same w w'.

(** * Proofs *)

(** ** Running the monad *)

Lemma bind_eq {A B} (m : M A) (k : A -> M B) (w : World) :
  (m ≫= k) w = match m w with
               | Ret (a, w') => k a w'
               | Abort => Abort
               | Undefined u => Undefined u
               end.
Proof. reflexivity. Qed.

Ltac run :=
  cbv [mbind M_bind mret M_ret get_dev put_dev report undefined abort
       get_errno get_smmu_viommu cpu_physical_memory_is_ram
       smmu_iommu_get_shared_page].

Ltac addr_consts :=
  unfold case_range, A_CONFIG, A_PARAM, A_STATUS, A_VI_ERR_MAP, A_VI_ERR_MAP_1,
    A_VI_INT_MASK, A_VI_INT_MASK_1, A_CMDQ_ERR_MAP, A_CMDQ_ERR_MAP_3,
    A_CMDQ_ALLOC_MAP_0, A_CMDQ_ALLOC_MAP_127, A_CMDQ_ALLOC_MAP_,
    A_VINTF0_CONFIG, A_VINTFi_CONFIG, A_VINTF0_STATUS, A_VINTFi_STATUS,
    A_VINTF0_CMDQ_ERR_MAP_0, A_VINTF0_CMDQ_ERR_MAP_3, A_VINTFi_LVCMDQ_ERR_MAP_,
    A_VCMDQ0_CONS_INDX, A_VCMDQ0_PROD_INDX, A_VCMDQ0_CONFIG, A_VCMDQ0_STATUS,
    A_VCMDQ0_GERROR, A_VCMDQ0_GERRORN, A_VCMDQ127_GERRORN, A_VCMDQ0_BASE_L,
    A_VCMDQ0_BASE_H, A_VCMDQ0_CONS_INDX_BASE_DRAM_L,
    A_VCMDQ0_CONS_INDX_BASE_DRAM_H, A_VCMDQ127_CONS_INDX_BASE_DRAM_H,
    A_VCMDQi_CONS_INDX, A_VCMDQi_PROD_INDX, A_VCMDQi_CONFIG, A_VCMDQi_STATUS,
    A_VCMDQi_GERROR, A_VCMDQi_GERRORN, A_VCMDQi_BASE_L, A_VCMDQi_BASE_H,
    A_VCMDQi_CONS_INDX_BASE_DRAM_L, A_VCMDQi_CONS_INDX_BASE_DRAM_H,
    A_VI_VCMDQ0_CONS_INDX, A_VI_VCMDQ127_GERRORN, A_VI_VCMDQ0_BASE_L,
    A_VI_VCMDQ127_CONS_INDX_BASE_DRAM_H, A_VI_VCMDQi_CONS_INDX,
    A_VI_VCMDQi_GERRORN, A_VI_VCMDQi_BASE_L, A_VI_VCMDQi_CONS_INDX_BASE_DRAM_H
    in *.

(** Settle one test of a [switch] by linear arithmetic. *)
Ltac settle_test :=
  match goal with
  | |- context [?a =? ?b] =>
      first [ replace (a =? b) with false by (symmetry; apply Z.eqb_neq; lia)
            | replace (a =? b) with true by (symmetry; apply Z.eqb_eq; lia) ]
  | |- context [?a <? ?b] =>
      first [ replace (a <? b) with false by (symmetry; apply Z.ltb_ge; lia)
            | replace (a <? b) with true by (symmetry; apply Z.ltb_lt; lia) ]
  | |- context [?a <=? ?b] =>
      first [ replace (a <=? b) with false by (symmetry; apply Z.leb_gt; lia)
            | replace (a <=? b) with true by (symmetry; apply Z.leb_le; lia) ]
  end.
Ltac settle_tests := repeat (settle_test; cbn [andb negb]).

Lemma set_dev_eta w : set_dev (dev w) w = w.
Proof. by destruct w. Qed.

Lemma set_vqueue_eta s : set_vqueue (vqueue s) s = s.
Proof. by destruct s. Qed.

Lemma requests_of_app t1 t2 :
  requests_of (t1 ++ t2) = requests_of t1 ++ requests_of t2.
Proof. apply omap_app. Qed.

(** ** Arrays *)

Lemma in_bounds_intro a i :
  0 <= i < declared_length a -> in_bounds a i = true.
Proof.
  intros H. unfold in_bounds. apply andb_true_intro.
  split; [apply Z.leb_le|apply Z.ltb_lt]; lia.
Qed.

Lemma in_bounds_of_nat a (k : nat) :
  Z.of_nat k < declared_length a -> in_bounds a (0 + Z.of_nat k) = true.
Proof. intros H. apply in_bounds_intro. lia. Qed.

Lemma wr_arr_in_bounds a f setf i v w :
  in_bounds a i = true ->
  wr_arr a f setf i v w =
  Ret (tt, set_dev (setf (<[Z.to_nat i := v]> (f (dev w))) (dev w)) w).
Proof. intros H. unfold wr_arr, aset. run. rewrite H. reflexivity. Qed.

Lemma rd_arr_in_bounds a f i w :
  in_bounds a i = true ->
  rd_arr a f i w = Ret (nth (Z.to_nat i) (f (dev w)) 0, w).
Proof. intros H. unfold rd_arr, aget. run. rewrite H. reflexivity. Qed.

Lemma modify_arr_in_bounds a f setf i g w :
  in_bounds a i = true ->
  modify_arr a f setf i g w =
  Ret (tt, set_dev (setf (<[Z.to_nat i := g (nth (Z.to_nat i) (f (dev w)) 0)]>
                            (f (dev w))) (dev w)) w).
Proof.
  intros H. unfold modify_arr. rewrite bind_eq, rd_arr_in_bounds by assumption.
  cbv iota beta. by rewrite wr_arr_in_bounds.
Qed.

Lemma prefix_set_all {A} (x : A) l :
  prefix_set x (length l) l = replicate (length l) x.
Proof. unfold prefix_set. rewrite drop_all. apply app_nil_r. Qed.

Lemma prefix_set_full {A} (x : A) n l :
  length l = n -> prefix_set x n l = replicate n x.
Proof. intros <-. apply prefix_set_all. Qed.

Lemma prefix_set_insert {A} (x : A) k l :
  (k < length l)%nat -> <[k := x]> (prefix_set x k l) = prefix_set x (S k) l.
Proof.
  unfold prefix_set. revert l. induction k as [|k IH]; intros [|y t] Hk;
    simpl in Hk; try lia.
  - reflexivity.
  - simpl. f_equal. apply IH. lia.
Qed.

Lemma prefix_set_lookup {A} (x : A) k l : prefix_set x k l !! k = l !! k.
Proof.
  unfold prefix_set. rewrite lookup_app_r by (rewrite length_replicate; lia).
  rewrite length_replicate, Nat.sub_diag, lookup_drop. by rewrite Nat.add_0_r.
Qed.

Lemma prefix_set_same {A} (x : A) k l :
  l !! k = Some x -> prefix_set x (S k) l = prefix_set x k l.
Proof.
  intros H. rewrite <- prefix_set_insert by (by eapply lookup_lt_Some).
  apply list_insert_id. by rewrite prefix_set_lookup.
Qed.

Lemma length_prefix_set {A} (x : A) k l :
  (k <= length l)%nat -> length (prefix_set x k l) = length l.
Proof.
  intros H. unfold prefix_set.
  rewrite length_app, length_replicate, length_drop. lia.
Qed.

(** ** Loops *)

(** A loop whose [k]-th turn takes [F k] to [F (S k)]. *)
Lemma for_loop_exact (body : Z -> M unit) (F : nat -> World) (n : nat) (i0 : Z) :
  (forall k, (k < n)%nat -> body (i0 + Z.of_nat k) (F k) = Ret (tt, F (S k))) ->
  for_loop n i0 body (F 0%nat) = Ret (tt, F n).
Proof.
  revert F i0. induction n as [|n IH]; intros F i0 H.
  - reflexivity.
  - simpl. rewrite bind_eq.
    specialize (H 0%nat) as H0. rewrite Z.add_0_r in H0. rewrite H0 by lia.
    apply (IH (fun k => F (S k))). intros k Hk.
    replace (i0 + 1 + Z.of_nat k) with (i0 + Z.of_nat (S k)) by lia.
    apply H. lia.
Qed.

(** A loop with an invariant that every turn re-establishes. *)
Lemma for_loop_invariant (body : Z -> M unit) (I : nat -> World -> Prop)
    (n : nat) (i0 : Z) (w : World) :
  I 0%nat w ->
  (forall k w1, (k < n)%nat -> I k w1 ->
     exists w2, body (i0 + Z.of_nat k) w1 = Ret (tt, w2) /\ I (S k) w2) ->
  exists w', for_loop n i0 body w = Ret (tt, w') /\ I n w'.
Proof.
  revert I i0 w. induction n as [|n IH]; intros I i0 w H0 Hstep.
  - exists w. split; [reflexivity|assumption].
  - simpl. rewrite bind_eq.
    destruct (Hstep 0%nat w) as (w2 & E & H1); [lia|assumption|].
    rewrite Z.add_0_r in E. rewrite E.
    apply (IH (fun k => I (S k))); [assumption|].
    intros k w1 Hk HI.
    replace (i0 + 1 + Z.of_nat k) with (i0 + Z.of_nat (S k)) by lia.
    apply Hstep; [lia|assumption].
Qed.

(** ** Lazy mapping of the shared page *)

Lemma map_page0_once_dev (w : World) :
  exists w1, map_page0_once w = Ret (tt, w1) /\
    register_cache (dev w1) = register_cache (dev w) /\
    vqueue (dev w1) = vqueue (dev w) /\ viommu (dev w1) = viommu (dev w) /\
    heap w1 = heap w /\ mem w1 = mem w /\ kernel w1 = kernel w /\
    smmu_viommu w1 = smmu_viommu w /\ is_ram w1 = is_ram w /\
    requests_of (trace w1) = requests_of (trace w).
Proof.
  unfold map_page0_once, tegra241_cmdqv_init_vcmdq_page0. run.
  destruct (vcmdq_page0 (dev w)) eqn:E; simpl.
  - eexists; split; [reflexivity|]. repeat split.
  - destruct (shared_page w) eqn:E'; cbn;
      (eexists; split; [reflexivity|]); repeat split; cbn.
    rewrite requests_of_app. cbn. by rewrite app_nil_r.
Qed.

Lemma map_page0_once_spec (w : World) :
  exists w1, map_page0_once w = Ret (tt, w1) /\
    only_diagnostics w w1 /\
    (forall m, only_diagnostics w (set_trace (trace w1 ++ [EvReport m]) w1)).
Proof.
  unfold map_page0_once, tegra241_cmdqv_init_vcmdq_page0. run.
  destruct (vcmdq_page0 (dev w)) eqn:E; simpl.
  - eexists; split; [reflexivity|]. split.
    + repeat split; try reflexivity. exists []. simpl. by rewrite app_nil_r.
    + intros m. repeat split; try reflexivity. exists [m]. reflexivity.
  - destruct (shared_page w) eqn:E'; cbn.
    + eexists; split; [reflexivity|]. split.
      * repeat split; try reflexivity. exists []. simpl. by rewrite app_nil_r.
      * intros m. repeat split; try reflexivity. exists [m]. reflexivity.
    + eexists; split; [reflexivity|]. split.
      * repeat split; try reflexivity. exists [msg_failed_mmap_page0]. reflexivity.
      * intros m. repeat split; try reflexivity.
        exists [msg_failed_mmap_page0; m]. cbn. by rewrite <- app_assoc.
Qed.

(** ** [cmdqv_init_regs] *)

Ltac unfold_setters :=
  cbv [set_dev set_mem set_heap set_next_ptr set_errno set_trace
       set_viommu set_vqueue set_vcmdq_page0 set_config set_param set_status
       set_vi_err_map set_vi_int_mask set_cmdq_err_map set_cmdq_alloc_map
       set_vintf_config set_vintf_status set_vintf_cmdq_err_map
       set_vcmdq_cons_indx set_vcmdq_prod_indx set_vcmdq_config
       set_vcmdq_status set_vcmdq_gerror set_vcmdq_gerrorn set_vcmdq_base
       set_vcmdq_cons_indx_base
       dev smmu_viommu shared_page is_ram mem heap next_ptr errno kernel trace
       viommu vqueue vcmdq_page0 config param status vi_err_map vi_int_mask
       cmdq_err_map cmdq_alloc_map vintf_config vintf_status vintf_cmdq_err_map
       vcmdq_cons_indx vcmdq_prod_indx vcmdq_config vcmdq_status vcmdq_gerror
       vcmdq_gerrorn vcmdq_base vcmdq_cons_indx_base].

(** One turn of a zeroing loop: run the stores, then compare the two
    device records field by field. *)
Ltac zero_loop_turn w Hwf k unfold_state :=
  repeat (try rewrite bind_eq;
          rewrite wr_arr_in_bounds by (apply in_bounds_of_nat; simpl; lia);
          cbv iota beta);
  replace (Z.to_nat (0 + Z.of_nat k)) with k by lia;
  destruct Hwf; destruct w as [s ? ? ? ? ? ? ? ? ?]; destruct s;
  unfold_state; unfold_setters; cbv [dev] in *; simpl in *;
  rewrite !prefix_set_insert by lia; reflexivity.

Lemma zero_pairs_loop (w : World) :
  wf_dev (dev w) ->
  for_loop 2 0 (fun i =>
    wr_arr arr_vi_err_map vi_err_map set_vi_err_map i 0;;
    wr_arr arr_vi_int_mask vi_int_mask set_vi_int_mask i 0;;
    wr_arr arr_cmdq_err_map cmdq_err_map set_cmdq_err_map i 0) w =
  Ret (tt, set_dev (zero_pairs 2 (dev w)) w).
Proof.
  intros Hwf.
  match goal with |- for_loop _ _ ?body _ = _ =>
    pose proof (for_loop_exact body
                  (fun k => set_dev (zero_pairs k (dev w)) w) 2 0) as R
  end.
  cbv beta in R.
  replace (set_dev (zero_pairs 0 (dev w)) w) with w in R
    by (destruct w as [s ? ? ? ? ? ? ? ? ?]; destruct s; reflexivity).
  apply R. clear R. intros k Hk.
  zero_loop_turn w Hwf k ltac:(unfold zero_pairs).
Qed.

Lemma zero_vintf_maps_loop (w : World) :
  wf_dev (dev w) ->
  for_loop 4 0 (fun i =>
    wr_arr arr_vintf_cmdq_err_map vintf_cmdq_err_map set_vintf_cmdq_err_map i 0) w =
  Ret (tt, set_dev (zero_vintf_maps 4 (dev w)) w).
Proof.
  intros Hwf.
  match goal with |- for_loop _ _ ?body _ = _ =>
    pose proof (for_loop_exact body
                  (fun k => set_dev (zero_vintf_maps k (dev w)) w) 4 0) as R
  end.
  cbv beta in R.
  replace (set_dev (zero_vintf_maps 0 (dev w)) w) with w in R
    by (destruct w as [s ? ? ? ? ? ? ? ? ?]; destruct s; reflexivity).
  apply R. clear R. intros k Hk.
  zero_loop_turn w Hwf k ltac:(unfold zero_vintf_maps).
Qed.

Lemma zero_queues_loop (w : World) :
  wf_dev (dev w) ->
  for_loop 128 0 (fun i =>
    wr_arr arr_cmdq_alloc_map cmdq_alloc_map set_cmdq_alloc_map i 0;;
    wr_arr arr_vcmdq_cons_indx vcmdq_cons_indx set_vcmdq_cons_indx i 0;;
    wr_arr arr_vcmdq_prod_indx vcmdq_prod_indx set_vcmdq_prod_indx i 0;;
    wr_arr arr_vcmdq_config vcmdq_config set_vcmdq_config i 0;;
    wr_arr arr_vcmdq_status vcmdq_status set_vcmdq_status i 0;;
    wr_arr arr_vcmdq_gerror vcmdq_gerror set_vcmdq_gerror i 0;;
    wr_arr arr_vcmdq_gerrorn vcmdq_gerrorn set_vcmdq_gerrorn i 0;;
    wr_arr arr_vcmdq_base vcmdq_base set_vcmdq_base i 0;;
    wr_arr arr_vcmdq_cons_indx_base vcmdq_cons_indx_base
      set_vcmdq_cons_indx_base i 0) w =
  Ret (tt, set_dev (zero_queues 128 (dev w)) w).
Proof.
  intros Hwf.
  match goal with |- for_loop _ _ ?body _ = _ =>
    pose proof (for_loop_exact body
                  (fun k => set_dev (zero_queues k (dev w)) w) 128 0) as R
  end.
  cbv beta in R.
  replace (set_dev (zero_queues 0 (dev w)) w) with w in R
    by (destruct w as [s ? ? ? ? ? ? ? ? ?]; destruct s; reflexivity).
  apply R. clear R. intros k Hk.
  zero_loop_turn w Hwf k ltac:(unfold zero_queues).
Qed.

Lemma wf_dev_set_scalars c p st s :
  wf_dev s -> wf_dev (set_status st (set_param p (set_config c s))).
Proof. intros []. by constructor. Qed.

Lemma cmdqv_init_regs_spec (w : World) :
  wf_dev (dev w) ->
  exists s', cmdqv_init_regs w = Ret (tt, set_dev s' w) /\
    register_cache s' = reset_registers /\
    viommu s' = viommu (dev w) /\ vqueue s' = vqueue (dev w) /\
    vcmdq_page0 s' = vcmdq_page0 (dev w).
Proof.
  intros Hwf. unfold cmdqv_init_regs.
  set (s1 := set_status R_STATUS_CMDQV_ENABLED_MASK
               (set_param V_PARAM_RESET (set_config V_CONFIG_RESET (dev w)))).
  assert (wf_dev s1) as H1 by (by apply wf_dev_set_scalars).
  set (s2 := set_vintf_status 0 (set_vintf_config 0 (zero_pairs 2 s1))).
  assert (wf_dev s2) as H2.
  { destruct Hwf. constructor; cbn -[prefix_set];
      rewrite ?length_prefix_set by (cbn; lia); assumption. }
  set (s3 := zero_vintf_maps 4 s2).
  assert (wf_dev s3) as H3.
  { destruct Hwf. constructor; cbn -[prefix_set];
      rewrite ?length_prefix_set by (cbn; lia); assumption. }
  exists (zero_queues 128 s3). split.
  - do 3 (rewrite bind_eq; cbv [get_dev]; cbv iota beta;
          rewrite bind_eq; cbv [put_dev]; cbv iota beta).
    rewrite bind_eq.
    change (set_dev _ (set_dev _ (set_dev _ w))) with (set_dev s1 w) at 1.
    rewrite (zero_pairs_loop (set_dev s1 w)) by exact H1. cbv iota beta.
    do 2 (rewrite bind_eq; cbv [get_dev]; cbv iota beta;
          rewrite bind_eq; cbv [put_dev]; cbv iota beta).
    rewrite bind_eq.
    change (set_dev _ (set_dev _ (set_dev _ (set_dev s1 w))))
      with (set_dev s2 w) at 1.
    rewrite (zero_vintf_maps_loop (set_dev s2 w)) by exact H2. cbv iota beta.
    change (set_dev _ (set_dev s2 w)) with (set_dev s3 w).
    rewrite (zero_queues_loop (set_dev s3 w)) by exact H3.
    reflexivity.
  - destruct Hwf. split; [|repeat split].
    unfold register_cache, reset_registers. cbn -[prefix_set replicate].
    rewrite !prefix_set_full by assumption. reflexivity.
Qed.

(** ** Kernel requests *)

Lemma free_id_spec (be : IOMMUFDBackend) (id : Z) (w : World) :
  exists w', iommufd_backend_free_id be id w = Ret (tt, w') /\
    dev w' = dev w /\ heap w' = heap w /\ mem w' = mem w /\
    exists t, trace w' = trace w ++ EvIoctl (fd be) (IOMMU_DESTROY id) :: t.
Proof.
  unfold iommufd_backend_free_id, ioctl. run.
  destruct (r_errno _); cbn.
  - eexists; split; [reflexivity|]. repeat split. cbn. eexists.
    rewrite <- app_assoc. reflexivity.
  - eexists; split; [reflexivity|]. repeat split. by exists [].
Qed.

Lemma alloc_queue_spec v dt len data (w : World) :
  exists r w', iommufd_viommu_alloc_queue v dt len data w = Ret (r, w') /\
    dev w' = dev w /\ mem w' = mem w.
Proof.
  unfold iommufd_viommu_alloc_queue, g_malloc, ioctl, g_free, store. run.
  cbn [trace set_next_ptr set_heap kernel].
  destruct (r_errno _);
    cbn [negb Z.eqb heap set_trace set_errno set_next_ptr set_heap];
    rewrite lookup_insert_eq; eexists _, _; (split; [reflexivity|]);
    split; reflexivity.
Qed.

Lemma free_id_frame (be : IOMMUFDBackend) (id : Z) (w : World) :
  exists w', iommufd_backend_free_id be id w = Ret (tt, w') /\
    same_but_log w w' /\
    exists msgs, trace w' =
      trace w ++ EvIoctl (fd be) (IOMMU_DESTROY id) :: map EvReport msgs.
Proof.
  unfold iommufd_backend_free_id, ioctl. run.
  destruct (r_errno _) as [e|]; cbn.
  - eexists; split; [reflexivity|]. split; [by repeat split|].
    exists [msg_failed_to_free_id id e]. cbn. by rewrite <- app_assoc.
  - eexists; split; [reflexivity|]. split; [by repeat split|]. by exists [].
Qed.

Lemma requests_of_reports (msgs : list message) :
  requests_of (map EvReport msgs) = [].
Proof. induction msgs as [|m t IH]; [reflexivity|exact IH]. Qed.

Lemma requests_of_ioctl_reports (f : Z) (req : request) (msgs : list message) :
  requests_of (EvIoctl f req :: map EvReport msgs) = [req].
Proof.
  change (requests_of (EvIoctl f req :: map EvReport msgs))
    with (req :: requests_of (map EvReport msgs)).
  by rewrite requests_of_reports.
Qed.

(** ** The loop of [cmdqv_reset] *)

Lemma reset_slot_step (w : World) (k : nat) (w1 : World) :
  wf w -> (k < 128)%nat -> reset_inv w k w1 ->
  exists w2, cmdqv_reset_slot (0 + Z.of_nat k) w1 = Ret (tt, w2) /\
             reset_inv w (S k) w2.
Proof.
  intros Hwf Hk [Hdev Hfreed Hkept Hdestroyed Hmem].
  pose proof (len_vqueue _ (wf_lengths w Hwf)) as Hlen.
  unfold cmdqv_reset_slot. rewrite bind_eq. cbv [get_dev]. cbv iota beta.
  rewrite bind_eq. unfold aget.
  rewrite in_bounds_of_nat by (simpl; lia).
  replace (Z.to_nat (0 + Z.of_nat k)) with k by lia.
  cbv [mret M_ret]. cbv iota beta.
  rewrite Hdev. cbn [vqueue set_vqueue viommu].
  rewrite nth_lookup, prefix_set_lookup.
  destruct (vqueue (dev w) !! k) as [[p|]|] eqn:Ek; cbn [default from_option id].
  - (* a slot that holds a queue *)
    destruct (wf_live w Hwf k p Ek) as [[q Hq] [v Hv]].
    rewrite Hv.
    assert (~ freed_before (vqueue (dev w)) k p) as Hnot.
    { intros (i & Hi & Ei). pose proof (wf_unshared w Hwf i k p Ei Ek). lia. }
    rewrite bind_eq. unfold deref at 1. rewrite (Hkept p Hnot), Hq.
    rewrite bind_eq.
    destruct (free_id_spec (iommufd v) (vqueue_id q) w1)
      as (w2 & -> & Hd2 & Hh2 & Hm2 & t & Ht2).
    rewrite bind_eq. unfold g_free at 1. rewrite Hh2, (Hkept p Hnot), Hq.
    rewrite bind_eq. cbv [get_dev]. cbv iota beta.
    rewrite bind_eq. unfold aset.
    rewrite in_bounds_of_nat by (simpl; lia).
    replace (Z.to_nat (0 + Z.of_nat k)) with k by lia.
    cbv [mret M_ret put_dev]. cbv iota beta.
    eexists; split; [reflexivity|].
    constructor; cbn [dev set_dev set_heap heap mem trace vqueue set_vqueue].
    + rewrite Hd2, Hdev. cbn [vqueue set_vqueue].
      rewrite prefix_set_insert by lia. reflexivity.
    + intros p' (i & Hi & Ei).
      destruct (decide (p' = p)) as [->|Hne]; [apply lookup_delete_eq|].
      rewrite lookup_delete_ne by congruence. apply Hfreed.
      exists i. split; [|assumption].
      destruct (decide (i = k)) as [->|]; [congruence|lia].
    + intros p' Hnot'.
      assert (p' <> p) as Hne.
      { intros ->. apply Hnot'. exists k. split; [lia|assumption]. }
      rewrite lookup_delete_ne by congruence. apply Hkept.
      intros (i & Hi & Ei). apply Hnot'. exists i. split; [lia|assumption].
    + intros i p' q' v' Hi Ei Hq' Hv'. rewrite Ht2.
      destruct (decide (i = k)) as [->|Hne].
      * assert (p' = p) as -> by congruence.
        assert (q' = q) as -> by congruence.
        assert (v' = v) as -> by congruence.
        apply elem_of_app. right. apply list_elem_of_here.
      * apply elem_of_app. left. eapply Hdestroyed; eauto. lia.
    + by rewrite Hm2.
  - (* an empty slot *)
    exists w1. split; [reflexivity|].
    constructor.
    + rewrite Hdev. by rewrite prefix_set_same.
    + intros p (i & Hi & Ei). apply Hfreed. exists i. split; [|assumption].
      destruct (decide (i = k)) as [->|]; [congruence|lia].
    + intros p Hnot. apply Hkept. intros (i & Hi & Ei). apply Hnot.
      exists i. split; [lia|assumption].
    + intros i p q v Hi Ei Hq Hv.
      destruct (decide (i = k)) as [->|]; [congruence|].
      eapply Hdestroyed; eauto. lia.
    + assumption.
  - apply lookup_ge_None in Ek. lia.
Qed.

(** ** [tegra241_cmdqv_setup_vcmdq] returns *)

Lemma setup_vcmdq_returns (index : Z) (w : World) :
  0 <= index < 128 ->
  (forall p, vqueue (dev w) !! Z.to_nat index = Some (Some p) ->
             is_Some (heap w !! p)) ->
  exists r w', tegra241_cmdqv_setup_vcmdq index w = Ret (r, w') /\
    register_cache (dev w') = register_cache (dev w) /\ mem w' = mem w.
Proof.
  intros Hi Hlive.
  assert (in_bounds arr_vcmdq_base index = true) as Hb1
    by (apply in_bounds_intro; simpl; lia).
  assert (in_bounds arr_vqueue index = true) as Hb2
    by (apply in_bounds_intro; simpl; lia).
  unfold tegra241_cmdqv_setup_vcmdq.
  rewrite bind_eq. cbv [get_smmu_viommu]. cbv iota beta.
  rewrite bind_eq, rd_arr_in_bounds by assumption. cbv iota beta.
  rewrite bind_eq. cbv [get_dev]. cbv iota beta.
  rewrite bind_eq. unfold aget at 1. rewrite Hb2. cbv [mret M_ret]. cbv iota beta.
  destruct (smmu_viommu w) as [bsv|]; [|by eexists _, _].
  cbn [uapi.vcmdq_log2size uapi.vcmdq_base].
  destruct (_ =? 0); [by eexists _, _|].
  rewrite bind_eq. cbv [cpu_physical_memory_is_ram]. cbv iota beta.
  destruct (is_ram w _); cbn [negb]; [|by eexists _, _].
  rewrite bind_eq.
  assert (exists w1, match nth (Z.to_nat index) (vqueue (dev w)) None with
            | Some p => q ← deref p;
                        iommufd_backend_free_id (iommufd bsv) (vqueue_id q);;
                        g_free p
            | None => fun w0 => Ret (tt, w0)
            end w = Ret (tt, w1) /\ dev w1 = dev w /\ mem w1 = mem w)
    as (w1 & -> & Hd1 & Hm1).
  { rewrite nth_lookup.
    destruct (vqueue (dev w) !! Z.to_nat index) as [[p|]|] eqn:E;
      cbn [default from_option id]; try by eexists.
    destruct (Hlive p eq_refl) as [q Hq].
    rewrite bind_eq. unfold deref. rewrite Hq.
    rewrite bind_eq.
    destruct (free_id_spec (iommufd bsv) (vqueue_id q) w)
      as (w2 & -> & Hd2 & Hh2 & Hm2 & _).
    unfold g_free. rewrite Hh2, Hq. eexists; split; [reflexivity|].
    split; assumption. }
  rewrite bind_eq. cbv [get_dev]. cbv iota beta. rewrite bind_eq.
  destruct (viommu (dev w1)) eqn:Ev; cbv [put_dev]; cbv iota beta;
    rewrite bind_eq;
    match goal with
    | |- context [iommufd_viommu_alloc_queue ?a ?b ?c ?d ?w0] =>
        destruct (alloc_queue_spec a b c d w0) as (r & w3 & -> & Hd3 & Hm3)
    end;
    (destruct r as [p|];
     [ rewrite bind_eq; cbv [get_dev]; cbv iota beta; rewrite bind_eq;
       unfold aset; rewrite Hb2; run
     | run ]);
    (eexists _, _; split; [reflexivity|]);
    cbn [dev set_dev set_trace mem]; rewrite Hd3; cbn [dev set_dev];
    (split; [|cbn [mem set_dev] in Hm3; congruence]);
    rewrite <- Hd1; reflexivity.
Qed.

(** ** Bits *)

Lemma testbit_above (v n k : Z) :
  0 <= v < 2 ^ k -> k <= n -> Z.testbit v n = false.
Proof.
  intros Hv Hn.
  destruct (Z.eq_dec v 0) as [->|]; [apply Z.bits_0|].
  apply Z.bits_above_log2; [lia|].
  assert (Z.log2 v < k); [|lia]. apply Z.log2_lt_pow2; lia.
Qed.

Lemma land_not64_testbit (v m n : Z) :
  0 <= v < 2 ^ 64 -> 0 <= n ->
  Z.testbit (Z.land v (not64 m)) n = Z.testbit v n && negb (Z.testbit m n).
Proof.
  intros Hv Hn. rewrite Z.land_spec. unfold not64, u64.
  destruct (Z_lt_ge_dec n 64) as [L|G].
  - rewrite Z.mod_pow2_bits_low by lia. by rewrite Z.lnot_spec by lia.
  - rewrite Z.mod_pow2_bits_high by lia.
    by rewrite (testbit_above v n 64) by lia.
Qed.

Lemma HYP_OWN_MASK_eq : R_VINTF0_CONFIG_HYP_OWN_MASK = 2 ^ 17.
Proof. reflexivity. Qed.

Lemma strip_hyp_own (v : Z) :
  0 <= v < 2 ^ 64 ->
  u32 (Z.land v (not64 R_VINTF0_CONFIG_HYP_OWN_MASK)) = Z.clearbit (u32 v) 17.
Proof.
  intros Hv. rewrite HYP_OWN_MASK_eq. apply Z.bits_inj'. intros n Hn.
  unfold u32.
  destruct (Z_lt_ge_dec n 32) as [L|G].
  - rewrite Z.mod_pow2_bits_low by lia.
    rewrite land_not64_testbit by lia.
    rewrite Z.pow2_bits_eqb by lia.
    destruct (Z.eq_dec n 17) as [->|N].
    + rewrite Z.clearbit_eq by lia. rewrite Z.eqb_refl. apply andb_false_r.
    + rewrite Z.clearbit_neq by lia. rewrite Z.mod_pow2_bits_low by lia.
      replace (17 =? n) with false by (symmetry; apply Z.eqb_neq; lia).
      apply andb_true_r.
  - rewrite Z.mod_pow2_bits_high by lia.
    rewrite Z.clearbit_neq by lia. by rewrite Z.mod_pow2_bits_high by lia.
Qed.

Lemma enable_test (v : Z) :
  0 <= v < 2 ^ 64 ->
  negb (Z.land (Z.land v (not64 R_VINTF0_CONFIG_HYP_OWN_MASK))
          R_VINTF0_CONFIG_ENABLE_MASK =? 0) = Z.testbit v 0.
Proof.
  intros Hv. rewrite HYP_OWN_MASK_eq.
  change R_VINTF0_CONFIG_ENABLE_MASK with (Z.ones 1).
  rewrite Z.land_ones by lia. change (2 ^ 1) with 2.
  rewrite <- Z.bit0_mod. rewrite land_not64_testbit by lia.
  change (Z.testbit (2 ^ 17) 0) with false. rewrite andb_true_r.
  by destruct (Z.testbit v 0).
Qed.


(** ** The virtual-interface block *)

Lemma write_vintf_config (v size : Z) (w : World) :
  0 <= v < 2 ^ 64 ->
  tegra241_cmdqv_write_vintf A_VINTF0_CONFIG v size w =
  Ret (tt, set_dev
             (set_vintf_status
                (if Z.testbit v 0 then u32 R_VINTF0_STATUS_ENABLE_OK_MASK
                 else Z.land (vintf_status (dev w))
                        (not32 R_VINTF0_STATUS_ENABLE_OK_MASK))
                (set_vintf_config (Z.clearbit (u32 v) 17) (dev w))) w).
Proof.
  intros Hv. unfold tegra241_cmdqv_write_vintf.
  rewrite Z.eqb_refl, enable_test, strip_hyp_own by assumption.
  run. by destruct (Z.testbit v 0).
Qed.

Lemma read_vintf_register (o size : Z) (w : World) :
  o = A_VINTF0_CONFIG \/ o = A_VINTF0_STATUS ->
  exists w', tegra241_cmdqv_read o size w =
    Ret (if o =? A_VINTF0_CONFIG then vintf_config (dev w)
         else vintf_status (dev w), w').
Proof.
  intros Ho.
  destruct (map_page0_once_dev w) as (w1 & E1 & R1 & _).
  unfold tegra241_cmdqv_read. rewrite bind_eq, E1.
  assert (vintf_config (dev w1) = vintf_config (dev w) /\
          vintf_status (dev w1) = vintf_status (dev w)) as [<- <-].
  { unfold register_cache in R1. split; congruence. }
  destruct Ho as [-> | ->]; eexists; reflexivity.
Qed.

(** ** The scenarios *)

Lemma configure_queue5_runs : configure_queue5 power_on = Ret (tt, queue5_live).
Proof. vm_compute. reflexivity. Qed.

Lemma queue5_live_slots :
  vqueue (dev queue5_live) = <[5%nat := Some 1%nat]> (replicate 128 None).
Proof. reflexivity. Qed.

Lemma queue5_live_slot (i : nat) (p : ptr) :
  vqueue (dev queue5_live) !! i = Some (Some p) -> i = 5%nat /\ p = 1%nat.
Proof.
  rewrite queue5_live_slots. intros H.
  destruct (decide (i = 5%nat)) as [->|Hne].
  - by injection H as <-.
  - rewrite list_lookup_insert_ne in H by congruence.
    apply lookup_replicate in H. destruct H. discriminate.
Qed.

Lemma queue5_live_wf : wf queue5_live.
Proof.
  constructor.
  - constructor; reflexivity.
  - intros i p H. apply queue5_live_slot in H as [-> ->].
    split; eexists; reflexivity.
  - intros i j p Hi Hj.
    apply queue5_live_slot in Hi as [-> _].
    apply queue5_live_slot in Hj as [-> _]. reflexivity.
Qed.

(** The index computations of the other handled cases stay inside their
    arrays. *)
Lemma handled_indices_in_bounds (o : Z) :
  (case_range A_CMDQ_ALLOC_MAP_0 A_CMDQ_ALLOC_MAP_127 o = true ->
   in_bounds arr_cmdq_alloc_map ((o - A_CMDQ_ALLOC_MAP_0) / 128) = true) /\
  (case_range A_VINTF0_CMDQ_ERR_MAP_0 A_VINTF0_CMDQ_ERR_MAP_3 o = true ->
   in_bounds arr_vintf_cmdq_err_map ((o - A_VINTF0_CMDQ_ERR_MAP_0) / 4) = true) /\
  (case_range A_VCMDQ0_CONS_INDX A_VCMDQ127_GERRORN o = true ->
   in_bounds arr_vcmdq_cons_indx ((o - 0x10000) / 0x80) = true) /\
  (case_range A_VCMDQ0_BASE_L A_VCMDQ127_CONS_INDX_BASE_DRAM_H o = true ->
   in_bounds arr_vcmdq_base ((o - 0x20000) / 0x80) = true).
Proof.
  addr_consts.
  repeat split; intros H; apply andb_prop in H; destruct H as [H1 H2];
    apply Z.leb_le in H1; apply Z.leb_le in H2;
    apply in_bounds_intro; cbn [declared_length];
    (split; [apply Z.div_pos; lia | apply Z.div_lt_upper_bound; lia]).
Qed.

(** ** One call of [tegra241_cmdqv_setup_vcmdq], in any state *)





Lemma configure_queue5_high_runs :
  configure_queue5_high power_on = Ret (tt, queue5_high_live).
Proof. vm_compute. reflexivity. Qed.

(** * The claims *)

(** C1. A write to a queue's base register, in a state where the queue
    slot holds a live kernel queue object, destroys that object before the
    replacement is requested; when the kernel rejects the replacement the
    shadow base register holds the attempted configuration, but the slot is
    not emptied: it keeps the pointer to the object that was destroyed and
    freed, and the next reset reads through it.  Queue 5 is first set up
    (kernel queue 77, object at address 1), then moved. *)
Theorem failed_reconfiguration_keeps_stale_queue_pointer :
  configure_queue5 power_on = Ret (tt, queue5_live) /\
  vqueue (dev queue5_live) !! 5%nat = Some (Some 1%nat) /\
  match tegra241_cmdqv_write A_VCMDQ5_BASE_L 0x20006 4 queue5_live with
  | Ret (_, w') =>
      trace w' =
        trace queue5_live ++
        [EvIoctl 3 (IOMMU_DESTROY 77);
         EvIoctl 3
           (IOMMU_VQUEUE_ALLOC 9 uapi.IOMMU_VQUEUE_DATA_TEGRA241_CMDQV 16
              {| uapi.vcmdq_id := 5; uapi.vcmdq_log2size := 6;
                 uapi.vcmdq_base := 0x20000 |});
         EvReport (msg_vqueue_alloc_failed ENOMEM);
         EvReport (msg_failed_allocate_vcmdq 5 9)] /\
      vcmdq_base (dev w') !! 5%nat = Some 0x20006 /\
      heap w' !! 1%nat = None /\
      vqueue (dev w') !! 5%nat = Some (Some 1%nat) /\
      cmdqv_reset w' = Undefined (UseAfterFree 1%nat)
  | _ => False
  end.
Proof.
  split; [exact configure_queue5_runs|].
  split; [reflexivity|].
  vm_compute. repeat split.
Qed.

(** C2. The allocation-map table is decoded with [(offset - 0x200) / 128],
    not with the 4-byte stride of its entries: a write to entry 1 (offset
    0x204) lands in entry 0 and a read of entry 1 returns entry 0.  After
    0x11 is written to entry 0 and 0x22 to entry 1, both read 0x22 and
    entry 1 of the array is still 0. *)
Theorem alloc_map_decoded_with_wrong_stride :
  A_CMDQ_ALLOC_MAP_ 1 = 0x204 /\
  match write_alloc_map_0_1 power_on with
  | Ret ((r0, r1), w') =>
      r0 = 0x22 /\ r1 = 0x22 /\
      cmdq_alloc_map (dev w') !! 0%nat = Some 0x22 /\
      cmdq_alloc_map (dev w') !! 1%nat = Some 0
  | _ => False
  end.
Proof. split; [reflexivity|]. vm_compute. repeat split. Qed.



(** C4. A write through an alias window, at an offset of one of the two
    handled per-queue ranges (0x30000..0x33f94 and 0x40000..0x43f8c), is
    the write at the offset 0x20000 below it in the primary window: the two
    calls have the same outcome, state and trace included. *)
Theorem alias_window_write_equiv (o v size : Z) (w : World) :
  A_VI_VCMDQ0_CONS_INDX <= o <= A_VI_VCMDQ127_GERRORN \/
  A_VI_VCMDQ0_BASE_L <= o <= A_VI_VCMDQ127_CONS_INDX_BASE_DRAM_H ->
  tegra241_cmdqv_write o v size w = tegra241_cmdqv_write (o - 0x20000) v size w.
Proof.
  intros H. unfold tegra241_cmdqv_write. rewrite !bind_eq.
  destruct (map_page0_once w) as [[[] w1]| |u]; try reflexivity.
  addr_consts.
  destruct H as [H|H]; settle_tests; reflexivity.
Qed.

Lemma alias_window_write_equiv_witness :
  tegra241_cmdqv_write (A_VI_VCMDQi_BASE_L 5) 0x20006 4 queue5_live =
  tegra241_cmdqv_write (A_VI_VCMDQi_BASE_L 5 - 0x20000) 0x20006 4 queue5_live.
Proof.
  apply (alias_window_write_equiv (A_VI_VCMDQi_BASE_L 5) 0x20006 4 queue5_live).
  right. addr_consts. lia.
Defined.

(** C5. A write of [v] to the virtual-interface config register stores [v]
    (truncated to the 32 bits of the register) with HYP_OWN, bit 17,
    cleared; afterwards ENABLE_OK, bit 0 of the status register, is set if
    and only if ENABLE, bit 0 of [v], is, in the shadow and as read back;
    and a read of the config register returns the stored value, in which
    HYP_OWN is clear. *)
Theorem vintf_config_write_strips_hyp_own (v size size' : Z) (w : World) :
  0 <= v < 2 ^ 64 ->
  exists w',
    tegra241_cmdqv_write A_VINTF0_CONFIG v size w = Ret (tt, w') /\
    vintf_config (dev w') = Z.clearbit (u32 v) 17 /\
    (v < 2 ^ 32 -> vintf_config (dev w') = Z.clearbit v 17) /\
    (Z.testbit (vintf_status (dev w')) 0 = true <-> Z.testbit v 0 = true) /\
    (exists r w'', tegra241_cmdqv_read A_VINTF0_STATUS size' w' = Ret (r, w'') /\
                   (Z.testbit r 0 = true <-> Z.testbit v 0 = true)) /\
    (exists r w'', tegra241_cmdqv_read A_VINTF0_CONFIG size' w' = Ret (r, w'') /\
                   r = vintf_config (dev w') /\ Z.testbit r 17 = false).
Proof.
  intros Hv.
  destruct (map_page0_once_dev w) as (w1 & E1 & _).
  assert (tegra241_cmdqv_write A_VINTF0_CONFIG v size w =
          tegra241_cmdqv_write_vintf A_VINTF0_CONFIG v size w1) as ->.
  { unfold tegra241_cmdqv_write. rewrite bind_eq, E1. reflexivity. }
  rewrite write_vintf_config by assumption.
  eexists; split; [reflexivity|]. cbn [dev set_dev vintf_config vintf_status
    set_vintf_status set_vintf_config].
  assert (Z.testbit
            (if Z.testbit v 0 then u32 R_VINTF0_STATUS_ENABLE_OK_MASK
             else Z.land (vintf_status (dev w1))
                    (not32 R_VINTF0_STATUS_ENABLE_OK_MASK)) 0 = true <->
          Z.testbit v 0 = true) as Hst.
  { destruct (Z.testbit v 0); [done|].
    rewrite Z.land_spec.
    change (Z.testbit (not32 R_VINTF0_STATUS_ENABLE_OK_MASK) 0) with false.
    by rewrite andb_false_r. }
  split; [reflexivity|]. split.
  { intros Hlt. unfold u32. by rewrite Z.mod_small by lia. }
  split; [exact Hst|]. split.
  - edestruct (read_vintf_register A_VINTF0_STATUS size') as [w'' ->];
      [by right|].
    eexists _, w''. split; [reflexivity|]. exact Hst.
  - edestruct (read_vintf_register A_VINTF0_CONFIG size') as [w'' ->];
      [by left|].
    eexists _, w''. split; [reflexivity|]. split; [reflexivity|].
    change (A_VINTF0_CONFIG =? A_VINTF0_CONFIG) with true. cbv iota.
    apply Z.clearbit_eq.
Qed.

Lemma vintf_config_write_strips_hyp_own_witness :
  exists w',
    tegra241_cmdqv_write A_VINTF0_CONFIG 0x20001 4 power_on = Ret (tt, w') /\
    vintf_config (dev w') = 1 /\
    Z.testbit (vintf_status (dev w')) 0 = true.
Proof.
  destruct (vintf_config_write_strips_hyp_own 0x20001 4 4 power_on ltac:(lia))
    as (w' & E & Hc & _ & Hs & _).
  exists w'. split; [exact E|]. split; [exact Hc|].
  apply Hs. reflexivity.
Defined.

(** C6. An access at an offset at or past the end of the 0x50000-byte
    window changes no shadow register and no queue slot and sends nothing
    to the kernel; it prints diagnostics, and a read returns 0.  (The
    offset 0x50000 itself passes the limit test, which is [offset >
    0x50000], and is then an unhandled offset.) *)
Theorem off_limit_access_ignored (o v size : Z) (w : World) :
  0x50000 <= o ->
  (exists w', tegra241_cmdqv_write o v size w = Ret (tt, w') /\
              only_diagnostics w w') /\
  (exists w', tegra241_cmdqv_read o size w = Ret (0, w') /\
              only_diagnostics w w').
Proof.
  intros H.
  destruct (map_page0_once_spec w) as (w1 & E1 & D1 & D2).
  unfold tegra241_cmdqv_write, tegra241_cmdqv_read. rewrite !bind_eq, E1.
  destruct (Z.eq_dec o 0x50000) as [->|N].
  - split; eexists; (split; [reflexivity|apply D2]).
  - settle_tests. split; eexists; (split; [reflexivity|apply D2]).
Qed.

Lemma off_limit_access_ignored_witness :
  (exists w', tegra241_cmdqv_write 0x50000 7 4 queue5_live = Ret (tt, w') /\
              only_diagnostics queue5_live w') /\
  (exists w', tegra241_cmdqv_read 0x50000 4 queue5_live = Ret (0, w') /\
              only_diagnostics queue5_live w').
Proof. apply (off_limit_access_ignored 0x50000 7 4 queue5_live). lia. Defined.

(** C7. Device reset does not always reach the end.  After the guest has
    set up queue 5 and moved it, and the kernel has rejected the new queue,
    slot 5 still points to the object that was freed;
    [cmdqv_reset] then reads that object to release its queue: no slot is
    emptied and no register is restored.  From the state before the failed
    move, the same reset empties every slot and frees the object. *)
Theorem reset_after_failed_reconfiguration_reads_freed_object :
  (reconfigure_queue5;; cmdqv_reset) power_on =
    Undefined (UseAfterFree 1%nat) /\
  match reconfigure_queue5 power_on with
  | Ret (_, w) =>
      vqueue (dev w) !! 5%nat = Some (Some 1%nat) /\ heap w !! 1%nat = None
  | _ => False
  end /\
  match (configure_queue5;; cmdqv_reset) power_on with
  | Ret (_, w) => vqueue (dev w) = replicate 128 None /\ heap w = ∅
  | _ => False
  end.
Proof. vm_compute. repeat split. Qed.



Lemma invalidate_contract_intro (r : reply) (entry_num : Z) o :
  (forall e, r_errno r = Some e -> 0 < e) ->
  match r_errno r with
  | None =>
      if entry_num =? r_out r then exists w', o = Ret ((0, entry_num), w')
      else o = Abort
  | Some e => exists w', o = Ret ((- e, r_out r), w')
  end ->
  invalidate_contract r entry_num o.
Proof.
  intros Hpos H. unfold invalidate_contract.
  destruct (r_errno r) as [e|] eqn:Er.
  - specialize (Hpos e eq_refl). destruct H as [w' ->].
    split; [|split; [|split; [|split]]].
    + intros n w'' [= He _ _]. lia.
    + discriminate.
    + discriminate.
    + intros e' [= <-]. exists w'. split; [reflexivity|lia].
    + discriminate.
  - destruct (Z.eqb_spec entry_num (r_out r)) as [Heq|Hne].
    + destruct H as [w' ->]. split; [|split; [|split; [|split]]].
      * intros n w'' [= <- _]. by repeat split.
      * intros _ _. by exists w'.
      * congruence.
      * discriminate.
      * discriminate.
    + subst o. split; [|split; [|split; [|split]]].
      * discriminate.
      * congruence.
      * reflexivity.
      * discriminate.
      * discriminate.
Qed.

Lemma invalidate_cache_run be hwpt_id data_type entry_len entry_num data_ptr w :
  let r := kernel_reply w
    (IOMMU_HWPT_INVALIDATE hwpt_id data_type entry_len entry_num data_ptr) in
  match r_errno r with
  | None =>
      if entry_num =? r_out r then
        exists w', iommufd_backend_invalidate_cache be hwpt_id data_type
                     entry_len entry_num data_ptr w = Ret ((0, entry_num), w')
      else iommufd_backend_invalidate_cache be hwpt_id data_type
             entry_len entry_num data_ptr w = Abort
  | Some e =>
      exists w', iommufd_backend_invalidate_cache be hwpt_id data_type
                   entry_len entry_num data_ptr w = Ret ((- e, r_out r), w')
  end.
Proof.
  intros r. unfold iommufd_backend_invalidate_cache, ioctl. run.
  fold (kernel_reply w (IOMMU_HWPT_INVALIDATE hwpt_id data_type entry_len
                          entry_num data_ptr)). fold r.
  destruct (r_errno r); cbn [negb Z.eqb errno set_errno].
  - eexists; reflexivity.
  - destruct (entry_num =? r_out r); [eexists|]; reflexivity.
Qed.

Lemma invalidate_dev_cache_run be dev_id data_type entry_len entry_num data_ptr w :
  let r := kernel_reply w
    (IOMMU_DEV_INVALIDATE dev_id data_type entry_len entry_num data_ptr) in
  match r_errno r with
  | None =>
      if entry_num =? r_out r then
        exists w', iommufd_backend_invalidate_dev_cache be dev_id data_type
                     entry_len entry_num data_ptr w = Ret ((0, entry_num), w')
      else iommufd_backend_invalidate_dev_cache be dev_id data_type
             entry_len entry_num data_ptr w = Abort
  | Some e =>
      exists w', iommufd_backend_invalidate_dev_cache be dev_id data_type
                   entry_len entry_num data_ptr w = Ret ((- e, r_out r), w')
  end.
Proof.
  intros r. unfold iommufd_backend_invalidate_dev_cache, ioctl. run.
  fold (kernel_reply w (IOMMU_DEV_INVALIDATE dev_id data_type entry_len
                          entry_num data_ptr)). fold r.
  destruct (r_errno r); cbn [negb Z.eqb errno set_errno].
  - eexists; reflexivity.
  - destruct (entry_num =? r_out r); [eexists|]; reflexivity.
Qed.

(** C9. For both invalidation wrappers: a call that returns success has
    had exactly the requested number of entries processed by the kernel;
    a call the kernel accepts with another count does not return at all
    (the assertion aborts), which no return value can be mistaken for; and
    a call the kernel rejects returns a negative error code with the
    caller's entry count set to the processed count.  Kernel error numbers
    are positive. *)
Theorem invalidate_count_checked
    (be : IOMMUFDBackend) (id data_type entry_len entry_num data_ptr : Z)
    (w : World) :
  let r1 := kernel_reply w
    (IOMMU_HWPT_INVALIDATE id data_type entry_len entry_num data_ptr) in
  let r2 := kernel_reply w
    (IOMMU_DEV_INVALIDATE id data_type entry_len entry_num data_ptr) in
  (forall e, r_errno r1 = Some e \/ r_errno r2 = Some e -> 0 < e) ->
  invalidate_contract r1 entry_num
    (iommufd_backend_invalidate_cache be id data_type entry_len entry_num
       data_ptr w) /\
  invalidate_contract r2 entry_num
    (iommufd_backend_invalidate_dev_cache be id data_type entry_len entry_num
       data_ptr w).
Proof.
  intros r1 r2 Hpos. split; apply invalidate_contract_intro.
  - intros e He. apply Hpos. by left.
  - apply invalidate_cache_run.
  - intros e He. apply Hpos. by right.
  - apply invalidate_dev_cache_run.
Qed.

Lemma invalidate_count_checked_witness :
  (exists w', iommufd_backend_invalidate_cache be0 7 1 16 4 0x7000 power_on =
                Ret ((0, 4), w')) /\
  (exists w', iommufd_backend_invalidate_dev_cache be0 2 1 16 4 0x7000 power_on =
                Ret ((0, 4), w')).
Proof.
  split.
  - refine (proj1 (proj2 (proj1
      (invalidate_count_checked be0 7 1 16 4 0x7000 power_on _))) eq_refl eq_refl).
    intros e [H|H]; discriminate H.
  - refine (proj1 (proj2 (proj2
      (invalidate_count_checked be0 2 1 16 4 0x7000 power_on _))) eq_refl eq_refl).
    intros e [H|H]; discriminate H.
Defined.

(** An invalidation that the kernel accepts need not have processed every
    entry: on a kernel that reports 3 entries for a request of 4, both
    wrappers fail their assertion. *)
Lemma accepted_invalidation_with_short_count_aborts :
  r_errno (kernel_reply short_count_machine
             (IOMMU_HWPT_INVALIDATE 7 1 16 4 0x7000)) = None /\
  r_out (kernel_reply short_count_machine
           (IOMMU_HWPT_INVALIDATE 7 1 16 4 0x7000)) = 3 /\
  iommufd_backend_invalidate_cache be0 7 1 16 4 0x7000 short_count_machine =
    Abort /\
  r_errno (kernel_reply short_count_machine
             (IOMMU_DEV_INVALIDATE 2 1 16 4 0x7000)) = None /\
  r_out (kernel_reply short_count_machine
           (IOMMU_DEV_INVALIDATE 2 1 16 4 0x7000)) = 3 /\
  iommufd_backend_invalidate_dev_cache be0 2 1 16 4 0x7000 short_count_machine =
    Abort.
Proof. vm_compute. repeat split. Qed.

(** C10. Not every index stays inside its array.  The words of the
    interface error map and of the interrupt mask are 4 bytes apart but
    indexed with [(offset - base) / 2], so that the second word of each
    (offsets 0x18 and 0x20) has index 2 in an array of 2; and the range
    of the queue error map covers four words (0x24..0x30) of an array
    declared with 2.  On the realized device the accesses at these
    offsets index past the end of [vi_err_map], [vi_int_mask] and
    [cmdq_err_map]. *)
Theorem error_map_index_out_of_bounds :
  declared_length arr_vi_err_map = 2 /\
  declared_length arr_vi_int_mask = 2 /\
  declared_length arr_cmdq_err_map = 2 /\
  (cmdqv_realize;; tegra241_cmdqv_read A_VI_ERR_MAP_1 4) power_on =
    Undefined (OutOfBounds arr_vi_err_map 2) /\
  (cmdqv_realize;; tegra241_cmdqv_read A_VI_INT_MASK_1 4) power_on =
    Undefined (OutOfBounds arr_vi_int_mask 2) /\
  (cmdqv_realize;; tegra241_cmdqv_write A_VI_INT_MASK_1 1 4) power_on =
    Undefined (OutOfBounds arr_vi_int_mask 2) /\
  (cmdqv_realize;; tegra241_cmdqv_read A_CMDQ_ERR_MAP_2 4) power_on =
    Undefined (OutOfBounds arr_cmdq_err_map 2) /\
  (cmdqv_realize;; tegra241_cmdqv_read A_CMDQ_ERR_MAP_3 4) power_on =
    Undefined (OutOfBounds arr_cmdq_err_map 3).
Proof. repeat split; vm_compute; reflexivity. Qed.

(** * Further properties *)

(** ** Bits of the base register *)

Lemma base_mask_eq :
  Z.lor R_VCMDQ0_BASE_L_ADDR_MASK (u64 (Z.shiftl R_VCMDQ0_BASE_H_ADDR_MASK 32))
  = 0x0000ffffffffffe0.
Proof. reflexivity. Qed.

Lemma log2size_range (b : Z) :
  u32 (Z.land b R_VCMDQ0_BASE_L_LOG2SIZE_MASK) = Z.land b 0x1f.
Proof.
  change R_VCMDQ0_BASE_L_LOG2SIZE_MASK with (Z.ones 5).
  change 0x1f with (Z.ones 5).
  rewrite Z.land_ones by lia. unfold u32.
  apply Z.mod_small. pose proof (Z.mod_pos_bound b (2 ^ 5)). lia.
Qed.

(** ** Queue set-up *)

(** X1. [tegra241_cmdqv_setup_vcmdq] rejects a configuration before it
    touches anything: without a virtual IOMMU on the SMMU it returns
    -ENODEV, with a size field (bits 0..4 of the shadow base) of zero or a
    base address (bits 5..47) that is not guest RAM it returns -EINVAL, and
    in each case the state is exactly as before: the queue the slot holds,
    if any, is not released and nothing is sent or printed. *)
Theorem setup_vcmdq_rejects_without_effect (index : Z) (w : World) :
  0 <= index < 128 ->
  let b := nth (Z.to_nat index) (vcmdq_base (dev w)) 0 in
  (smmu_viommu w = None ->
   tegra241_cmdqv_setup_vcmdq index w = Ret (- ENODEV, w)) /\
  (is_Some (smmu_viommu w) -> Z.land b 0x1f = 0 ->
   tegra241_cmdqv_setup_vcmdq index w = Ret (- EINVAL, w)) /\
  (is_Some (smmu_viommu w) -> Z.land b 0x1f <> 0 ->
   is_ram w (Z.land b 0x0000ffffffffffe0) = false ->
   tegra241_cmdqv_setup_vcmdq index w = Ret (- EINVAL, w)).
Proof.
  intros Hi b.
  assert (in_bounds arr_vcmdq_base index = true) as Hb1
    by (apply in_bounds_intro; simpl; lia).
  assert (in_bounds arr_vqueue index = true) as Hb2
    by (apply in_bounds_intro; simpl; lia).
  unfold tegra241_cmdqv_setup_vcmdq.
  rewrite bind_eq. cbv [get_smmu_viommu]. cbv iota beta.
  rewrite bind_eq, rd_arr_in_bounds by assumption. cbv iota beta.
  rewrite bind_eq. cbv [get_dev]. cbv iota beta.
  rewrite bind_eq. unfold aget. rewrite Hb2. cbv [mret M_ret]. cbv iota beta.
  cbn [uapi.vcmdq_log2size uapi.vcmdq_base].
  rewrite log2size_range, base_mask_eq. fold b.
  split; [|split].
  - intros ->. reflexivity.
  - intros [v ->] ->. reflexivity.
  - intros [v ->] Hn Hram.
    replace (Z.land b 31 =? 0) with false by (symmetry; by apply Z.eqb_neq).
    rewrite bind_eq. cbv [cpu_physical_memory_is_ram]. cbv iota beta.
    rewrite Hram. reflexivity.
Qed.

Lemma alloc_queue_cases v dt len data (w : World) :
  heap w !! next_ptr w = None ->
  let req := IOMMU_VQUEUE_ALLOC (viommu_id v) dt len data in
  let r := kernel_reply w req in
  exists res w', iommufd_viommu_alloc_queue v dt len data w = Ret (res, w') /\
    dev w' = dev w /\ mem w' = mem w /\ next_ptr w' = S (next_ptr w) /\
    match r_errno r with
    | Some e =>
        res = None /\ heap w' = heap w /\
        trace w' = trace w ++ [EvIoctl (fd (iommufd v)) req;
                               EvReport (msg_vqueue_alloc_failed e)]
    | None =>
        res = Some (next_ptr w) /\
        heap w' = <[next_ptr w := {| vqueue_viommu := v;
                                     vqueue_id := u32 (r_out r) |}]> (heap w) /\
        trace w' = trace w ++ [EvIoctl (fd (iommufd v)) req]
    end.
Proof.
  intros Hfresh req r.
  unfold iommufd_viommu_alloc_queue, g_malloc, ioctl, g_free, store. run.
  cbn [trace set_next_ptr set_heap kernel].
  fold req. fold (kernel_reply w req). fold r.
  destruct (r_errno r) as [e|];
    cbn [negb Z.eqb heap set_trace set_errno set_next_ptr set_heap];
    rewrite lookup_insert_eq; eexists _, _; (split; [reflexivity|]);
    cbn [dev mem next_ptr heap trace set_heap set_trace set_errno set_next_ptr];
    repeat split.
  - by apply delete_insert_id.
  - by rewrite <- app_assoc.
  - apply insert_insert_eq.
Qed.

Lemma wf_dev_of_cache (s s' : Tegra241CMDQV) :
  register_cache s' = register_cache s ->
  length (vqueue s') = length (vqueue s) ->
  wf_dev s -> wf_dev s'.
Proof.
  unfold register_cache. intros [=] Hq []. constructor; congruence.
Qed.

(** The slots and the heap of a device that a successful setup of slot [k]
    leaves: the old object of the slot is gone, a new one is in. *)
Lemma wf_after_replace (w w' : World) (k : nat) (p' : ptr) old :
  wf w -> heap_below w -> (k < 128)%nat ->
  vqueue (dev w) !! k = Some old ->
  p' = next_ptr w ->
  register_cache (dev w') = register_cache (dev w) ->
  vqueue (dev w') = <[k := Some p']> (vqueue (dev w)) ->
  is_Some (viommu (dev w')) ->
  is_Some (heap w' !! p') ->
  (forall p : ptr, p <> p' -> Some p <> old -> heap w' !! p = heap w !! p) ->
  (forall p : ptr, Some p = old -> heap w' !! p = None) ->
  next_ptr w' = S (next_ptr w) ->
  wf w' /\ heap_below w'.
Proof.
  intros Hwf Hbelow Hk Hold -> Hregs Hslots Hvi Hnew Hkeep Hgone Hnext.
  pose proof (len_vqueue _ (wf_lengths _ Hwf)) as Hlen.
  assert (forall j p, j <> k -> vqueue (dev w) !! j = Some (Some p) ->
            p <> next_ptr w /\ Some p <> old) as Hother.
  { intros j p Hj Ej. split.
    - intros ->. destruct (wf_live _ Hwf _ _ Ej) as [Hin _].
      apply Hbelow in Hin. lia.
    - intros <-. apply Hj. eapply (wf_unshared _ Hwf); eassumption. }
  split; [constructor|].
  - eapply wf_dev_of_cache; [eassumption| |apply Hwf].
    rewrite Hslots. apply length_insert.
  - intros j p Ej. rewrite Hslots in Ej. split; [|assumption].
    destruct (decide (j = k)) as [->|Hj].
    + rewrite list_lookup_insert_eq in Ej by lia. by injection Ej as <-.
    + rewrite list_lookup_insert_ne in Ej by congruence.
      destruct (Hother j p Hj Ej) as [H1 H2].
      rewrite Hkeep by assumption. by destruct (wf_live _ Hwf _ _ Ej).
  - intros i j p Ei Ej. rewrite Hslots in Ei, Ej.
    destruct (decide (i = k)) as [->|Hi]; destruct (decide (j = k)) as [->|Hj];
      try reflexivity.
    + rewrite list_lookup_insert_eq in Ei by lia. injection Ei as <-.
      rewrite list_lookup_insert_ne in Ej by congruence.
      by destruct (Hother j _ Hj Ej).
    + rewrite list_lookup_insert_eq in Ej by lia. injection Ej as <-.
      rewrite list_lookup_insert_ne in Ei by congruence.
      by destruct (Hother i _ Hi Ei).
    + rewrite list_lookup_insert_ne in Ei, Ej by congruence.
      eapply (wf_unshared _ Hwf); eassumption.
  - intros p Hp. rewrite Hnext.
    destruct (decide (p = next_ptr w)) as [->|Hne]; [lia|].
    destruct (decide (Some p = old)) as [Ho|Ho].
    + destruct Hp as [q Hq]. specialize (Hgone p Ho). congruence.
    + assert (is_Some (heap w !! p)) as Hp' by (by rewrite <- Hkeep).
      apply Hbelow in Hp'. lia.
Qed.

Lemma wf_after_noop (w w' : World) :
  wf w -> heap_below w ->
  register_cache (dev w') = register_cache (dev w) ->
  vqueue (dev w') = vqueue (dev w) ->
  (is_Some (viommu (dev w)) -> is_Some (viommu (dev w'))) ->
  heap w' = heap w ->
  (next_ptr w <= next_ptr w')%nat ->
  wf w' /\ heap_below w'.
Proof.
  intros Hwf Hbelow Hregs Hslots Hvi Hheap Hnext.
  split; [constructor|].
  - eapply wf_dev_of_cache; [eassumption|by rewrite Hslots|apply Hwf].
  - intros j p Ej. rewrite Hslots in Ej. rewrite Hheap.
    destruct (wf_live _ Hwf _ _ Ej). auto.
  - intros i j p Ei Ej. rewrite Hslots in Ei, Ej.
    eapply (wf_unshared _ Hwf); eassumption.
  - intros p Hp. rewrite Hheap in Hp. apply Hbelow in Hp. lia.
Qed.

Lemma ENODEV_nonzero : - ENODEV <> 0.
Proof. discriminate. Qed.

Lemma EINVAL_nonzero : - EINVAL <> 0.
Proof. discriminate. Qed.

Lemma setup_vcmdq_run (index : Z) (w : World) :
  wf w -> heap_below w -> 0 <= index < 128 ->
  exists r w',
    tegra241_cmdqv_setup_vcmdq index w = Ret (r, w') /\
    setup_post index w r w'.
Proof.
  intros Hwf Hbelow Hi.
  pose proof (len_vqueue _ (wf_lengths _ Hwf)) as Hlen.
  assert (in_bounds arr_vcmdq_base index = true) as Hb1
    by (apply in_bounds_intro; simpl; lia).
  assert (in_bounds arr_vqueue index = true) as Hb2
    by (apply in_bounds_intro; simpl; lia).
  set (b := nth (Z.to_nat index) (vcmdq_base (dev w)) 0).
  assert (forall r : Z, r = - ENODEV \/ r = - EINVAL ->
            ~ setup_checks_pass w b ->
            exists r' w', Ret (r, w) = Ret (r', w') /\
                          setup_post index w r' w') as Hrej.
  { intros r Hr Hno. exists r, w. split; [reflexivity|].
    assert (r <> 0) as Hnz by (destruct Hr as [-> | ->]; discriminate).
    unfold setup_post. fold b.
    split; [reflexivity|]. split; [reflexivity|].
    split; [by right|].
    split; [intros; contradiction|]. split; [reflexivity|].
    split; [by intros _ _|]. split; [by intros _|].
    intros; contradiction. }
  unfold tegra241_cmdqv_setup_vcmdq.
  rewrite bind_eq. cbv [get_smmu_viommu]. cbv iota beta.
  rewrite bind_eq, rd_arr_in_bounds by assumption. cbv iota beta.
  rewrite bind_eq. cbv [get_dev]. cbv iota beta.
  rewrite bind_eq. unfold aget. rewrite Hb2. cbv [mret M_ret]. cbv iota beta.
  fold b. fold (setup_data index b).
  destruct (smmu_viommu w) as [bsv|] eqn:Hsmmu.
  2:{ apply Hrej; [by left|].
      intros ([? H] & _). rewrite Hsmmu in H. discriminate. }
  change (uapi.vcmdq_log2size (setup_data index b))
    with (uapi.vcmdq_log2size (setup_data 0 b)).
  change (uapi.vcmdq_base (setup_data index b))
    with (uapi.vcmdq_base (setup_data 0 b)).
  destruct (Z.eqb_spec (uapi.vcmdq_log2size (setup_data 0 b)) 0) as [Hz|Hnz].
  { apply Hrej; [by right|]. by intros (_ & H & _). }
  rewrite bind_eq. cbv [cpu_physical_memory_is_ram]. cbv iota beta.
  destruct (is_ram w (uapi.vcmdq_base (setup_data 0 b))) eqn:Hram; cbn [negb].
  2:{ apply Hrej; [by right|]. intros (_ & _ & H).
      rewrite Hram in H. discriminate. }
  clear Hrej.
  assert (setup_checks_pass w b) as Hpass.
  { split; [rewrite Hsmmu; by eexists|]. by split. }
  rewrite bind_eq, nth_lookup.
  destruct (vqueue (dev w) !! Z.to_nat index) as [old|] eqn:Eold;
    [|apply lookup_ge_None in Eold; lia].
  cbn [default from_option id].
  (* the old object is destroyed and freed *)
  assert (exists w1, match old with
            | Some p => q ← deref p;
                        iommufd_backend_free_id (iommufd bsv) (vqueue_id q);;
                        g_free p
            | None => fun w0 => Ret (tt, w0)
            end w = Ret (tt, w1) /\
            dev w1 = dev w /\ mem w1 = mem w /\ next_ptr w1 = next_ptr w /\
            kernel w1 = kernel w /\
            heap w1 = match old with
                      | Some p => delete p (heap w)
                      | None => heap w
                      end /\
            match old with
            | Some p => forall q, heap w !! p = Some q ->
                exists m1, trace w1 =
                  trace w ++ EvIoctl (fd (iommufd bsv))
                               (IOMMU_DESTROY (vqueue_id q)) :: map EvReport m1
            | None => trace w1 = trace w
            end)
    as (w1 & -> & Hd1 & Hm1 & Hn1 & Hk1 & Hh1 & Ht1).
  { destruct old as [p|]; [|by eexists].
    destruct (wf_live _ Hwf _ _ Eold) as [[q Hq] _].
    rewrite bind_eq. unfold deref. rewrite Hq.
    rewrite bind_eq.
    destruct (free_id_frame (iommufd bsv) (vqueue_id q) w)
      as (w2 & -> & (Hd2 & Hh2 & Hm2 & Hn2 & Hk2 & _) & m1 & Ht2).
    unfold g_free. rewrite Hh2, Hq. eexists; split; [reflexivity|].
    cbn [dev mem next_ptr heap trace kernel set_heap].
    repeat split; try assumption.
    intros q' [= <-]. by exists m1. }
  rewrite bind_eq. cbv [get_dev]. cbv iota beta. rewrite bind_eq.
  (* s->viommu is set *)
  assert (exists s2, match viommu (dev w1) with
            | Some _ => fun w0 => Ret (tt, w0)
            | None => put_dev (set_viommu (Some bsv) (dev w1))
            end w1 = Ret (tt, set_dev s2 w1) /\
            register_cache s2 = register_cache (dev w) /\
            vqueue s2 = vqueue (dev w) /\ is_Some (viommu s2)) as Hs2.
  { destruct (viommu (dev w1)) eqn:Ev.
    - exists (dev w1). rewrite set_dev_eta, Hd1. repeat split.
      rewrite <- Hd1, Ev. by eexists.
    - eexists. split; [reflexivity|]. rewrite Hd1. repeat split. by eexists. }
  destruct Hs2 as (s2 & Es2 & Hr2 & Hq2 & Hv2).
  match goal with
  | |- context [match ?m w1 with Ret _ => _ | Abort => _ | Undefined _ => _ end] =>
      replace (m w1) with (Ret (tt, set_dev s2 w1))
  end.
  rewrite bind_eq.
  set (w2 := set_dev s2 w1).
  assert (heap w2 !! next_ptr w2 = None) as Hfresh.
  { cbn [w2 heap next_ptr set_dev]. rewrite Hh1, Hn1.
    assert (heap w !! next_ptr w = None) as Hnone.
    { destruct (heap w !! next_ptr w) eqn:E; [|reflexivity].
      assert (next_ptr w < next_ptr w)%nat; [|lia]. apply Hbelow. by eexists. }
    destruct old; [|assumption].
    destruct (decide (p = next_ptr w)) as [->|]; [apply lookup_delete_eq|].
    by rewrite lookup_delete_ne. }
  (* what the kernel is asked, after the release of the old object *)
  assert (kernel_reply w2 (setup_request index w bsv) =
          kernel w (requests_of (trace w) ++ release_request index w)
            (setup_request index w bsv)) as Hreply.
  { unfold kernel_reply, release_request.
    cbn [w2 kernel trace set_dev]. rewrite Hk1, Eold.
    destruct old as [p|].
    - destruct (wf_live _ Hwf _ _ Eold) as [[q Hq] _]. rewrite Hq.
      destruct (Ht1 q Hq) as [m1 ->].
      by rewrite requests_of_app, requests_of_ioctl_reports.
    - by rewrite Ht1, app_nil_r. }
  destruct (alloc_queue_cases bsv uapi.IOMMU_VQUEUE_DATA_TEGRA241_CMDQV
              uapi.sizeof_iommu_vqueue_tegra241_cmdqv (setup_data index b)
              w2 Hfresh)
    as (res & w3 & -> & Hd3 & Hm3 & Hn3 & Hcases).
  change (IOMMU_VQUEUE_ALLOC (viommu_id bsv)
            uapi.IOMMU_VQUEUE_DATA_TEGRA241_CMDQV
            uapi.sizeof_iommu_vqueue_tegra241_cmdqv (setup_data index b))
    with (setup_request index w bsv) in Hcases.
  rewrite Hreply in Hcases. clear Hreply.
  cbn [w2 dev mem next_ptr heap trace set_dev] in Hd3, Hm3, Hn3, Hcases.
  (* the trace of the whole call *)
  assert (forall m2 w4 (r : Z),
    trace w4 =
      trace w1 ++
      EvIoctl (fd (iommufd bsv)) (setup_request index w bsv)
      :: map EvReport m2 ->
    (forall p : ptr, old = Some p -> heap w4 !! p = None) ->
    (r = 0 <->
     r_errno (kernel w (requests_of (trace w) ++ release_request index w)
                (setup_request index w bsv)) = None) ->
    forall bsv', Some bsv = Some bsv' ->
    (r = 0 <->
     r_errno (kernel w (requests_of (trace w) ++ release_request index w)
                (setup_request index w bsv')) = None) /\
    match Some old with
    | Some (Some p) =>
        heap w4 !! p = None /\
        forall q, heap w !! p = Some q ->
        exists m1 m2',
          trace w4 =
            trace w ++
            EvIoctl (fd (iommufd bsv')) (IOMMU_DESTROY (vqueue_id q)) ::
            map EvReport m1 ++
            EvIoctl (fd (iommufd bsv')) (setup_request index w bsv')
            :: map EvReport m2'
    | _ => exists m2', trace w4 = trace w ++
            EvIoctl (fd (iommufd bsv')) (setup_request index w bsv')
            :: map EvReport m2'
    end) as Htrace.
  { intros m2 w4 r Ht4 Hgone Hiff bsv' [= <-]. split; [exact Hiff|].
    destruct old as [p|].
    - split; [by apply Hgone|]. intros q Hq.
      destruct (Ht1 q Hq) as [m1 Hm]. exists m1, m2.
      rewrite Ht4, Hm, <- app_assoc. reflexivity.
    - exists m2. by rewrite Ht4, Ht1. }
  destruct (r_errno _) as [e|] eqn:Er.
  - (* the kernel rejects the allocation *)
    destruct Hcases as (-> & Hh3 & Ht3). run.
    eexists _, _. split; [reflexivity|].
    unfold setup_post. fold b. rewrite Eold.
    cbn [dev mem heap trace set_trace]. rewrite Hd3, Hm3, Hr2, Hq2, Hm1.
    split; [reflexivity|]. split; [reflexivity|].
    split; [right; by left|].
    split; [intros H; by destruct (ENODEV_nonzero H)|].
    split; [reflexivity|]. split.
    { intros _ [= ->]. rewrite Hh3, Hh1. split; [reflexivity|].
      apply (wf_after_noop w); try assumption;
        cbn [dev heap next_ptr set_trace];
        rewrite ?Hd3, ?Hh3, ?Hh1, ?Hn3, ?Hn1; auto; lia. }
    split; [intros H; by destruct H|].
    intros _ bsv' Hbsv'.
    apply (Htrace [msg_vqueue_alloc_failed e;
                   msg_failed_allocate_vcmdq index (viommu_id bsv)]
             (set_trace (trace w3 ++
                [EvReport (msg_failed_allocate_vcmdq index (viommu_id bsv))])
                w3)).
    + cbn [trace set_trace]. rewrite Ht3, <- app_assoc. reflexivity.
    + intros p ->. cbn [heap set_trace]. rewrite Hh3, Hh1.
      apply lookup_delete_eq.
    + split; [intros H; by destruct (ENODEV_nonzero H)|discriminate].
    + congruence.
  - (* the kernel grants it *)
    destruct Hcases as (-> & Hh3 & Ht3).
    rewrite bind_eq. cbv [get_dev]. cbv iota beta. rewrite bind_eq.
    unfold aset. rewrite Hb2. run.
    eexists _, _. split; [reflexivity|].
    unfold setup_post. fold b. rewrite Eold.
    cbn [dev mem heap trace set_dev vqueue set_vqueue next_ptr].
    rewrite Hd3. cbn [vqueue set_vqueue]. rewrite Hm3, Hm1, Hq2, Hn1.
    split; [exact Hr2|]. split; [reflexivity|].
    split; [by left|].
    assert (forall p : ptr, old = Some p -> heap w3 !! p = None) as Hgone.
    { intros p ->. rewrite Hh3, Hn1, Hh1.
      assert (p <> next_ptr w) as Hne.
      { intros ->. destruct (wf_live _ Hwf _ _ Eold) as [Hin _].
        apply Hbelow in Hin. lia. }
      rewrite lookup_insert_ne by congruence. apply lookup_delete_eq. }
    split; [|split; [intros H; by destruct H|
             split; [intros H; by destruct H|
             split; [intros H; by destruct H|]]]].
    + intros _. split; [exact Hpass|]. split; [reflexivity|].
      split.
      { eexists. split; [rewrite Hh3, Hn1; apply lookup_insert_eq|].
        exact Hsmmu. }
      eapply (wf_after_replace w _ (Z.to_nat index) (next_ptr w) old);
        try eassumption; try reflexivity;
        cbn [dev heap next_ptr set_dev vqueue set_vqueue viommu].
      * lia.
      * rewrite Hh3, Hn1, lookup_insert_eq. by eexists.
      * intros p Hne Hno. rewrite Hh3, Hn1, Hh1.
        rewrite lookup_insert_ne by congruence.
        destruct old as [po|]; [|reflexivity].
        rewrite lookup_delete_ne by congruence. reflexivity.
      * intros p <-. by apply Hgone.
      * by rewrite Hn3, Hn1.
    + intros _ bsv' Hbsv'.
      apply (Htrace []
               (set_dev (set_vqueue
                  (<[Z.to_nat index := Some (next_ptr w)]> (vqueue (dev w)))
                  s2) w3)).
      * cbn [trace set_dev]. exact Ht3.
      * intros p ->. cbn [heap set_dev]. by apply Hgone.
      * by split.
      * congruence.
Qed.

(** ** The further scenarios *)

Lemma wf_no_queue (w : World) :
  wf_dev (dev w) -> vqueue (dev w) = replicate 128 None -> wf w.
Proof.
  intros Hlen Hq. constructor; [assumption| |]; intros i; intros; exfalso;
    match goal with
    | H : vqueue (dev w) !! _ = Some (Some _) |- _ =>
        rewrite Hq in H; apply lookup_replicate in H; destruct H; discriminate
    end.
Qed.

Lemma queue5_programmed_wf : wf queue5_programmed.
Proof. apply wf_no_queue; [constructor|]; reflexivity. Qed.

Lemma queue5_programmed_heap_below : heap_below queue5_programmed.
Proof. intros p [q Hq]. cbn in Hq. by rewrite lookup_empty in Hq. Qed.

Lemma queue5_live_heap_below : heap_below queue5_live.
Proof.
  intros p [q Hq]. cbn in Hq. apply lookup_singleton_Some in Hq as [<- _].
  cbn. lia.
Qed.

Lemma queue6_programmed_wf : wf queue6_programmed.
Proof.
  destruct queue5_live_wf as [Hlen Hlive Hun]. constructor.
  - destruct Hlen. constructor; assumption.
  - exact Hlive.
  - exact Hun.
Qed.

Lemma queue6_programmed_heap_below : heap_below queue6_programmed.
Proof. exact queue5_live_heap_below. Qed.

(** ** Queue set-up, continued *)

(** X2. In a state whose pointers are valid, [tegra241_cmdqv_setup_vcmdq]
    returns 0, -ENODEV or -EINVAL and changes neither a register nor the
    shared page.  It returns 0 exactly when the configuration passes the
    checks and the kernel grants the queue (asked after the release of the
    queue the slot held); then the slot points to a fresh object that
    belongs to the SMMU's virtual IOMMU, the other slots are as before and
    the pointers are valid again.  When it fails, every slot is as
    before. *)
Theorem setup_vcmdq_installs_queue_iff_granted (index : Z) (w : World) :
  wf w -> heap_below w -> 0 <= index < 128 ->
  let b := nth (Z.to_nat index) (vcmdq_base (dev w)) 0 in
  exists r w',
    tegra241_cmdqv_setup_vcmdq index w = Ret (r, w') /\
    (r = 0 \/ r = - ENODEV \/ r = - EINVAL) /\
    register_cache (dev w') = register_cache (dev w) /\ mem w' = mem w /\
    (r = 0 <->
     setup_checks_pass w b /\
     exists bsv, smmu_viommu w = Some bsv /\
       r_errno (kernel w (requests_of (trace w) ++ release_request index w)
                  (setup_request index w bsv)) = None) /\
    (r = 0 ->
     vqueue (dev w') = <[Z.to_nat index := Some (next_ptr w)]> (vqueue (dev w)) /\
     (exists q, heap w' !! next_ptr w = Some q /\
                smmu_viommu w = Some (vqueue_viommu q)) /\
     wf w' /\ heap_below w') /\
    (r <> 0 -> vqueue (dev w') = vqueue (dev w)).
Proof.
  intros Hwf Hbelow Hi b.
  destruct (setup_vcmdq_run index w Hwf Hbelow Hi)
    as (r & w' & E & Hr & Hm & Hcode & H0 & Hn & _ & Hrej & Hpass).
  fold b in H0, Hrej, Hpass.
  exists r, w'. split; [exact E|]. split; [exact Hcode|].
  split; [exact Hr|]. split; [exact Hm|]. split; [split|split].
  - intros Hz. destruct (H0 Hz) as (Hc & _). split; [exact Hc|].
    destruct Hc as ([bsv Hb] & Hc2). exists bsv. split; [exact Hb|].
    by apply (Hpass (conj (ex_intro _ bsv Hb) Hc2) bsv Hb).
  - intros (Hc & bsv & Hb & Hk). by apply (Hpass Hc bsv Hb).
  - intros Hz. by destruct (H0 Hz) as (_ & ? & ? & ? & ?).
  - exact Hn.
Qed.

Lemma setup_vcmdq_installs_queue_iff_granted_witness :
  exists w',
    tegra241_cmdqv_setup_vcmdq 5 queue5_programmed = Ret (0, w') /\
    vqueue (dev w') =
      <[5%nat := Some 1%nat]> (vqueue (dev queue5_programmed)) /\
    wf w'.
Proof.
  destruct (setup_vcmdq_installs_queue_iff_granted 5 queue5_programmed
              queue5_programmed_wf queue5_programmed_heap_below ltac:(lia))
    as (r & w' & E & _ & _ & _ & Hiff & H0 & _).
  assert (r = 0) as ->.
  { apply Hiff. split.
    - split; [by eexists|]. split; [discriminate|reflexivity].
    - exists viommu0. split; reflexivity. }
  exists w'. split; [exact E|].
  destruct (H0 eq_refl) as (Hq & _ & Hwf & _). split; [exact Hq|exact Hwf].
Defined.

(** X3. When the configuration passes the checks and the slot holds a
    queue object, [tegra241_cmdqv_setup_vcmdq] first asks the kernel to
    destroy that object's queue and frees the object, and only then asks
    for the new queue: whatever the kernel answers, the old object is gone
    afterwards and the requests sent are IOMMU_DESTROY of the old id
    followed by IOMMU_VQUEUE_ALLOC, with nothing but diagnostics between
    and after them. *)
Theorem setup_vcmdq_destroys_before_allocating
    (index : Z) (w : World) (p : ptr) (q : IOMMUFDVqueue) (bsv : IOMMUFDViommu) :
  wf w -> heap_below w -> 0 <= index < 128 ->
  setup_checks_pass w (nth (Z.to_nat index) (vcmdq_base (dev w)) 0) ->
  smmu_viommu w = Some bsv ->
  vqueue (dev w) !! Z.to_nat index = Some (Some p) ->
  heap w !! p = Some q ->
  exists r w' m1 m2,
    tegra241_cmdqv_setup_vcmdq index w = Ret (r, w') /\
    heap w' !! p = None /\
    trace w' =
      trace w ++
      EvIoctl (fd (iommufd bsv)) (IOMMU_DESTROY (vqueue_id q)) ::
      map EvReport m1 ++
      EvIoctl (fd (iommufd bsv)) (setup_request index w bsv) ::
      map EvReport m2.
Proof.
  intros Hwf Hbelow Hi Hc Hb Hslot Hq.
  destruct (setup_vcmdq_run index w Hwf Hbelow Hi)
    as (r & w' & E & _ & _ & _ & _ & _ & _ & _ & Hpass).
  destruct (Hpass Hc bsv Hb) as (_ & Hold). rewrite Hslot in Hold.
  destruct Hold as (Hgone & Htrace).
  destruct (Htrace q Hq) as (m1 & m2 & Ht).
  exists r, w', m1, m2. by repeat split.
Qed.

Lemma setup_vcmdq_destroys_before_allocating_witness :
  exists r w' m1 m2,
    tegra241_cmdqv_setup_vcmdq 5 queue5_live = Ret (r, w') /\
    heap w' !! 1%nat = None /\
    trace w' =
      trace queue5_live ++
      EvIoctl 3 (IOMMU_DESTROY 77) ::
      map EvReport m1 ++
      EvIoctl 3 (setup_request 5 queue5_live viommu0) :: map EvReport m2.
Proof.
  apply (setup_vcmdq_destroys_before_allocating 5 queue5_live 1%nat
           {| vqueue_viommu := viommu0; vqueue_id := 77 |} viommu0
           queue5_live_wf queue5_live_heap_below).
  - lia.
  - split; [by eexists|]. split; [discriminate|reflexivity].
  - reflexivity.
  - reflexivity.
  - reflexivity.
Defined.

(** X4. On an empty slot [tegra241_cmdqv_setup_vcmdq] keeps the pointers
    valid whatever the outcome, and a failed call leaves no trace in the
    heap: the object that [iommufd_viommu_alloc_queue] allocated for the
    request is freed again, and every slot is as before. *)
Theorem setup_vcmdq_failure_on_empty_slot_leaks_nothing (index : Z) (w : World) :
  wf w -> heap_below w -> 0 <= index < 128 ->
  vqueue (dev w) !! Z.to_nat index = Some None ->
  exists r w',
    tegra241_cmdqv_setup_vcmdq index w = Ret (r, w') /\
    wf w' /\ heap_below w' /\
    (r <> 0 -> heap w' = heap w /\ vqueue (dev w') = vqueue (dev w)).
Proof.
  intros Hwf Hbelow Hi Hslot.
  destruct (setup_vcmdq_run index w Hwf Hbelow Hi)
    as (r & w' & E & _ & _ & _ & H0 & Hn & Hfail & _).
  exists r, w'. split; [exact E|].
  destruct (Z.eq_dec r 0) as [Hz|Hnz].
  - destruct (H0 Hz) as (_ & _ & _ & Hwf' & Hb').
    split; [exact Hwf'|]. split; [exact Hb'|]. intros; contradiction.
  - destruct (Hfail Hnz Hslot) as (Hh & Hwf' & Hb').
    split; [exact Hwf'|]. split; [exact Hb'|]. intros _. split; [exact Hh|].
    by apply Hn.
Qed.

Lemma setup_vcmdq_failure_on_empty_slot_leaks_nothing_witness :
  exists r w',
    tegra241_cmdqv_setup_vcmdq 6 queue6_programmed = Ret (r, w') /\
    wf w' /\ heap_below w' /\
    (r <> 0 -> heap w' = heap queue6_programmed /\
               vqueue (dev w') = vqueue (dev queue6_programmed)).
Proof.
  apply (setup_vcmdq_failure_on_empty_slot_leaks_nothing 6 queue6_programmed
           queue6_programmed_wf queue6_programmed_heap_below).
  - lia.
  - reflexivity.
Defined.

(** ** Decoding of the per-queue windows *)

Lemma queue_index (base r i : Z) :
  0 <= r < 0x80 ->
  (base + r + i * 0x80 - base) / 0x80 = i /\
  base + r + i * 0x80 - 0x80 * i = base + r.
Proof.
  intros Hr. split; [|lia].
  replace (base + r + i * 0x80 - base) with (r + i * 0x80) by lia.
  rewrite Z.div_add by lia. rewrite Z.div_small by lia. lia.
Qed.

Lemma write_page0_decode (i r v size : Z) (w w1 : World) :
  0 <= i < 128 -> 0 <= r <= 0x14 ->
  map_page0_once w = Ret (tt, w1) ->
  tegra241_cmdqv_write (0x10000 + r + i * 0x80) v size w =
  tegra241_cmdqv_write_vcmdq (0x10000 + r) i v size w1.
Proof.
  intros Hi Hr E1. unfold tegra241_cmdqv_write. rewrite bind_eq, E1.
  addr_consts. settle_tests. unfold write_vcmdq_page0.
  destruct (queue_index 0x10000 r i) as [-> ->]; [lia|]. reflexivity.
Qed.

Lemma write_page1_decode (i r v size : Z) (w w1 : World) :
  0 <= i < 128 -> 0 <= r <= 0xc ->
  map_page0_once w = Ret (tt, w1) ->
  tegra241_cmdqv_write (0x20000 + r + i * 0x80) v size w =
  tegra241_cmdqv_write_vcmdq (0x20000 + r) i v size w1.
Proof.
  intros Hi Hr E1. unfold tegra241_cmdqv_write. rewrite bind_eq, E1.
  addr_consts. settle_tests. unfold write_vcmdq_page1.
  destruct (queue_index 0x20000 r i) as [-> ->]; [lia|]. reflexivity.
Qed.

Lemma read_page0_decode (i r size : Z) (w w1 : World) :
  0 <= i < 128 -> 0 <= r <= 0x14 ->
  map_page0_once w = Ret (tt, w1) ->
  tegra241_cmdqv_read (0x10000 + r + i * 0x80) size w =
  tegra241_cmdqv_read_vcmdq (0x10000 + r) i w1.
Proof.
  intros Hi Hr E1. unfold tegra241_cmdqv_read. rewrite bind_eq, E1.
  addr_consts. settle_tests.
  destruct (queue_index 0x10000 r i) as [-> ->]; [lia|]. reflexivity.
Qed.

Lemma read_page1_decode (i r size : Z) (w w1 : World) :
  0 <= i < 128 -> 0 <= r <= 0xc ->
  map_page0_once w = Ret (tt, w1) ->
  tegra241_cmdqv_read (0x20000 + r + i * 0x80) size w =
  tegra241_cmdqv_read_vcmdq (0x20000 + r) i w1.
Proof.
  intros Hi Hr E1. unfold tegra241_cmdqv_read. rewrite bind_eq, E1.
  addr_consts. settle_tests.
  destruct (queue_index 0x20000 r i) as [-> ->]; [lia|]. reflexivity.
Qed.

(** ** The base registers *)

(** The reconfiguration that follows an update of the shadow base of queue
    [i] to [x] returns and keeps the shadow registers. *)
Lemma setup_after_base_update (i x : Z) (w w1 : World) :
  wf w -> 0 <= i < 128 ->
  vqueue (dev w1) = vqueue (dev w) -> heap w1 = heap w ->
  vcmdq_base (dev w1) = vcmdq_base (dev w) ->
  let w2 := set_dev (set_vcmdq_base (<[Z.to_nat i := x]> (vcmdq_base (dev w1)))
                       (dev w1)) w1 in
  exists r w', tegra241_cmdqv_setup_vcmdq i w2 = Ret (r, w') /\
    vcmdq_base (dev w') !! Z.to_nat i = Some x /\
    vcmdq_base (dev w') = <[Z.to_nat i := x]> (vcmdq_base (dev w)).
Proof.
  intros Hwf Hi Hq1 Hh1 Hbase w2.
  destruct (setup_vcmdq_returns i w2) as (r & w' & E3 & Hr3 & _); [lia| |].
  { intros p Hp. cbn [w2 dev set_dev vqueue set_vcmdq_base] in Hp.
    rewrite Hq1 in Hp. cbn [w2 heap set_dev]. rewrite Hh1.
    by destruct (wf_live w Hwf _ _ Hp). }
  exists r, w'. split; [exact E3|].
  assert (vcmdq_base (dev w') = vcmdq_base (dev w2)) as ->
    by (unfold register_cache in Hr3; congruence).
  cbn [w2 dev set_dev vcmdq_base set_vcmdq_base]. rewrite Hbase.
  split; [|reflexivity].
  apply list_lookup_insert_eq.
  rewrite (len_vcmdq_base _ (wf_lengths _ Hwf)). lia.
Qed.

Lemma combine_high_bits (b v : Z) :
  0 <= v ->
  let combined := Z.lor (Z.land b 0xffffffff) (u64 (Z.shiftl v 32)) in
  (forall n, 0 <= n < 32 -> Z.testbit combined n = Z.testbit b n) /\
  (forall n, 32 <= n < 64 -> Z.testbit combined n = Z.testbit v (n - 32)) /\
  (forall n, 64 <= n -> Z.testbit combined n = false).
Proof.
  intros Hv combined. unfold combined, u64.
  change 0xffffffff with (Z.ones 32).
  split; [|split]; intros n Hn; rewrite Z.lor_spec, Z.land_spec.
  - rewrite Z.ones_spec_low by lia.
    rewrite Z.mod_pow2_bits_low, Z.shiftl_spec_low by lia.
    by rewrite andb_true_r, orb_false_r.
  - rewrite Z.ones_spec_high by lia.
    rewrite Z.mod_pow2_bits_low, Z.shiftl_spec by lia.
    by rewrite andb_false_r.
  - rewrite Z.ones_spec_high by lia.
    rewrite Z.mod_pow2_bits_high by lia.
    by rewrite andb_false_r.
Qed.

(** X5. In a state whose pointers are valid, a write of [v] to the
    base-high register of queue [i], of any access size, returns; it keeps
    bits 0..31 of the shadow base [b], sets bits 32..63 to bits 0..31 of
    [v], and calls [tegra241_cmdqv_setup_vcmdq] once, on the state whose
    shadow base is [(b & 0xffffffff) | (v << 32)]: the state the write
    returns is the one that call returns. *)
Theorem base_high_write_reconfigures_once (i b v size : Z) (w : World) :
  wf w -> 0 <= i < 128 -> 0 <= v ->
  nth (Z.to_nat i) (vcmdq_base (dev w)) 0 = b ->
  let combined := Z.lor (Z.land b 0xffffffff) (u64 (Z.shiftl v 32)) in
  exists w1 r w',
    map_page0_once w = Ret (tt, w1) /\
    tegra241_cmdqv_write (A_VCMDQi_BASE_H i) v size w = Ret (tt, w') /\
    tegra241_cmdqv_setup_vcmdq i
      (set_dev (set_vcmdq_base (<[Z.to_nat i := combined]> (vcmdq_base (dev w1)))
                  (dev w1)) w1) = Ret (r, w') /\
    vcmdq_base (dev w') !! Z.to_nat i = Some combined /\
    (forall n, 0 <= n < 32 -> Z.testbit combined n = Z.testbit b n) /\
    (forall n, 32 <= n < 64 -> Z.testbit combined n = Z.testbit v (n - 32)).
Proof.
  intros Hwf Hi Hv Hb combined.
  destruct (map_page0_once_dev w)
    as (w1 & E1 & Hr1 & Hq1 & _ & Hh1 & _).
  assert (vcmdq_base (dev w1) = vcmdq_base (dev w)) as Hbase
    by (unfold register_cache in Hr1; congruence).
  assert (in_bounds arr_vcmdq_base i = true) as Hin
    by (apply in_bounds_intro; simpl; lia).
  destruct (setup_after_base_update i combined w w1 Hwf Hi Hq1 Hh1 Hbase)
    as (r & w' & E3 & Hl & _).
  exists w1, r, w'. split; [exact E1|]. split; [|split; [exact E3|]].
  - unfold A_VCMDQi_BASE_H.
    rewrite (write_page1_decode i 4 v size w w1) by (assumption || lia).
    unfold tegra241_cmdqv_write_vcmdq. addr_consts. settle_tests.
    rewrite bind_eq, modify_arr_in_bounds by assumption. cbv iota beta.
    rewrite bind_eq, modify_arr_in_bounds by assumption. cbv iota beta.
    cbn [dev set_dev vcmdq_base set_vcmdq_base].
    rewrite nth_lookup, list_lookup_insert_eq
      by (rewrite Hbase, (len_vcmdq_base _ (wf_lengths _ Hwf)); lia).
    cbn [default from_option id]. rewrite list_insert_insert_eq.
    rewrite Hbase at 1. rewrite Hb.
    rewrite bind_eq.
    match goal with
    | |- match tegra241_cmdqv_setup_vcmdq i ?x with _ => _ end = _ =>
        change (tegra241_cmdqv_setup_vcmdq i x)
          with (tegra241_cmdqv_setup_vcmdq i
                  (set_dev (set_vcmdq_base
                              (<[Z.to_nat i := combined]> (vcmdq_base (dev w1)))
                              (dev w1)) w1))
    end.
    rewrite E3. reflexivity.
  - split; [exact Hl|].
    destruct (combine_high_bits b v Hv) as (H1 & H2 & _). by split.
Qed.

Lemma base_high_write_reconfigures_once_witness :
  exists w',
    tegra241_cmdqv_write (A_VCMDQi_BASE_H 5) 0x12 4 queue5_live = Ret (tt, w') /\
    vcmdq_base (dev w') !! 5%nat = Some 0x1200010005.
Proof.
  destruct (base_high_write_reconfigures_once 5 0x10005 0x12 4 queue5_live
              queue5_live_wf ltac:(lia) ltac:(lia) eq_refl)
    as (w1 & r & w' & _ & E & _ & Hb & _).
  exists w'. split; [exact E | exact Hb].
Defined.

Lemma lookup_nth_in_range {A} (l : list A) (k : nat) (d : A) :
  (k < length l)%nat -> l !! k = Some (nth k l d).
Proof.
  intros Hk. rewrite nth_lookup.
  destruct (l !! k) eqn:E; [reflexivity|].
  apply lookup_ge_None in E. lia.
Qed.

Lemma set_vcmdq_base_eta s : set_vcmdq_base (vcmdq_base s) s = s.
Proof. by destruct s. Qed.

(** Reads of the two base registers of queue [i] return the shadow base
    and its upper half. *)
Lemma read_base (i size : Z) (w : World) :
  0 <= i < 128 ->
  (exists w', tegra241_cmdqv_read (A_VCMDQi_BASE_L i) size w =
     Ret (nth (Z.to_nat i) (vcmdq_base (dev w)) 0, w')) /\
  (exists w', tegra241_cmdqv_read (A_VCMDQi_BASE_H i) size w =
     Ret (Z.shiftr (nth (Z.to_nat i) (vcmdq_base (dev w)) 0) 32, w')).
Proof.
  intros Hi.
  destruct (map_page0_once_dev w) as (w1 & E1 & Hr1 & _).
  assert (vcmdq_base (dev w1) = vcmdq_base (dev w)) as Hbase
    by (unfold register_cache in Hr1; congruence).
  assert (in_bounds arr_vcmdq_base i = true) as Hin
    by (apply in_bounds_intro; simpl; lia).
  split; exists w1.
  - unfold A_VCMDQi_BASE_L.
    replace (0x20000 + i * 0x80) with (0x20000 + 0 + i * 0x80) by lia.
    rewrite (read_page1_decode i 0 size w w1) by (assumption || lia).
    unfold tegra241_cmdqv_read_vcmdq. addr_consts. settle_tests.
    rewrite rd_arr_in_bounds by assumption. by rewrite Hbase.
  - unfold A_VCMDQi_BASE_H.
    rewrite (read_page1_decode i 4 size w w1) by (assumption || lia).
    unfold tegra241_cmdqv_read_vcmdq. addr_consts. settle_tests.
    rewrite bind_eq, rd_arr_in_bounds by assumption. by rewrite Hbase.
Qed.

(** X6. In a state whose pointers are valid, a write to the base-low
    register of queue [i] of a size other than 4 returns; it replaces the
    whole shadow base with the 64-bit value when the size is 8 and leaves
    it as it is otherwise; in both cases [tegra241_cmdqv_setup_vcmdq] is
    called once.  Whatever that call returns, the base registers then read
    back the stored value: the base-low register returns all 64 bits of
    it, the base-high register its upper half. *)
Theorem base_low_write_other_sizes (i b v size size' : Z) (w : World) :
  wf w -> 0 <= i < 128 -> size <> 4 ->
  nth (Z.to_nat i) (vcmdq_base (dev w)) 0 = b ->
  let stored := if size =? 8 then u64 v else b in
  exists w1 r w',
    map_page0_once w = Ret (tt, w1) /\
    tegra241_cmdqv_write (A_VCMDQi_BASE_L i) v size w = Ret (tt, w') /\
    tegra241_cmdqv_setup_vcmdq i
      (set_dev (set_vcmdq_base (<[Z.to_nat i := stored]> (vcmdq_base (dev w1)))
                  (dev w1)) w1) = Ret (r, w') /\
    vcmdq_base (dev w') !! Z.to_nat i = Some stored /\
    (exists w'', tegra241_cmdqv_read (A_VCMDQi_BASE_L i) size' w' =
                   Ret (stored, w'')) /\
    (exists w'', tegra241_cmdqv_read (A_VCMDQi_BASE_H i) size' w' =
                   Ret (Z.shiftr stored 32, w'')).
Proof.
  intros Hwf Hi Hsize Hb stored.
  destruct (map_page0_once_dev w)
    as (w1 & E1 & Hr1 & Hq1 & _ & Hh1 & _).
  assert (vcmdq_base (dev w1) = vcmdq_base (dev w)) as Hbase
    by (unfold register_cache in Hr1; congruence).
  assert (in_bounds arr_vcmdq_base i = true) as Hin
    by (apply in_bounds_intro; simpl; lia).
  pose proof (len_vcmdq_base _ (wf_lengths _ Hwf)) as Hlen.
  destruct (setup_after_base_update i stored w w1 Hwf Hi Hq1 Hh1 Hbase)
    as (r & w' & E3 & Hl & _).
  exists w1, r, w'. split; [exact E1|]. split; [|split; [exact E3|]].
  - unfold A_VCMDQi_BASE_L.
    replace (0x20000 + i * 0x80) with (0x20000 + 0 + i * 0x80) by lia.
    rewrite (write_page1_decode i 0 v size w w1) by (assumption || lia).
    unfold tegra241_cmdqv_write_vcmdq. addr_consts. settle_tests.
    replace (size =? 4) with false by (symmetry; by apply Z.eqb_neq).
    rewrite bind_eq. unfold stored in E3 |- *.
    destruct (size =? 8).
    + rewrite wr_arr_in_bounds by assumption. cbv iota beta.
      rewrite bind_eq, E3. reflexivity.
    + cbv [mret M_ret]. cbv iota beta. rewrite bind_eq.
      rewrite list_insert_id, set_vcmdq_base_eta, set_dev_eta in E3.
      * rewrite E3. reflexivity.
      * rewrite Hbase, <- Hb. by apply lookup_nth_in_range; lia.
  - split; [exact Hl|].
    assert (nth (Z.to_nat i) (vcmdq_base (dev w')) 0 = stored) as Hnth
      by (by rewrite nth_lookup, Hl).
    destruct (read_base i size' w' Hi) as [[w2 E4] [w3 E5]].
    rewrite Hnth in E4, E5. split; eexists; eassumption.
Qed.

Lemma base_low_write_other_sizes_witness :
  exists w',
    tegra241_cmdqv_write (A_VCMDQi_BASE_L 5) 0x7000020006 8 queue5_live =
      Ret (tt, w') /\
    (exists w'', tegra241_cmdqv_read (A_VCMDQi_BASE_L 5) 4 w' =
                   Ret (0x7000020006, w'')) /\
    (exists w'', tegra241_cmdqv_read (A_VCMDQi_BASE_H 5) 4 w' =
                   Ret (0x70, w'')).
Proof.
  destruct (base_low_write_other_sizes 5 0x10005 0x7000020006 8 4 queue5_live
              queue5_live_wf ltac:(lia) ltac:(lia) eq_refl)
    as (w1 & r & w' & _ & E & _ & _ & HL & HH).
  exists w'. split; [exact E|]. split; [exact HL | exact HH].
Defined.

(** ** The registers that mirror the consumer index base *)

Lemma only_diagnostics_registers_only (w w' : World) :
  only_diagnostics w w' -> registers_only w w'.
Proof. intros (_ & ? & ? & ? & ? & ?). by repeat split. Qed.

Lemma registers_only_set_dev (w w1 : World) (s : Tegra241CMDQV) :
  registers_only w w1 -> vqueue s = vqueue (dev w1) ->
  viommu s = viommu (dev w1) -> registers_only w (set_dev s w1).
Proof.
  intros (Hq & Hv & Hh & Hm & Ht) Hq' Hv'.
  split; [cbn; congruence|]. split; [cbn; congruence|]. by repeat split.
Qed.

(** The state after the lazy mapping of the page, and what it keeps. *)
Lemma map_page0_once_frame (w : World) :
  exists w1, map_page0_once w = Ret (tt, w1) /\
    register_cache (dev w1) = register_cache (dev w) /\
    registers_only w w1.
Proof.
  destruct (map_page0_once_spec w) as (w1 & E1 & D1 & _).
  exists w1. split; [exact E1|]. split; [apply D1|].
  by apply only_diagnostics_registers_only.
Qed.

Lemma wf_dev_set_vcmdq_cons_indx_base l s :
  wf_dev s -> length l = 128%nat -> wf_dev (set_vcmdq_cons_indx_base l s).
Proof. intros [] Hl. by constructor. Qed.

Lemma write_cons_indx_base_low (i v size : Z) (w : World) :
  wf_dev (dev w) -> 0 <= i < 128 ->
  let b := nth (Z.to_nat i) (vcmdq_cons_indx_base (dev w)) 0 in
  let stored :=
    if size =? 8 then u64 v
    else if size =? 4 then Z.lor (Z.land b 0xffffffff) (Z.land v 0xffffffff)
    else b in
  exists w', tegra241_cmdqv_write (A_VCMDQi_CONS_INDX_BASE_DRAM_L i) v size w =
               Ret (tt, w') /\
    vcmdq_cons_indx_base (dev w') =
      <[Z.to_nat i := stored]> (vcmdq_cons_indx_base (dev w)) /\
    registers_only w w' /\ wf_dev (dev w').
Proof.
  intros Hlen Hi b stored.
  destruct (map_page0_once_frame w) as (w1 & E1 & Hr1 & Hfr).
  assert (wf_dev (dev w1)) as Hlen1.
  { eapply wf_dev_of_cache; [exact Hr1| |exact Hlen].
    destruct Hfr as (Hq & _). by rewrite Hq. }
  assert (vcmdq_cons_indx_base (dev w1) = vcmdq_cons_indx_base (dev w)) as Hbase
    by (unfold register_cache in Hr1; congruence).
  assert (in_bounds arr_vcmdq_cons_indx_base i = true) as Hin
    by (apply in_bounds_intro; simpl; lia).
  pose proof (len_vcmdq_cons_indx_base _ Hlen) as Hl.
  unfold A_VCMDQi_CONS_INDX_BASE_DRAM_L.
  rewrite (write_page1_decode i 8 v size w w1) by (assumption || lia).
  unfold tegra241_cmdqv_write_vcmdq. addr_consts. settle_tests.
  unfold stored, b. rewrite <- Hbase.
  destruct (size =? 8); [|destruct (size =? 4)].
  - rewrite wr_arr_in_bounds by assumption.
    eexists; split; [reflexivity|]. split; [reflexivity|].
    split; [by apply registers_only_set_dev|].
    cbn [dev set_dev].
    repeat (apply wf_dev_set_vcmdq_cons_indx_base;
            [|rewrite ?length_insert; by rewrite Hbase]).
    assumption.
  - rewrite bind_eq, modify_arr_in_bounds by assumption. cbv iota beta.
    rewrite modify_arr_in_bounds by assumption.
    cbn [dev set_dev vcmdq_cons_indx_base set_vcmdq_cons_indx_base].
    rewrite nth_lookup, list_lookup_insert_eq by (rewrite Hbase, Hl; lia).
    cbn [default from_option id]. rewrite list_insert_insert_eq.
    eexists; split; [reflexivity|]. split; [reflexivity|].
    split; [by apply registers_only_set_dev|].
    cbn [dev set_dev].
    repeat (apply wf_dev_set_vcmdq_cons_indx_base;
            [|rewrite ?length_insert; by rewrite Hbase]).
    assumption.
  - exists w1. split; [reflexivity|]. split; [|by split].
    symmetry. apply list_insert_id, lookup_nth_in_range. rewrite Hbase, Hl. lia.
Qed.

Lemma write_cons_indx_base_high (i v size : Z) (w : World) :
  wf_dev (dev w) -> 0 <= i < 128 ->
  let b := nth (Z.to_nat i) (vcmdq_cons_indx_base (dev w)) 0 in
  let stored := Z.lor (Z.land b 0xffffffff00000000) (u64 (Z.shiftl v 32)) in
  exists w', tegra241_cmdqv_write (A_VCMDQi_CONS_INDX_BASE_DRAM_H i) v size w =
               Ret (tt, w') /\
    vcmdq_cons_indx_base (dev w') =
      <[Z.to_nat i := stored]> (vcmdq_cons_indx_base (dev w)) /\
    registers_only w w' /\ wf_dev (dev w').
Proof.
  intros Hlen Hi b stored.
  destruct (map_page0_once_frame w) as (w1 & E1 & Hr1 & Hfr).
  assert (wf_dev (dev w1)) as Hlen1.
  { eapply wf_dev_of_cache; [exact Hr1| |exact Hlen].
    destruct Hfr as (Hq & _). by rewrite Hq. }
  assert (vcmdq_cons_indx_base (dev w1) = vcmdq_cons_indx_base (dev w)) as Hbase
    by (unfold register_cache in Hr1; congruence).
  assert (in_bounds arr_vcmdq_cons_indx_base i = true) as Hin
    by (apply in_bounds_intro; simpl; lia).
  pose proof (len_vcmdq_cons_indx_base _ Hlen) as Hl.
  unfold A_VCMDQi_CONS_INDX_BASE_DRAM_H.
  rewrite (write_page1_decode i 0xc v size w w1) by (assumption || lia).
  unfold tegra241_cmdqv_write_vcmdq. addr_consts. settle_tests.
  unfold stored, b. rewrite <- Hbase.
  rewrite bind_eq, modify_arr_in_bounds by assumption. cbv iota beta.
  rewrite modify_arr_in_bounds by assumption.
  cbn [dev set_dev vcmdq_cons_indx_base set_vcmdq_cons_indx_base].
  rewrite nth_lookup, list_lookup_insert_eq by (rewrite Hbase, Hl; lia).
  cbn [default from_option id]. rewrite list_insert_insert_eq.
  eexists; split; [reflexivity|]. split; [reflexivity|].
  split; [by apply registers_only_set_dev|].
  cbn [dev set_dev].
  repeat (apply wf_dev_set_vcmdq_cons_indx_base;
          [|rewrite ?length_insert; by rewrite Hbase]).
  assumption.
Qed.

Lemma read_cons_indx_base (i size : Z) (w : World) :
  0 <= i < 128 ->
  (exists w', tegra241_cmdqv_read (A_VCMDQi_CONS_INDX_BASE_DRAM_L i) size w =
     Ret (nth (Z.to_nat i) (vcmdq_cons_indx_base (dev w)) 0, w')) /\
  (exists w', tegra241_cmdqv_read (A_VCMDQi_CONS_INDX_BASE_DRAM_H i) size w =
     Ret (Z.shiftr (nth (Z.to_nat i) (vcmdq_cons_indx_base (dev w)) 0) 32, w')).
Proof.
  intros Hi.
  destruct (map_page0_once_dev w) as (w1 & E1 & Hr1 & _).
  assert (vcmdq_cons_indx_base (dev w1) = vcmdq_cons_indx_base (dev w)) as Hbase
    by (unfold register_cache in Hr1; congruence).
  assert (in_bounds arr_vcmdq_cons_indx_base i = true) as Hin
    by (apply in_bounds_intro; simpl; lia).
  split; exists w1.
  - unfold A_VCMDQi_CONS_INDX_BASE_DRAM_L.
    rewrite (read_page1_decode i 8 size w w1) by (assumption || lia).
    unfold tegra241_cmdqv_read_vcmdq. addr_consts. settle_tests.
    rewrite rd_arr_in_bounds by assumption. by rewrite Hbase.
  - unfold A_VCMDQi_CONS_INDX_BASE_DRAM_H.
    rewrite (read_page1_decode i 0xc size w w1) by (assumption || lia).
    unfold tegra241_cmdqv_read_vcmdq. addr_consts. settle_tests.
    rewrite bind_eq, rd_arr_in_bounds by assumption. by rewrite Hbase.
Qed.

Lemma low_merge_bits (b v : Z) :
  let merged := Z.lor (Z.land b 0xffffffff) (Z.land v 0xffffffff) in
  (forall n, 0 <= n < 32 ->
     Z.testbit merged n = Z.testbit b n || Z.testbit v n) /\
  (forall n, 32 <= n -> Z.testbit merged n = false).
Proof.
  intros merged. unfold merged. change 0xffffffff with (Z.ones 32).
  split; intros n Hn; rewrite Z.lor_spec, !Z.land_spec.
  - rewrite Z.ones_spec_low by lia. by rewrite !andb_true_r.
  - rewrite Z.ones_spec_high by lia. by rewrite !andb_false_r.
Qed.

Lemma high_merge_bits (b v : Z) :
  let merged := Z.lor (Z.land b 0xffffffff00000000) (u64 (Z.shiftl v 32)) in
  (forall n, 0 <= n < 32 -> Z.testbit merged n = false) /\
  (forall n, 32 <= n < 64 ->
     Z.testbit merged n = Z.testbit b n || Z.testbit v (n - 32)) /\
  (forall n, 64 <= n -> Z.testbit merged n = false).
Proof.
  intros merged. unfold merged, u64.
  change 0xffffffff00000000 with (Z.shiftl (Z.ones 32) 32).
  split; [|split]; intros n Hn; rewrite Z.lor_spec, Z.land_spec.
  - rewrite Z.mod_pow2_bits_low, !Z.shiftl_spec_low by lia.
    by rewrite andb_false_r.
  - rewrite Z.mod_pow2_bits_low, !Z.shiftl_spec by lia.
    rewrite Z.ones_spec_low by lia. by rewrite andb_true_r.
  - rewrite Z.mod_pow2_bits_high by lia. rewrite Z.shiftl_spec by lia.
    rewrite Z.ones_spec_high by lia. by rewrite andb_false_r.
Qed.

Lemma low_after_high (b vh vl : Z) :
  0 <= vl < 2 ^ 32 ->
  Z.lor (Z.land (Z.lor (Z.land b 0xffffffff00000000) (u64 (Z.shiftl vh 32)))
           0xffffffff)
    (Z.land vl 0xffffffff) = vl.
Proof.
  intros Hv. apply Z.bits_inj'. intros n Hn.
  destruct (low_merge_bits
              (Z.lor (Z.land b 0xffffffff00000000) (u64 (Z.shiftl vh 32))) vl)
    as [Hlo Hhi].
  destruct (high_merge_bits b vh) as (H0 & _).
  destruct (Z_lt_ge_dec n 32) as [L|G].
  - rewrite Hlo by lia. by rewrite H0 by lia.
  - rewrite Hhi by lia. symmetry. apply (testbit_above vl n 32); lia.
Qed.

Lemma high_after_low (b vl vh : Z) :
  0 <= vh < 2 ^ 32 ->
  Z.lor (Z.land (Z.lor (Z.land b 0xffffffff) (Z.land vl 0xffffffff))
           0xffffffff00000000)
    (u64 (Z.shiftl vh 32)) = Z.shiftl vh 32.
Proof.
  intros Hv. apply Z.bits_inj'. intros n Hn.
  destruct (high_merge_bits
              (Z.lor (Z.land b 0xffffffff) (Z.land vl 0xffffffff)) vh)
    as (H0 & H1 & H2).
  destruct (low_merge_bits b vl) as [_ Hhi].
  destruct (Z_lt_ge_dec n 32) as [L|G].
  - rewrite H0 by lia. by rewrite Z.shiftl_spec_low by lia.
  - rewrite Z.shiftl_spec by lia.
    destruct (Z_lt_ge_dec n 64) as [L'|G'].
    + rewrite H1 by lia. by rewrite Hhi by lia.
    + rewrite H2 by lia. symmetry. apply (testbit_above vh (n - 32) 32); lia.
Qed.

(** X7. An 8-byte write of [v] to the consumer-index-base low register of
    queue [i] replaces the 64-bit shadow of that queue, and of no other;
    it sends nothing to the kernel and touches neither a queue slot nor
    the shared page.  Afterwards the low register reads back all 64 bits
    of [v] and the high register the upper 32. *)
Theorem cons_indx_base_write_8_bytes_round_trip (i v size' : Z) (w : World) :
  wf_dev (dev w) -> 0 <= i < 128 ->
  exists w',
    tegra241_cmdqv_write (A_VCMDQi_CONS_INDX_BASE_DRAM_L i) v 8 w =
      Ret (tt, w') /\
    vcmdq_cons_indx_base (dev w') =
      <[Z.to_nat i := u64 v]> (vcmdq_cons_indx_base (dev w)) /\
    registers_only w w' /\
    (exists w'', tegra241_cmdqv_read (A_VCMDQi_CONS_INDX_BASE_DRAM_L i) size' w' =
                   Ret (u64 v, w'')) /\
    (exists w'', tegra241_cmdqv_read (A_VCMDQi_CONS_INDX_BASE_DRAM_H i) size' w' =
                   Ret (Z.shiftr (u64 v) 32, w'')).
Proof.
  intros Hlen Hi.
  destruct (write_cons_indx_base_low i v 8 w Hlen Hi)
    as (w' & E & Hs & Hfr & _).
  change (8 =? 8) with true in Hs. cbv iota in Hs.
  exists w'. split; [exact E|]. split; [exact Hs|]. split; [exact Hfr|].
  assert (nth (Z.to_nat i) (vcmdq_cons_indx_base (dev w')) 0 = u64 v) as Hnth.
  { rewrite Hs, nth_lookup, list_lookup_insert_eq; [reflexivity|].
    rewrite (len_vcmdq_cons_indx_base _ Hlen). lia. }
  destruct (read_cons_indx_base i size' w' Hi) as [[w2 E2] [w3 E3]].
  rewrite Hnth in E2, E3. split; eexists; eassumption.
Qed.

Lemma cons_indx_base_write_8_bytes_round_trip_witness :
  exists w',
    tegra241_cmdqv_write (A_VCMDQi_CONS_INDX_BASE_DRAM_L 5) 0x1234500000040 8
      queue5_live = Ret (tt, w') /\
    (exists w'', tegra241_cmdqv_read (A_VCMDQi_CONS_INDX_BASE_DRAM_L 5) 4 w' =
                   Ret (0x1234500000040, w'')) /\
    (exists w'', tegra241_cmdqv_read (A_VCMDQi_CONS_INDX_BASE_DRAM_H 5) 4 w' =
                   Ret (0x12345, w'')).
Proof.
  destruct (cons_indx_base_write_8_bytes_round_trip 5 0x1234500000040 4
              queue5_live (wf_lengths _ queue5_live_wf) ltac:(lia))
    as (w' & E & _ & _ & HL & HH).
  exists w'. split; [exact E|]. split; [exact HL | exact HH].
Defined.

(** X8. Two 4-byte writes do not assemble a 64-bit consumer-index base.
    A 4-byte write of [vl] to the low register clears bits 32..63 of the
    shadow and ORs [vl] into bits 0..31 (the old low bits stay set); a
    write of [vh] to the high register clears bits 0..31 and ORs [vh] into
    bits 32..63.  So after the low register and then the high register are
    written the shadow is [vh << 32], and after the high and then the low
    register it is [vl]: in either order only the half written last is
    kept. *)
Theorem cons_indx_base_4_byte_writes_clear_other_half
    (i vl vh : Z) (w : World) :
  wf_dev (dev w) -> 0 <= i < 128 -> 0 <= vl < 2 ^ 32 -> 0 <= vh < 2 ^ 32 ->
  let b := nth (Z.to_nat i) (vcmdq_cons_indx_base (dev w)) 0 in
  let L := A_VCMDQi_CONS_INDX_BASE_DRAM_L i in
  let H := A_VCMDQi_CONS_INDX_BASE_DRAM_H i in
  let reg w' := nth (Z.to_nat i) (vcmdq_cons_indx_base (dev w')) 0 in
  (exists w1 w2,
     tegra241_cmdqv_write L vl 4 w = Ret (tt, w1) /\
     reg w1 = Z.lor (Z.land b 0xffffffff) vl /\
     (forall n, 32 <= n -> Z.testbit (reg w1) n = false) /\
     tegra241_cmdqv_write H vh 4 w1 = Ret (tt, w2) /\
     reg w2 = Z.shiftl vh 32) /\
  (exists w1 w2,
     tegra241_cmdqv_write H vh 4 w = Ret (tt, w1) /\
     reg w1 = Z.lor (Z.land b 0xffffffff00000000) (Z.shiftl vh 32) /\
     (forall n, 0 <= n < 32 -> Z.testbit (reg w1) n = false) /\
     tegra241_cmdqv_write L vl 4 w1 = Ret (tt, w2) /\
     reg w2 = vl).
Proof.
  intros Hlen Hi Hvl Hvh b L H reg.
  assert (forall w0 w' x, wf_dev (dev w0) ->
            vcmdq_cons_indx_base (dev w') =
              <[Z.to_nat i := x]> (vcmdq_cons_indx_base (dev w0)) ->
            reg w' = x) as Hreg.
  { intros w0 w' x Hl0 Hs.
    unfold reg. rewrite Hs, nth_lookup, list_lookup_insert_eq; [reflexivity|].
    rewrite (len_vcmdq_cons_indx_base _ Hl0). lia. }
  assert (Z.land vl 0xffffffff = vl) as Hland.
  { change 0xffffffff with (Z.ones 32). rewrite Z.land_ones by lia.
    apply Z.mod_small. lia. }
  assert (u64 (Z.shiftl vh 32) = Z.shiftl vh 32) as Hshift.
  { unfold u64. rewrite Z.shiftl_mul_pow2 by lia. apply Z.mod_small. lia. }
  split.
  - destruct (write_cons_indx_base_low i vl 4 w Hlen Hi)
      as (w1 & E1 & Hs1 & _ & Hlen1).
    change (4 =? 8) with false in Hs1. change (4 =? 4) with true in Hs1.
    cbv iota in Hs1. fold b in Hs1.
    destruct (write_cons_indx_base_high i vh 4 w1 Hlen1 Hi)
      as (w2 & E2 & Hs2 & _).
    pose proof (Hreg w w1 _ Hlen Hs1) as R1.
    pose proof (Hreg w1 w2 _ Hlen1 Hs2) as R2.
    fold (reg w1) in R2. rewrite R1 in R2.
    rewrite high_after_low in R2 by assumption.
    exists w1, w2. split; [exact E1|]. rewrite Hland in R1.
    split; [exact R1|]. split; [|split; [exact E2|exact R2]].
    intros n Hn. rewrite R1, <- Hland.
    exact (proj2 (low_merge_bits b vl) n Hn).
  - destruct (write_cons_indx_base_high i vh 4 w Hlen Hi)
      as (w1 & E1 & Hs1 & _ & Hlen1).
    fold b in Hs1.
    destruct (write_cons_indx_base_low i vl 4 w1 Hlen1 Hi)
      as (w2 & E2 & Hs2 & _).
    change (4 =? 8) with false in Hs2. change (4 =? 4) with true in Hs2.
    cbv iota in Hs2.
    pose proof (Hreg w w1 _ Hlen Hs1) as R1.
    pose proof (Hreg w1 w2 _ Hlen1 Hs2) as R2.
    fold (reg w1) in R2. rewrite R1 in R2.
    rewrite low_after_high in R2 by assumption.
    exists w1, w2. split; [exact E1|]. rewrite <- Hshift.
    split; [exact R1|]. split; [|split; [exact E2|exact R2]].
    intros n Hn. rewrite R1.
    exact (proj1 (high_merge_bits b vh) n Hn).
Qed.

Lemma cons_indx_base_4_byte_writes_clear_other_half_witness :
  (exists w1 w2,
     tegra241_cmdqv_write (A_VCMDQi_CONS_INDX_BASE_DRAM_L 5) 0x40 4 queue5_live =
       Ret (tt, w1) /\
     tegra241_cmdqv_write (A_VCMDQi_CONS_INDX_BASE_DRAM_H 5) 0x12 4 w1 =
       Ret (tt, w2) /\
     nth 5 (vcmdq_cons_indx_base (dev w2)) 0 = 0x1200000000) /\
  (exists w1 w2,
     tegra241_cmdqv_write (A_VCMDQi_CONS_INDX_BASE_DRAM_H 5) 0x12 4 queue5_live =
       Ret (tt, w1) /\
     tegra241_cmdqv_write (A_VCMDQi_CONS_INDX_BASE_DRAM_L 5) 0x40 4 w1 =
       Ret (tt, w2) /\
     nth 5 (vcmdq_cons_indx_base (dev w2)) 0 = 0x40).
Proof.
  destruct (cons_indx_base_4_byte_writes_clear_other_half 5 0x40 0x12
              queue5_live (wf_lengths _ queue5_live_wf)
              ltac:(lia) ltac:(lia) ltac:(lia))
    as [(w1 & w2 & E1 & _ & _ & E2 & R2) (w3 & w4 & E3 & _ & _ & E4 & R4)].
  split.
  - exists w1, w2. split; [exact E1|]. split; [exact E2 | exact R2].
  - exists w3, w4. split; [exact E3|]. split; [exact E4 | exact R4].
Defined.

(** ** The registers in the shared page *)

Lemma live_address_eq (i : Z) :
  live_address CONS_INDX i = A_VCMDQi_CONS_INDX i /\
  live_address PROD_INDX i = A_VCMDQi_PROD_INDX i /\
  live_address CONFIG i = A_VCMDQi_CONFIG i /\
  live_address STATUS i = A_VCMDQi_STATUS i /\
  live_address GERROR i = A_VCMDQi_GERROR i /\
  live_address GERRORN i = A_VCMDQi_GERRORN i.
Proof. unfold live_address. addr_consts. cbn [live_offset]. repeat split; lia. Qed.

Lemma u32_u32 (v : Z) : u32 (u32 v) = u32 v.
Proof. unfold u32. apply Z.mod_mod. lia. Qed.

Lemma map_page0_once_page (w : World) (base : Z) :
  page_at w base ->
  exists w1, map_page0_once w = Ret (tt, w1) /\
    vcmdq_page0 (dev w1) = Some base /\
    register_cache (dev w1) = register_cache (dev w) /\
    vqueue (dev w1) = vqueue (dev w) /\ viommu (dev w1) = viommu (dev w) /\
    heap w1 = heap w /\ mem w1 = mem w /\ trace w1 = trace w /\
    shared_page w1 = shared_page w.
Proof.
  unfold map_page0_once, tegra241_cmdqv_init_vcmdq_page0. run.
  intros [Hp | [Hp Hs]]; rewrite Hp; cbn.
  - eexists; split; [reflexivity|]. by repeat split.
  - rewrite Hs. cbn. eexists; split; [reflexivity|]. by repeat split.
Qed.

Lemma live_shadow_in_bounds (k : live_register) (i : Z) :
  0 <= i < 128 ->
  in_bounds arr_vcmdq_cons_indx i = true /\
  in_bounds arr_vcmdq_prod_indx i = true /\
  in_bounds arr_vcmdq_config i = true /\
  in_bounds arr_vcmdq_status i = true /\
  in_bounds arr_vcmdq_gerror i = true /\
  in_bounds arr_vcmdq_gerrorn i = true.
Proof. intros Hi. repeat split; apply in_bounds_intro; simpl; lia. Qed.

Lemma live_shadow_length (k : live_register) (s : Tegra241CMDQV) :
  wf_dev s -> length (live_shadow k s) = 128%nat.
Proof. intros []. by destruct k. Qed.

(** A read of a register of the shared page, once the page is mapped. *)
Lemma read_live_register (k : live_register) (i size base : Z) (w : World) :
  0 <= i < 128 -> page_at w base ->
  let x := default 0 (mem w !! (base + 0x80 * i + live_offset k)) in
  exists w',
    tegra241_cmdqv_read (live_address k i) size w =
      Ret (nth (Z.to_nat i) (<[Z.to_nat i := x]> (live_shadow k (dev w))) 0, w') /\
    live_shadow k (dev w') = <[Z.to_nat i := x]> (live_shadow k (dev w)) /\
    vcmdq_page0 (dev w') = Some base /\
    vqueue (dev w') = vqueue (dev w) /\ viommu (dev w') = viommu (dev w) /\
    heap w' = heap w /\ mem w' = mem w /\ trace w' = trace w.
Proof.
  intros Hi Hpage x.
  destruct (map_page0_once_page w base Hpage)
    as (w1 & E1 & Hp1 & Hr1 & Hq1 & Hv1 & Hh1 & Hm1 & Ht1 & _).
  destruct (live_shadow_in_bounds k i Hi) as (B1 & B2 & B3 & B4 & B5 & B6).
  unfold live_address.
  rewrite (read_page0_decode i (live_offset k) size w w1)
    by (assumption || (destruct k; cbn; lia)).
  assert (live_shadow k (dev w1) = live_shadow k (dev w)) as Hsh.
  { unfold register_cache in Hr1. destruct k; cbn [live_shadow]; congruence. }
  unfold tegra241_cmdqv_read_vcmdq, x. rewrite <- Hsh, <- Hm1.
  destruct k; cbn [live_offset live_shadow]; addr_consts; settle_tests;
    unfold read_live, page0_load; rewrite bind_eq, Hp1; cbv iota beta;
    rewrite bind_eq, wr_arr_in_bounds by assumption; cbv iota beta;
    rewrite rd_arr_in_bounds by assumption;
    match goal with
    | |- context [mem w1 !! (base + (128 * i + ?c - 65536))] =>
        first [ replace (base + (128 * i + c - 65536))
                  with (base + 128 * i + 0) by lia
              | replace (base + (128 * i + c - 65536))
                  with (base + 128 * i + 4) by lia
              | replace (base + (128 * i + c - 65536))
                  with (base + 128 * i + 8) by lia
              | replace (base + (128 * i + c - 65536))
                  with (base + 128 * i + 12) by lia
              | replace (base + (128 * i + c - 65536))
                  with (base + 128 * i + 16) by lia
              | replace (base + (128 * i + c - 65536))
                  with (base + 128 * i + 20) by lia ]
    end;
    (eexists; split; [reflexivity|]); by repeat split.
Qed.

(** A write to a writable register of the shared page, once the page is
    mapped. *)
Lemma write_live_register (k : live_register) (i v size base : Z) (w : World) :
  live_writable k = true -> 0 <= i < 128 -> page_at w base ->
  exists w',
    tegra241_cmdqv_write (live_address k i) v size w = Ret (tt, w') /\
    live_shadow k (dev w') = <[Z.to_nat i := u32 v]> (live_shadow k (dev w)) /\
    mem w' = <[base + 0x80 * i + live_offset k := u32 v]> (mem w) /\
    vcmdq_page0 (dev w') = Some base /\
    vqueue (dev w') = vqueue (dev w) /\ viommu (dev w') = viommu (dev w) /\
    heap w' = heap w /\ trace w' = trace w.
Proof.
  intros Hk Hi Hpage.
  destruct (map_page0_once_page w base Hpage)
    as (w1 & E1 & Hp1 & Hr1 & Hq1 & Hv1 & Hh1 & Hm1 & Ht1 & _).
  destruct (live_shadow_in_bounds k i Hi) as (B1 & B2 & B3 & B4 & B5 & B6).
  unfold live_address.
  rewrite (write_page0_decode i (live_offset k) v size w w1)
    by (assumption || (destruct k; cbn; lia)).
  assert (live_shadow k (dev w1) = live_shadow k (dev w)) as Hsh.
  { unfold register_cache in Hr1. destruct k; cbn [live_shadow]; congruence. }
  unfold tegra241_cmdqv_write_vcmdq. rewrite <- Hsh, <- Hm1.
  destruct k; try discriminate Hk;
    cbn [live_offset live_shadow]; addr_consts; settle_tests;
    unfold write_live, page0_store;
    rewrite bind_eq, wr_arr_in_bounds by assumption; cbv iota beta;
    cbn [dev set_dev vcmdq_page0 set_vcmdq_cons_indx set_vcmdq_prod_indx
         set_vcmdq_config set_vcmdq_gerrorn];
    rewrite Hp1, u32_u32;
    match goal with
    | |- context [<[base + (128 * i + ?c - 65536) := _]> _] =>
        first [ replace (base + (128 * i + c - 65536))
                  with (base + 128 * i + 0) by lia
              | replace (base + (128 * i + c - 65536))
                  with (base + 128 * i + 4) by lia
              | replace (base + (128 * i + c - 65536))
                  with (base + 128 * i + 8) by lia
              | replace (base + (128 * i + c - 65536))
                  with (base + 128 * i + 20) by lia ]
    end;
    (eexists; split; [reflexivity|]); by repeat split.
Qed.

(** X9. With the shared page mapped (or mappable) at [base], a write of
    [v] to the consumer index, producer index, config or GERRORN register
    of queue [i] stores the low 32 bits of [v] in the shadow of that queue
    and in the word of the page at [base + 0x80 * i + offset]; it sends
    nothing to the kernel and changes no queue slot.  A read of the same
    register then returns the low 32 bits of [v]. *)
Theorem live_register_write_through
    (k : live_register) (i v size size' base : Z) (w : World) :
  live_writable k = true -> wf_dev (dev w) -> 0 <= i < 128 -> page_at w base ->
  exists w',
    tegra241_cmdqv_write (live_address k i) v size w = Ret (tt, w') /\
    live_shadow k (dev w') = <[Z.to_nat i := u32 v]> (live_shadow k (dev w)) /\
    mem w' = <[base + 0x80 * i + live_offset k := u32 v]> (mem w) /\
    vqueue (dev w') = vqueue (dev w) /\ heap w' = heap w /\
    trace w' = trace w /\
    exists w'', tegra241_cmdqv_read (live_address k i) size' w' =
                  Ret (u32 v, w'').
Proof.
  intros Hk Hlen Hi Hpage.
  destruct (write_live_register k i v size base w Hk Hi Hpage)
    as (w' & E & Hs & Hm & Hp & Hq & _ & Hh & Ht).
  exists w'. split; [exact E|]. split; [exact Hs|]. split; [exact Hm|].
  split; [exact Hq|]. split; [exact Hh|]. split; [exact Ht|].
  destruct (read_live_register k i size' base w' Hi (or_introl Hp))
    as (w'' & E' & _).
  exists w''. rewrite E'. f_equal. f_equal.
  rewrite Hm, lookup_insert_eq. cbn [default from_option id].
  rewrite nth_lookup, list_lookup_insert_eq; [reflexivity|].
  rewrite Hs, length_insert, (live_shadow_length k _ Hlen). lia.
Qed.

Lemma live_register_write_through_witness :
  exists w',
    tegra241_cmdqv_write (A_VCMDQi_PROD_INDX 5) 0x100000007 4 queue5_live =
      Ret (tt, w') /\
    mem w' = <[0x7f0000 + 0x80 * 5 + 4 := 7]> (mem queue5_live) /\
    exists w'', tegra241_cmdqv_read (A_VCMDQi_PROD_INDX 5) 4 w' = Ret (7, w'').
Proof.
  destruct (live_register_write_through PROD_INDX 5 0x100000007 4 4 0x7f0000
              queue5_live eq_refl (wf_lengths _ queue5_live_wf)
              ltac:(lia) (or_introl eq_refl))
    as (w' & E & _ & Hm & _ & _ & _ & R).
  exists w'. split; [exact E|]. split; [exact Hm | exact R].
Defined.

(** X10. With the shared page mapped (or mappable) at [base], a read of
    one of the six per-queue registers of the page (consumer index,
    producer index, config, status, GERROR, GERRORN) returns the word of
    the page at [base + 0x80 * i + offset], whatever the shadow held, and
    refreshes the shadow of queue [i] with it; the page itself, the queue
    slots and the queue objects are untouched and nothing is sent or
    printed. *)
Theorem live_register_read_returns_page_word
    (k : live_register) (i size base : Z) (w : World) :
  wf_dev (dev w) -> 0 <= i < 128 -> page_at w base ->
  let x := default 0 (mem w !! (base + 0x80 * i + live_offset k)) in
  exists w',
    tegra241_cmdqv_read (live_address k i) size w = Ret (x, w') /\
    live_shadow k (dev w') = <[Z.to_nat i := x]> (live_shadow k (dev w)) /\
    vqueue (dev w') = vqueue (dev w) /\ heap w' = heap w /\
    mem w' = mem w /\ trace w' = trace w.
Proof.
  intros Hlen Hi Hpage x.
  destruct (read_live_register k i size base w Hi Hpage)
    as (w' & E & Hs & _ & Hq & _ & Hh & Hm & Ht).
  exists w'. split; [|by repeat split].
  rewrite E. f_equal. f_equal.
  rewrite nth_lookup, list_lookup_insert_eq; [reflexivity|].
  rewrite (live_shadow_length k _ Hlen). lia.
Qed.

Lemma queue5_status_raised_wf_dev : wf_dev (dev queue5_status_raised).
Proof. change (wf_dev (dev queue5_live)). apply queue5_live_wf. Qed.

Lemma live_register_read_returns_page_word_witness :
  exists w',
    tegra241_cmdqv_read (A_VCMDQi_STATUS 5) 4 queue5_status_raised =
      Ret (1, w') /\
    vcmdq_status (dev w') =
      <[5%nat := 1]> (vcmdq_status (dev queue5_status_raised)).
Proof.
  destruct (live_register_read_returns_page_word STATUS 5 4 0x7f0000
              queue5_status_raised queue5_status_raised_wf_dev ltac:(lia)
              (or_introl eq_refl))
    as (w' & E & Hs & _).
  exists w'. split; [exact E | exact Hs].
Defined.

(** X11. When the SMMU has no page to share, the page pointer stays NULL
    (the failure is only reported) and the access goes on: a read of a
    register of the shared page, and a write to a writable one, then
    dereference the NULL-based address. *)
Theorem live_register_access_without_page
    (k : live_register) (i v size : Z) (w : World) :
  0 <= i < 128 -> vcmdq_page0 (dev w) = None -> shared_page w = None ->
  tegra241_cmdqv_read (live_address k i) size w = Undefined NullDereference /\
  (live_writable k = true ->
   tegra241_cmdqv_write (live_address k i) v size w =
     Undefined NullDereference).
Proof.
  intros Hi Hp Hs.
  assert (exists w1, map_page0_once w = Ret (tt, w1) /\
            vcmdq_page0 (dev w1) = None) as (w1 & E1 & Hp1).
  { unfold map_page0_once, tegra241_cmdqv_init_vcmdq_page0. run.
    rewrite Hp. cbn. rewrite Hs. cbn. eexists. split; reflexivity. }
  destruct (live_shadow_in_bounds k i Hi) as (B1 & B2 & B3 & B4 & B5 & B6).
  unfold live_address. split.
  - rewrite (read_page0_decode i (live_offset k) size w w1)
      by (assumption || (destruct k; cbn; lia)).
    unfold tegra241_cmdqv_read_vcmdq.
    destruct k; cbn [live_offset]; addr_consts; settle_tests;
      unfold read_live, page0_load; rewrite bind_eq, Hp1; reflexivity.
  - intros Hk.
    rewrite (write_page0_decode i (live_offset k) v size w w1)
      by (assumption || (destruct k; cbn; lia)).
    unfold tegra241_cmdqv_write_vcmdq.
    destruct k; try discriminate Hk;
      cbn [live_offset]; addr_consts; settle_tests;
      unfold write_live, page0_store;
      rewrite bind_eq, wr_arr_in_bounds by assumption; cbv iota beta;
      cbn [dev set_dev vcmdq_page0 set_vcmdq_cons_indx set_vcmdq_prod_indx
           set_vcmdq_config set_vcmdq_gerrorn];
      rewrite Hp1; reflexivity.
Qed.

Lemma live_register_access_without_page_witness :
  tegra241_cmdqv_read (A_VCMDQi_CONS_INDX 0) 4 no_shared_page =
    Undefined NullDereference /\
  tegra241_cmdqv_write (A_VCMDQi_PROD_INDX 3) 1 4 no_shared_page =
    Undefined NullDereference.
Proof.
  split.
  - refine (proj1 (live_register_access_without_page CONS_INDX 0 0 4
                     no_shared_page _ _ _)); [lia | reflexivity | reflexivity].
  - refine (proj2 (live_register_access_without_page PROD_INDX 3 1 4
                     no_shared_page _ _ _) _);
      [lia | reflexivity | reflexivity | reflexivity].
Defined.

(** ** Offsets that no case handles *)

(** The offset passed down for an access at [o] in the window at [lo]. *)
Lemma queue_offset (lo o : Z) :
  o - 0x80 * ((o - lo) / 0x80) = lo + (o - lo) mod 0x80.
Proof. rewrite Z.mod_eq by lia. lia. Qed.

Lemma queue_offset_range (lo o : Z) : 0 <= (o - lo) mod 0x80 < 0x80.
Proof. apply Z.mod_pos_bound. lia. Qed.

(** Take a conjunction of negated tests apart. *)
Ltac split_tests H :=
  repeat match type of H with
         | (_ || _) = false =>
             let H' := fresh "T" in
             apply orb_false_elim in H; destruct H as [H H']
         end.

Lemma write_vcmdq_unhandled (lo m index v size : Z) (w : World) :
  (lo = 0x10000 /\ existsb (Z.eqb m) [0x0; 0x4; 0x8; 0x14] = false \/
   lo = 0x20000 /\ existsb (Z.eqb m) [0x0; 0x4; 0x8; 0xc] = false) ->
  0 <= m < 0x80 ->
  tegra241_cmdqv_write_vcmdq (lo + m) index v size w =
  report (msg_unhandled_write fn_tegra241_cmdqv_write_vcmdq (lo + m)) w.
Proof.
  intros H Hm. unfold tegra241_cmdqv_write_vcmdq. addr_consts.
  destruct H as [[-> H] | [-> H]]; cbn [existsb] in H; split_tests H;
    repeat match goal with
           | T : (_ =? _) = false |- _ => apply Z.eqb_neq in T
           end;
    settle_tests; reflexivity.
Qed.

Lemma read_vcmdq_unhandled (lo m index : Z) (w : World) :
  (lo = 0x10000 /\
   existsb (Z.eqb m) [0x0; 0x4; 0x8; 0xc; 0x10; 0x14] = false \/
   lo = 0x20000 /\ existsb (Z.eqb m) [0x0; 0x4; 0x8; 0xc] = false) ->
  0 <= m < 0x80 ->
  tegra241_cmdqv_read_vcmdq (lo + m) index w =
  (report (msg_unhandled_read fn_tegra241_cmdqv_read_vcmdq (lo + m));;
   mret 0) w.
Proof.
  intros H Hm. unfold tegra241_cmdqv_read_vcmdq. addr_consts.
  destruct H as [[-> H] | [-> H]]; cbn [existsb] in H; split_tests H;
    repeat match goal with
           | T : (_ =? _) = false |- _ => apply Z.eqb_neq in T
           end;
    settle_tests; reflexivity.
Qed.

(** X12. A write at an offset that is none of: the config register, the
    interrupt-mask words, the allocation map, the virtual-interface config
    register, and the consumer index, producer index, config, GERRORN,
    base and consumer-index-base registers of a queue (in a primary or an
    alias window), is ignored: it returns, and registers, queue slots,
    queue objects and the shared page are as before; only diagnostics are
    printed.  So the parameter, status and error-map registers, the
    virtual-interface status and the status and GERROR registers of a
    queue are read-only. *)
Theorem unhandled_write_ignored (o v size : Z) (w : World) :
  write_handled o = false ->
  exists w', tegra241_cmdqv_write o v size w = Ret (tt, w') /\
             only_diagnostics w w'.
Proof.
  intros H. unfold write_handled, in_queue_window in H.
  apply orb_false_elim in H as [H Hp1a]. apply orb_false_elim in H as [H Hp1].
  apply orb_false_elim in H as [H Hp0a]. apply orb_false_elim in H as [H Hp0].
  apply orb_false_elim in H as [H Hvintf].
  apply orb_false_elim in H as [H Halloc].
  apply orb_false_elim in H as [Hconfig Hmask].
  destruct (map_page0_once_spec w) as (w1 & E1 & D1 & D2).
  unfold tegra241_cmdqv_write. rewrite bind_eq, E1.
  destruct (0x50000 <? o) eqn:T0;
    [eexists; split; [reflexivity|apply D2]|].
  rewrite Hconfig, Hmask, Halloc.
  destruct (case_range A_VINTF0_CONFIG A_VINTF0_CMDQ_ERR_MAP_3 o) eqn:R0.
  { unfold tegra241_cmdqv_write_vintf. rewrite Hvintf.
    eexists; split; [reflexivity|apply D2]. }
  destruct (case_range A_VI_VCMDQ0_CONS_INDX A_VI_VCMDQ127_GERRORN o) eqn:R1.
  { cbn [andb] in Hp0a. unfold write_vcmdq_page0.
    rewrite (queue_offset 0x10000 (o - 0x20000)).
    replace (o - 0x20000 - 0x10000) with (o - A_VI_VCMDQ0_CONS_INDX)
      by (addr_consts; lia).
    rewrite write_vcmdq_unhandled;
      [eexists; split; [reflexivity|apply D2]
      |left; split; [reflexivity|exact Hp0a]
      |apply queue_offset_range]. }
  destruct (case_range A_VCMDQ0_CONS_INDX A_VCMDQ127_GERRORN o) eqn:R2.
  { cbn [andb] in Hp0. unfold write_vcmdq_page0.
    rewrite (queue_offset 0x10000 o).
    change (o - 0x10000) with (o - A_VCMDQ0_CONS_INDX).
    rewrite write_vcmdq_unhandled;
      [eexists; split; [reflexivity|apply D2]
      |left; split; [reflexivity|exact Hp0]
      |apply queue_offset_range]. }
  destruct (case_range A_VI_VCMDQ0_BASE_L
              A_VI_VCMDQ127_CONS_INDX_BASE_DRAM_H o) eqn:R3.
  { cbn [andb] in Hp1a. unfold write_vcmdq_page1.
    rewrite (queue_offset 0x20000 (o - 0x20000)).
    replace (o - 0x20000 - 0x20000) with (o - A_VI_VCMDQ0_BASE_L)
      by (addr_consts; lia).
    rewrite write_vcmdq_unhandled;
      [eexists; split; [reflexivity|apply D2]
      |right; split; [reflexivity|exact Hp1a]
      |apply queue_offset_range]. }
  destruct (case_range A_VCMDQ0_BASE_L A_VCMDQ127_CONS_INDX_BASE_DRAM_H o)
    eqn:R4.
  { cbn [andb] in Hp1. unfold write_vcmdq_page1.
    rewrite (queue_offset 0x20000 o).
    change (o - 0x20000) with (o - A_VCMDQ0_BASE_L).
    rewrite write_vcmdq_unhandled;
      [eexists; split; [reflexivity|apply D2]
      |right; split; [reflexivity|exact Hp1]
      |apply queue_offset_range]. }
  eexists; split; [reflexivity|apply D2].
Qed.

Lemma unhandled_write_ignored_witness :
  (exists w', tegra241_cmdqv_write (A_VCMDQi_STATUS 5) 1 4 queue5_live =
                Ret (tt, w') /\ only_diagnostics queue5_live w') /\
  (exists w', tegra241_cmdqv_write A_PARAM 0 4 queue5_live = Ret (tt, w') /\
              only_diagnostics queue5_live w').
Proof.
  split.
  - apply (unhandled_write_ignored (A_VCMDQi_STATUS 5) 1 4 queue5_live).
    reflexivity.
  - apply (unhandled_write_ignored A_PARAM 0 4 queue5_live). reflexivity.
Defined.

(** X13. A read at an offset that no case of [tegra241_cmdqv_read] and of
    the functions it calls handles returns 0 and changes nothing but the
    diagnostics printed.  The handled offsets are those of the config,
    parameter and status registers, the error maps, the interrupt mask,
    the allocation map, the virtual-interface config, status and error
    map, and the per-queue registers in the two primary windows.  The
    alias windows at 0x30000 and 0x40000, which a write goes through, are
    not among them: a read there returns 0. *)
Theorem unhandled_read_returns_zero (o size : Z) (w : World) :
  read_handled o = false ->
  exists w', tegra241_cmdqv_read o size w = Ret (0, w') /\
             only_diagnostics w w'.
Proof.
  intros H. unfold read_handled, in_queue_window in H.
  apply orb_false_elim in H as [H Hp1]. apply orb_false_elim in H as [H Hp0].
  apply orb_false_elim in H as [H Hvmap].
  apply orb_false_elim in H as [H Hvstatus].
  apply orb_false_elim in H as [H Hvconfig].
  apply orb_false_elim in H as [H Halloc].
  apply orb_false_elim in H as [H Hcmap].
  apply orb_false_elim in H as [H Hmask].
  apply orb_false_elim in H as [H Hvimap].
  apply orb_false_elim in H as [H Hstatus].
  apply orb_false_elim in H as [Hconfig Hparam].
  destruct (map_page0_once_spec w) as (w1 & E1 & D1 & D2).
  unfold tegra241_cmdqv_read. rewrite bind_eq, E1.
  destruct (0x50000 <? o) eqn:T0;
    [eexists; split; [reflexivity|apply D2]|].
  rewrite Hconfig, Hparam, Hstatus, Hvimap, Hmask, Hcmap, Halloc.
  destruct (case_range A_VINTF0_CONFIG A_VINTF0_CMDQ_ERR_MAP_3 o) eqn:R0.
  { unfold tegra241_cmdqv_read_vintf. rewrite Hvconfig, Hvstatus, Hvmap.
    eexists; split; [reflexivity|apply D2]. }
  destruct (case_range A_VCMDQ0_CONS_INDX A_VCMDQ127_GERRORN o) eqn:R2.
  { cbn [andb] in Hp0. cbv zeta.
    rewrite (queue_offset 0x10000 o).
    change (o - 0x10000) with (o - A_VCMDQ0_CONS_INDX).
    rewrite read_vcmdq_unhandled;
      [eexists; split; [reflexivity|apply D2]
      |left; split; [reflexivity|exact Hp0]
      |apply queue_offset_range]. }
  destruct (case_range A_VCMDQ0_BASE_L A_VCMDQ127_CONS_INDX_BASE_DRAM_H o)
    eqn:R4.
  { cbn [andb] in Hp1. cbv zeta.
    rewrite (queue_offset 0x20000 o).
    change (o - 0x20000) with (o - A_VCMDQ0_BASE_L).
    rewrite read_vcmdq_unhandled;
      [eexists; split; [reflexivity|apply D2]
      |right; split; [reflexivity|exact Hp1]
      |apply queue_offset_range]. }
  eexists; split; [reflexivity|apply D2].
Qed.

Lemma unhandled_read_returns_zero_witness :
  (exists w', tegra241_cmdqv_read (A_VI_VCMDQi_CONS_INDX 5) 4 queue5_live =
                Ret (0, w') /\ only_diagnostics queue5_live w') /\
  (exists w', tegra241_cmdqv_read (A_VI_VCMDQi_BASE_L 5) 4 queue5_live =
                Ret (0, w') /\ only_diagnostics queue5_live w').
Proof.
  split.
  - apply (unhandled_read_returns_zero (A_VI_VCMDQi_CONS_INDX 5) 4 queue5_live).
    reflexivity.
  - apply (unhandled_read_returns_zero (A_VI_VCMDQi_BASE_L 5) 4 queue5_live).
    reflexivity.
Defined.

(** ** The outcomes of an access *)

Lemma map_page0_once_pointer (w : World) :
  exists w1, map_page0_once w = Ret (tt, w1) /\
    registers_only w w1 /\
    (forall m, registers_only w (set_trace (trace w1 ++ [EvReport m]) w1)) /\
    (vcmdq_page0 (dev w1) = None ->
     vcmdq_page0 (dev w) = None /\ shared_page w = None).
Proof.
  destruct (map_page0_once_spec w) as (w1 & E1 & D1 & D2).
  exists w1. split; [exact E1|].
  split; [by apply only_diagnostics_registers_only|].
  split; [intros m; by apply only_diagnostics_registers_only|].
  revert E1. unfold map_page0_once, tegra241_cmdqv_init_vcmdq_page0. run.
  destruct (vcmdq_page0 (dev w)) eqn:Ep; cbn.
  - intros [= <-]. congruence.
  - destruct (shared_page w) eqn:Es; cbn; intros [= <-]; cbn; [discriminate|].
    by intros _.
Qed.

Lemma registers_only_shadow (w w1 : World) (s : Tegra241CMDQV) :
  registers_only w w1 ->
  vqueue s = vqueue (dev w1) -> viommu s = viommu (dev w1) ->
  registers_only w (set_dev s w1).
Proof. apply registers_only_set_dev. Qed.

(** The outcome of the read of one element of an array of the register
    cache. *)
Lemma rd_arr_outcome a f i (w : World) :
  rd_arr a f i w =
  if in_bounds a i then Ret (nth (Z.to_nat i) (f (dev w)) 0, w)
  else Undefined (OutOfBounds a i).
Proof. unfold rd_arr, aget. run. by destruct (in_bounds a i). Qed.

Lemma in_bounds_false a i :
  in_bounds a i = false -> i < 0 \/ declared_length a <= i.
Proof.
  unfold in_bounds. intros H. apply andb_false_iff in H as [H|H].
  - apply Z.leb_gt in H. by left.
  - apply Z.ltb_ge in H. by right.
Qed.

(** What [x / c] is, for the linear arithmetic that follows. *)
Ltac div_facts x c :=
  let H1 := fresh "Hdiv" in
  let H2 := fresh "Hmod" in
  pose proof (Z.div_mod x c ltac:(lia)) as H1;
  pose proof (Z.mod_pos_bound x c ltac:(lia)) as H2.

Lemma read_live_outcome a f setf off index (w w1 : World) :
  registers_only w w1 -> in_bounds a index = true ->
  (forall l s, vqueue (setf l s) = vqueue s /\ viommu (setf l s) = viommu s) ->
  match read_live a f setf off index w1 with
  | Ret (_, w') => registers_only w w'
  | Abort => False
  | Undefined NullDereference => vcmdq_page0 (dev w1) = None
  | Undefined _ => False
  end.
Proof.
  intros Hfr Hin Hsetf. unfold read_live, page0_load. rewrite bind_eq.
  destruct (vcmdq_page0 (dev w1)); [|reflexivity].
  rewrite bind_eq, wr_arr_in_bounds by assumption. cbv iota beta.
  rewrite rd_arr_in_bounds by assumption.
  apply registers_only_set_dev; [assumption| |]; apply Hsetf.
Qed.

(** X14. Whatever the offset, the size and the state, a read never aborts
    the process and never touches a queue object.  When it returns, the
    queue slots, the queue objects and the shared page are as before and
    nothing was sent to the kernel.  Its undefined behaviours are: an
    index past the end of [vi_err_map] (at 0x18), of [vi_int_mask] (at
    0x20) or of [cmdq_err_map] (at 0x2c..0x30), and the dereference of the
    NULL page pointer at a register of the shared page when the SMMU had
    no page to share. *)
Theorem read_outcomes (o size : Z) (w : World) :
  match tegra241_cmdqv_read o size w with
  | Ret (_, w') => registers_only w w'
  | Abort => False
  | Undefined (OutOfBounds a k) =>
      (a = arr_vi_err_map /\ o = A_VI_ERR_MAP_1 /\ k = 2) \/
      (a = arr_vi_int_mask /\ o = A_VI_INT_MASK_1 /\ k = 2) \/
      (a = arr_cmdq_err_map /\ A_CMDQ_ERR_MAP_2 <= o <= A_CMDQ_ERR_MAP_3 /\
       k = (o - A_CMDQ_ERR_MAP) / 4)
  | Undefined NullDereference =>
      vcmdq_page0 (dev w) = None /\ shared_page w = None /\
      in_queue_window A_VCMDQ0_CONS_INDX A_VCMDQ127_GERRORN o
        [0x0; 0x4; 0x8; 0xc; 0x10; 0x14] = true
  | Undefined (UseAfterFree _) => False
  end.
Proof.
  destruct (map_page0_once_pointer w) as (w1 & E1 & Hfr & Hrep & Hnull).
  unfold tegra241_cmdqv_read. rewrite bind_eq, E1.
  destruct (0x50000 <? o); [apply Hrep|].
  destruct (o =? A_CONFIG); [exact Hfr|].
  destruct (o =? A_PARAM); [exact Hfr|].
  destruct (o =? A_STATUS); [exact Hfr|].
  destruct (case_range A_VI_ERR_MAP A_VI_ERR_MAP_1 o) eqn:R1.
  { rewrite rd_arr_outcome.
    destruct (in_bounds _ _) eqn:B; [exact Hfr|]. left.
    apply in_bounds_false in B. cbn [declared_length] in B.
    unfold case_range in R1. apply andb_prop in R1 as [L U].
    apply Z.leb_le in L, U. addr_consts.
    div_facts (o - 20) 2. split; [reflexivity|]. lia. }
  destruct (case_range A_VI_INT_MASK A_VI_INT_MASK_1 o) eqn:R2.
  { rewrite rd_arr_outcome.
    destruct (in_bounds _ _) eqn:B; [exact Hfr|]. right. left.
    apply in_bounds_false in B. cbn [declared_length] in B.
    unfold case_range in R2. apply andb_prop in R2 as [L U].
    apply Z.leb_le in L, U. addr_consts.
    div_facts (o - 28) 2. split; [reflexivity|]. lia. }
  destruct (case_range A_CMDQ_ERR_MAP A_CMDQ_ERR_MAP_3 o) eqn:R3.
  { rewrite rd_arr_outcome.
    destruct (in_bounds _ _) eqn:B; [exact Hfr|]. right. right.
    apply in_bounds_false in B. cbn [declared_length] in B.
    unfold case_range in R3. apply andb_prop in R3 as [L U].
    apply Z.leb_le in L, U. unfold A_CMDQ_ERR_MAP_2. addr_consts.
    div_facts (o - 36) 4. split; [reflexivity|]. lia. }
  destruct (case_range A_CMDQ_ALLOC_MAP_0 A_CMDQ_ALLOC_MAP_127 o) eqn:R4.
  { rewrite rd_arr_outcome.
    rewrite (proj1 (handled_indices_in_bounds o) R4). exact Hfr. }
  destruct (case_range A_VINTF0_CONFIG A_VINTF0_CMDQ_ERR_MAP_3 o) eqn:R5.
  { unfold tegra241_cmdqv_read_vintf.
    destruct (o =? A_VINTF0_CONFIG); [exact Hfr|].
    destruct (o =? A_VINTF0_STATUS); [exact Hfr|].
    destruct (case_range A_VINTF0_CMDQ_ERR_MAP_0 A_VINTF0_CMDQ_ERR_MAP_3 o)
      eqn:R6; [|apply Hrep].
    rewrite rd_arr_outcome.
    rewrite (proj1 (proj2 (handled_indices_in_bounds o)) R6). exact Hfr. }
  destruct (case_range A_VCMDQ0_CONS_INDX A_VCMDQ127_GERRORN o) eqn:R6.
  { cbv zeta.
    pose proof (proj1 (proj2 (proj2 (handled_indices_in_bounds o))) R6) as Hin.
    rewrite (queue_offset 0x10000 o).
    pose proof (queue_offset_range 0x10000 o) as Hm.
    assert (forall c, (o - 0x10000) mod 0x80 = c ->
              In c [0x0; 0x4; 0x8; 0xc; 0x10; 0x14] ->
              vcmdq_page0 (dev w1) = None ->
              vcmdq_page0 (dev w) = None /\ shared_page w = None /\
              in_queue_window A_VCMDQ0_CONS_INDX A_VCMDQ127_GERRORN o
                [0x0; 0x4; 0x8; 0xc; 0x10; 0x14] = true) as Hlive.
    { intros c Hc Hl Hp. destruct (Hnull Hp) as [H1 H2].
      split; [exact H1|]. split; [exact H2|].
      unfold in_queue_window. rewrite R6. cbn [andb].
      apply existsb_exists. exists c. split; [exact Hl|].
      apply Z.eqb_eq. exact Hc. }
    set (m := (o - 0x10000) mod 0x80) in *.
    unfold tegra241_cmdqv_read_vcmdq. addr_consts.
    repeat match goal with
    | |- context [if ?a =? ?b then _ else _] =>
        destruct (Z.eqb_spec a b) as [Heq|Hne];
          [|clear Hne]
    end.
    all: try apply Hrep.
    all: try (rewrite ?bind_eq, rd_arr_outcome;
              change (in_bounds arr_vcmdq_base ((o - 65536) / 128))
                with (in_bounds arr_vcmdq_cons_indx ((o - 65536) / 128));
              change (in_bounds arr_vcmdq_cons_indx_base ((o - 65536) / 128))
                with (in_bounds arr_vcmdq_cons_indx ((o - 65536) / 128));
              rewrite Hin; exact Hfr).
    all: match goal with
         | |- match read_live ?a ?f ?setf ?off ?idx ?w0 with _ => _ end =>
             pose proof (read_live_outcome a f setf off idx w w0 Hfr Hin
                           ltac:(intros l s; by split)) as Ho;
             destruct (read_live a f setf off idx w0) as [[x w']| |[| |]];
             try assumption; try contradiction
         end.
    all: eapply (Hlive (m)); [reflexivity| |assumption].
    all: replace m with (65536 + m - 65536) by lia; rewrite Heq; cbn; tauto. }
  destruct (case_range A_VCMDQ0_BASE_L A_VCMDQ127_CONS_INDX_BASE_DRAM_H o)
    eqn:R7; [|apply Hrep].
  cbv zeta.
  pose proof (proj2 (proj2 (proj2 (handled_indices_in_bounds o))) R7) as Hin.
  rewrite (queue_offset 0x20000 o).
  pose proof (queue_offset_range 0x20000 o) as Hm.
  set (m := (o - 0x20000) mod 0x80) in *.
  unfold tegra241_cmdqv_read_vcmdq. addr_consts.
  repeat match goal with
  | |- context [if ?a =? ?b then _ else _] =>
      destruct (Z.eqb_spec a b) as [Heq|Hne]; [try lia|clear Hne]
  end.
  all: try apply Hrep.
  all: rewrite ?bind_eq, rd_arr_outcome;
       change (in_bounds arr_vcmdq_cons_indx_base ((o - 131072) / 128))
         with (in_bounds arr_vcmdq_base ((o - 131072) / 128));
       rewrite Hin; exact Hfr.
Qed.

Lemma wr_arr_outcome a f setf i v (w : World) :
  wr_arr a f setf i v w =
  if in_bounds a i
  then Ret (tt, set_dev (setf (<[Z.to_nat i := v]> (f (dev w))) (dev w)) w)
  else Undefined (OutOfBounds a i).
Proof. unfold wr_arr, aset. run. by destruct (in_bounds a i). Qed.

(** An update of the shadow base followed by the reconfiguration of the
    queue returns, in a state whose pointers are valid. *)
Lemma base_update_then_setup (X : M unit) (index : Z) (w w1 : World) :
  wf w -> 0 <= index < 128 ->
  (exists w2, X w1 = Ret (tt, w2) /\
     vqueue (dev w2) = vqueue (dev w) /\ heap w2 = heap w) ->
  exists w', (X;; tegra241_cmdqv_setup_vcmdq index;; mret tt) w1 = Ret (tt, w').
Proof.
  intros Hwf Hi (w2 & E2 & Hq2 & Hh2).
  destruct (setup_vcmdq_returns index w2) as (r & w' & E3 & _); [lia| |].
  { intros p Hp. rewrite Hq2 in Hp. rewrite Hh2.
    by destruct (wf_live w Hwf _ _ Hp). }
  exists w'. by rewrite bind_eq, E2, bind_eq, E3.
Qed.

Lemma write_live_outcome a f setf off index v (w1 : World) :
  in_bounds a index = true ->
  (forall l s, vcmdq_page0 (setf l s) = vcmdq_page0 s) ->
  match write_live a f setf off index v w1 with
  | Ret _ => True
  | Abort => False
  | Undefined NullDereference => vcmdq_page0 (dev w1) = None
  | Undefined _ => False
  end.
Proof.
  intros Hin Hsetf. unfold write_live, page0_store.
  rewrite bind_eq, wr_arr_in_bounds by assumption. cbv iota beta.
  cbn [dev set_dev]. rewrite Hsetf.
  by destruct (vcmdq_page0 (dev w1)).
Qed.

Lemma write_vcmdq_outcome (lo m index v size : Z) (w w1 : World) :
  wf w -> vqueue (dev w1) = vqueue (dev w) -> heap w1 = heap w ->
  lo = 0x10000 \/ lo = 0x20000 -> 0 <= m < 0x80 -> 0 <= index < 128 ->
  match tegra241_cmdqv_write_vcmdq (lo + m) index v size w1 with
  | Ret _ => True
  | Abort => False
  | Undefined NullDereference =>
      vcmdq_page0 (dev w1) = None /\ lo = 0x10000 /\
      existsb (Z.eqb m) [0x0; 0x4; 0x8; 0x14] = true
  | Undefined _ => False
  end.
Proof.
  intros Hwf Hq1 Hh1 Hlo Hm Hi.
  destruct (live_shadow_in_bounds CONS_INDX index Hi)
    as (B1 & B2 & B3 & B4 & B5 & B6).
  assert (in_bounds arr_vcmdq_base index = true) as B7
    by (apply in_bounds_intro; simpl; lia).
  assert (in_bounds arr_vcmdq_cons_indx_base index = true) as B8
    by (apply in_bounds_intro; simpl; lia).
  assert (forall a f setf off c,
            in_bounds a index = true ->
            (forall l s, vcmdq_page0 (setf l s) = vcmdq_page0 s) ->
            lo + m = 0x10000 + c -> In c [0x0; 0x4; 0x8; 0x14] ->
            match write_live a f setf off index v w1 with
            | Ret _ => True
            | Abort => False
            | Undefined NullDereference =>
                vcmdq_page0 (dev w1) = None /\ lo = 0x10000 /\
                existsb (Z.eqb m) [0x0; 0x4; 0x8; 0x14] = true
            | Undefined _ => False
            end) as Hlive.
  { intros a f setf off c Hin Hsetf Heq Hc.
    pose proof (write_live_outcome a f setf off index v w1 Hin Hsetf) as Ho.
    destruct (write_live a f setf off index v w1) as [[x w']| |[| |]];
      try assumption.
    split; [assumption|].
    assert (lo = 0x10000 /\ m = c) as [-> ->].
    { cbn in Hc. lia. }
    split; [reflexivity|].
    apply existsb_exists. exists c. split; [exact Hc|]. apply Z.eqb_refl. }
  assert (forall w2,
            vqueue (dev w2) = vqueue (dev w) -> heap w2 = heap w ->
            match (tegra241_cmdqv_setup_vcmdq index;; mret tt) w2 with
            | Ret _ => True
            | Abort => False
            | Undefined NullDereference =>
                vcmdq_page0 (dev w1) = None /\ lo = 0x10000 /\
                existsb (Z.eqb m) [0x0; 0x4; 0x8; 0x14] = true
            | Undefined _ => False
            end) as Hsetup.
  { intros w2 Hq2 Hh2.
    destruct (base_update_then_setup (mret tt) index w w2 Hwf Hi) as [w' E].
    { exists w2. by split. }
    rewrite bind_eq in E. cbv [mret M_ret] in E. cbv iota beta in E.
    cbv [mret M_ret]. rewrite E. exact I. }
  unfold tegra241_cmdqv_write_vcmdq. addr_consts.
  destruct (Z.eqb_spec (lo + m) (65536 + 0 * 128)) as [E|_].
  { eapply (Hlive _ _ _ _ 0); [assumption|by intros|lia|cbn; tauto]. }
  destruct (Z.eqb_spec (lo + m) (65536 + 4 + 0 * 128)) as [E|_].
  { eapply (Hlive _ _ _ _ 4); [assumption|by intros|lia|cbn; tauto]. }
  destruct (Z.eqb_spec (lo + m) (65536 + 8 + 0 * 128)) as [E|_].
  { eapply (Hlive _ _ _ _ 8); [assumption|by intros|lia|cbn; tauto]. }
  destruct (Z.eqb_spec (lo + m) (65536 + 20 + 0 * 128)) as [E|_].
  { eapply (Hlive _ _ _ _ 20); [assumption|by intros|lia|cbn; tauto]. }
  destruct (Z.eqb_spec (lo + m) (131072 + 0 * 128)) as [E|_].
  { rewrite bind_eq.
    destruct (size =? 8); [|destruct (size =? 4)].
    - rewrite wr_arr_in_bounds by assumption. cbv iota beta.
      by apply Hsetup.
    - rewrite bind_eq, modify_arr_in_bounds by assumption. cbv iota beta.
      rewrite modify_arr_in_bounds by assumption. cbv iota beta.
      by apply Hsetup.
    - cbv [mret M_ret]. cbv iota beta. by apply Hsetup. }
  destruct (Z.eqb_spec (lo + m) (131072 + 4 + 0 * 128)) as [E|_].
  { rewrite bind_eq, modify_arr_in_bounds by assumption. cbv iota beta.
    rewrite bind_eq, modify_arr_in_bounds by assumption. cbv iota beta.
    by apply Hsetup. }
  destruct (Z.eqb_spec (lo + m) (131072 + 8 + 0 * 128)) as [E|_].
  { destruct (size =? 8); [|destruct (size =? 4)].
    - by rewrite wr_arr_in_bounds by assumption.
    - rewrite bind_eq, modify_arr_in_bounds by assumption. cbv iota beta.
      by rewrite modify_arr_in_bounds by assumption.
    - exact I. }
  destruct (Z.eqb_spec (lo + m) (131072 + 12 + 0 * 128)) as [E|_].
  { rewrite bind_eq, modify_arr_in_bounds by assumption. cbv iota beta.
    by rewrite modify_arr_in_bounds by assumption. }
  exact I.
Qed.

(** X15. In a state whose pointers are valid, a write, whatever the
    offset, the value and the size, never aborts the process and never
    goes through a freed queue object: it returns, unless it indexes
    [vi_int_mask] past its end (at 0x20) or, when the SMMU had no page to
    share, dereferences the NULL page pointer at a writable register of
    the shared page (in the primary or the alias window). *)
Theorem write_outcomes (o v size : Z) (w : World) :
  wf w ->
  match tegra241_cmdqv_write o v size w with
  | Ret _ => True
  | Abort => False
  | Undefined (OutOfBounds a k) =>
      a = arr_vi_int_mask /\ o = A_VI_INT_MASK_1 /\ k = 2
  | Undefined NullDereference =>
      vcmdq_page0 (dev w) = None /\ shared_page w = None /\
      (in_queue_window A_VCMDQ0_CONS_INDX A_VCMDQ127_GERRORN o
         [0x0; 0x4; 0x8; 0x14] = true \/
       in_queue_window A_VI_VCMDQ0_CONS_INDX A_VI_VCMDQ127_GERRORN o
         [0x0; 0x4; 0x8; 0x14] = true)
  | Undefined (UseAfterFree _) => False
  end.
Proof.
  intros Hwf.
  destruct (map_page0_once_pointer w)
    as (w1 & E1 & (Hq1 & _ & Hh1 & _) & _ & Hnull).
  unfold tegra241_cmdqv_write. rewrite bind_eq, E1.
  destruct (0x50000 <? o); [exact I|].
  destruct (o =? A_CONFIG); [exact I|].
  destruct (case_range A_VI_INT_MASK A_VI_INT_MASK_1 o) eqn:R2.
  { rewrite wr_arr_outcome.
    destruct (in_bounds _ _) eqn:B; [exact I|].
    apply in_bounds_false in B. cbn [declared_length] in B.
    unfold case_range in R2. apply andb_prop in R2 as [L U].
    apply Z.leb_le in L, U. addr_consts.
    div_facts (o - 28) 2. split; [reflexivity|]. lia. }
  destruct (case_range A_CMDQ_ALLOC_MAP_0 A_CMDQ_ALLOC_MAP_127 o) eqn:R4.
  { rewrite wr_arr_outcome.
    by rewrite (proj1 (handled_indices_in_bounds o) R4). }
  destruct (case_range A_VINTF0_CONFIG A_VINTF0_CMDQ_ERR_MAP_3 o) eqn:R5.
  { unfold tegra241_cmdqv_write_vintf.
    destruct (o =? A_VINTF0_CONFIG); [|exact I].
    run. by destruct (negb _). }
  (* the four per-queue windows *)
  assert (forall lo hi o',
            case_range lo hi o' = true -> hi < lo + 0x4000 ->
            0 <= (o' - lo) / 0x80 < 128) as Hidx.
  { intros lo hi o' R Hhi. unfold case_range in R.
    apply andb_prop in R as [L U]. apply Z.leb_le in L, U.
    div_facts (o' - lo) 0x80. lia. }
  assert (forall o' lo,
            lo = 0x10000 \/ lo = 0x20000 -> 0 <= (o' - lo) / 0x80 < 128 ->
            match tegra241_cmdqv_write_vcmdq (o' - 0x80 * ((o' - lo) / 0x80))
                    ((o' - lo) / 0x80) v size w1 with
            | Ret _ => True
            | Abort => False
            | Undefined NullDereference =>
                vcmdq_page0 (dev w) = None /\ shared_page w = None /\
                lo = 0x10000 /\
                existsb (Z.eqb ((o' - lo) mod 0x80)) [0x0; 0x4; 0x8; 0x14] = true
            | Undefined _ => False
            end) as Hwin.
  { intros o' lo Hlo Hi. rewrite (queue_offset lo o').
    pose proof (write_vcmdq_outcome lo ((o' - lo) mod 0x80)
                  ((o' - lo) / 0x80) v size w w1 Hwf Hq1 Hh1 Hlo
                  (queue_offset_range lo o') Hi) as Ho.
    destruct (tegra241_cmdqv_write_vcmdq _ _ _ _ _) as [[x w']| |[| |]];
      try assumption; try contradiction.
    destruct Ho as (Hp & Hl & He). destruct (Hnull Hp). by repeat split. }
  destruct (case_range A_VI_VCMDQ0_CONS_INDX A_VI_VCMDQ127_GERRORN o) eqn:R6.
  { unfold write_vcmdq_page0. cbv zeta.
    pose proof (Hwin (o - 0x20000) 0x10000 (or_introl eq_refl)) as Ho.
    replace (o - 0x20000 - 0x10000) with (o - A_VI_VCMDQ0_CONS_INDX) in Ho
      by (addr_consts; lia).
    replace (o - 0x20000 - 0x10000) with (o - A_VI_VCMDQ0_CONS_INDX)
      by (addr_consts; lia).
    specialize (Ho (Hidx _ _ o R6 ltac:(addr_consts; lia))).
    destruct (tegra241_cmdqv_write_vcmdq _ _ _ _ _) as [[x w']| |[| |]];
      try assumption; try contradiction.
    destruct Ho as (Hp & Hs & _ & He). split; [exact Hp|]. split; [exact Hs|].
    right. unfold in_queue_window. by rewrite R6. }
  destruct (case_range A_VCMDQ0_CONS_INDX A_VCMDQ127_GERRORN o) eqn:R7.
  { unfold write_vcmdq_page0. cbv zeta.
    pose proof (Hwin o 0x10000 (or_introl eq_refl)
                  (Hidx _ _ o R7 ltac:(addr_consts; lia))) as Ho.
    destruct (tegra241_cmdqv_write_vcmdq _ _ _ _ _) as [[x w']| |[| |]];
      try assumption; try contradiction.
    destruct Ho as (Hp & Hs & _ & He). split; [exact Hp|]. split; [exact Hs|].
    left. unfold in_queue_window. by rewrite R7. }
  destruct (case_range A_VI_VCMDQ0_BASE_L
              A_VI_VCMDQ127_CONS_INDX_BASE_DRAM_H o) eqn:R8.
  { unfold write_vcmdq_page1. cbv zeta.
    pose proof (Hwin (o - 0x20000) 0x20000 (or_intror eq_refl)) as Ho.
    replace (o - 0x20000 - 0x20000) with (o - A_VI_VCMDQ0_BASE_L) in Ho
      by (addr_consts; lia).
    replace (o - 0x20000 - 0x20000) with (o - A_VI_VCMDQ0_BASE_L)
      by (addr_consts; lia).
    specialize (Ho (Hidx _ _ o R8 ltac:(addr_consts; lia))).
    destruct (tegra241_cmdqv_write_vcmdq _ _ _ _ _) as [[x w']| |[| |]];
      try assumption; try contradiction.
    destruct Ho as (_ & _ & Hl & _). discriminate Hl. }
  destruct (case_range A_VCMDQ0_BASE_L A_VCMDQ127_CONS_INDX_BASE_DRAM_H o)
    eqn:R9; [|exact I].
  unfold write_vcmdq_page1. cbv zeta.
  pose proof (Hwin o 0x20000 (or_intror eq_refl)
                (Hidx _ _ o R9 ltac:(addr_consts; lia))) as Ho.
  destruct (tegra241_cmdqv_write_vcmdq _ _ _ _ _) as [[x w']| |[| |]];
    try assumption; try contradiction.
  destruct Ho as (_ & _ & Hl & _). discriminate Hl.
Qed.

Lemma write_outcomes_witness :
  match tegra241_cmdqv_write A_VCMDQ5_BASE_L 0x20006 4 queue5_live with
  | Ret _ => True
  | _ => False
  end.
Proof.
  pose proof (write_outcomes A_VCMDQ5_BASE_L 0x20006 4 queue5_live
                queue5_live_wf) as H.
  destruct (tegra241_cmdqv_write A_VCMDQ5_BASE_L 0x20006 4 queue5_live)
    as [[x w']| |[a k| |p]].
  - exact I.
  - exact H.
  - destruct H as (_ & H & _). discriminate H.
  - destruct H as (_ & _ & [H|H]); discriminate H.
  - exact H.
Defined.

(** ** Reset *)

(** The run of [cmdqv_reset] in a state whose pointers are valid. *)
Lemma cmdqv_reset_run (w : World) :
  wf w ->
  exists w', cmdqv_reset w = Ret (tt, w') /\
    vqueue (dev w') = replicate 128 None /\
    register_cache (dev w') = reset_registers /\
    viommu (dev w') = viommu (dev w) /\
    vcmdq_page0 (dev w') = vcmdq_page0 (dev w) /\
    mem w' = mem w /\ shared_page w' = shared_page w /\
    wf_dev (dev w').
Proof.
  intros Hwf.
  pose proof (wf_lengths w Hwf) as Hlen.
  destruct (for_loop_invariant cmdqv_reset_slot
              (fun k w1 => reset_inv w k w1 /\ shared_page w1 = shared_page w)
              128 0 w)
    as (w1 & E1 & [Hdev Hfreed Hkept Hdestroyed Hmem] & Hsp).
  { split; [|reflexivity]. constructor.
    - symmetry. apply set_vqueue_eta.
    - intros p (i & Hi & _). lia.
    - reflexivity.
    - intros i p q v Hi. lia.
    - reflexivity. }
  { intros k w1 Hk [HI Hs].
    destruct (reset_slot_step w k w1 Hwf Hk HI) as (w2 & E2 & HI2).
    exists w2. split; [exact E2|]. split; [exact HI2|].
    revert E2. unfold cmdqv_reset_slot. rewrite bind_eq. cbv [get_dev].
    cbv iota beta. rewrite bind_eq. unfold aget.
    destruct (in_bounds arr_vqueue (0 + Z.of_nat k)); [|discriminate].
    cbv [mret M_ret]. cbv iota beta.
    destruct (nth _ _ _) as [p|]; [|by intros [= <-]].
    destruct (viommu (dev w1)) as [vi|]; [|discriminate].
    rewrite bind_eq. unfold deref.
    destruct (heap w1 !! p) as [q|]; [|discriminate].
    rewrite bind_eq.
    destruct (free_id_frame (iommufd vi) (vqueue_id q) w1)
      as (w3 & -> & (Hd3 & Hh3 & _ & _ & _ & _ & _ & Hs3) & _).
    rewrite bind_eq. unfold g_free.
    destruct (heap w3 !! p); [|discriminate].
    rewrite bind_eq. cbv [get_dev]. cbv iota beta. rewrite bind_eq.
    unfold aset. destruct (in_bounds _ _); [|discriminate].
    cbv [mret M_ret put_dev]. cbv iota beta.
    intros [= <-]. cbn. congruence. }
  rewrite prefix_set_full in Hdev by apply (len_vqueue _ Hlen).
  destruct (cmdqv_init_regs_spec w1) as (s' & E2 & Hregs & Hvi & Hvq & Hpg).
  { rewrite Hdev. destruct Hlen. by constructor. }
  assert (wf_dev s') as Hwf'.
  { apply (wf_dev_of_cache
             (set_status R_STATUS_CMDQV_ENABLED_MASK
                (set_param V_PARAM_RESET (set_config V_CONFIG_RESET zeroed)))).
    - rewrite Hregs. reflexivity.
    - rewrite Hvq, Hdev. reflexivity.
    - apply wf_dev_set_scalars. constructor; reflexivity. }
  exists (set_dev s' w1). split.
  { unfold cmdqv_reset. rewrite bind_eq, E1. exact E2. }
  cbn [dev set_dev mem shared_page].
  rewrite Hvq, Hvi, Hpg, Hdev. cbn [vqueue viommu vcmdq_page0 set_vqueue].
  split; [reflexivity|]. split; [exact Hregs|]. split; [reflexivity|].
  split; [reflexivity|]. split; [exact Hmem|]. split; [exact Hsp|].
  exact Hwf'.
Qed.

Lemma dev_ext (s s' : Tegra241CMDQV) :
  register_cache s' = register_cache s -> viommu s' = viommu s ->
  vqueue s' = vqueue s -> vcmdq_page0 s' = vcmdq_page0 s -> s' = s.
Proof.
  destruct s, s'. unfold register_cache. cbn. intros H -> -> ->.
  injection H as -> -> -> -> -> -> -> -> -> -> -> -> -> -> -> -> -> ->.
  reflexivity.
Qed.

Lemma reset_slot_empty (i : Z) (w : World) :
  0 <= i < 128 -> vqueue (dev w) = replicate 128 None ->
  cmdqv_reset_slot i w = Ret (tt, w).
Proof.
  intros Hi Hq. unfold cmdqv_reset_slot. rewrite bind_eq. cbv [get_dev].
  cbv iota beta. rewrite bind_eq. unfold aget.
  rewrite in_bounds_intro by (simpl; lia). cbv [mret M_ret]. cbv iota beta.
  rewrite Hq, nth_lookup, lookup_replicate_2 by lia. reflexivity.
Qed.

(** X28. Device reset, in a state whose pointers are valid, returns with
    every queue slot empty, every queue object that a slot held destroyed
    in the kernel and freed, and the register cache at its power-on
    values: config 0x00020403, param 0x00004011, CMDQV_ENABLED set in
    status, everything else zero. *)
Theorem reset_releases_queues_and_restores_registers (w : World) :
  wf w ->
  exists w', cmdqv_reset w = Ret (tt, w') /\
    vqueue (dev w') = replicate 128 None /\
    (forall i, 0 <= i < 128 -> nth (Z.to_nat i) (vqueue (dev w')) None = None) /\
    register_cache (dev w') = reset_registers /\
    config (dev w') = 0x00020403 /\ param (dev w') = 0x00004011 /\
    Z.land (status (dev w')) R_STATUS_CMDQV_ENABLED_MASK <> 0 /\
    (forall i p q v,
       vqueue (dev w) !! i = Some (Some p) -> heap w !! p = Some q ->
       viommu (dev w) = Some v ->
       EvIoctl (fd (iommufd v)) (IOMMU_DESTROY (vqueue_id q)) ∈ trace w' /\
       heap w' !! p = None).
Proof.
  intros Hwf.
  pose proof (wf_lengths w Hwf) as Hlen.
  destruct (for_loop_invariant cmdqv_reset_slot (reset_inv w) 128 0 w)
    as (w1 & E1 & [Hdev Hfreed Hkept Hdestroyed Hmem]).
  { constructor.
    - symmetry. apply set_vqueue_eta.
    - intros p (i & Hi & _). lia.
    - reflexivity.
    - intros i p q v Hi. lia.
    - reflexivity. }
  { intros k w1 Hk HI. by apply reset_slot_step. }
  rewrite prefix_set_full in Hdev by apply (len_vqueue _ Hlen).
  destruct (cmdqv_init_regs_spec w1) as (s' & E2 & Hregs & _ & Hvq & _).
  { rewrite Hdev. destruct Hlen. by constructor. }
  exists (set_dev s' w1). split.
  { unfold cmdqv_reset. rewrite bind_eq, E1. exact E2. }
  cbn [dev set_dev heap trace].
  assert (vqueue s' = replicate 128 None) as Hslots by (by rewrite Hvq, Hdev).
  split; [exact Hslots|]. split.
  { intros i Hi.
    rewrite Hslots, nth_lookup, lookup_replicate_2 by lia. reflexivity. }
  split; [exact Hregs|].
  unfold register_cache, reset_registers in Hregs.
  injection Hregs as Hc Hp Hs.
  split; [rewrite Hc; reflexivity|].
  split; [rewrite Hp; reflexivity|].
  split; [rewrite Hs; by vm_compute|].
  intros i p q v Ei Hq Hv.
  assert (i < 128)%nat as Hi.
  { rewrite <- (len_vqueue _ Hlen). eapply lookup_lt_Some. eassumption. }
  split.
  - exact (Hdestroyed i p q v Hi Ei Hq Hv).
  - apply Hfreed. exists i. split; assumption.
Qed.

Lemma reset_releases_queues_and_restores_registers_witness :
  exists w', cmdqv_reset queue5_live = Ret (tt, w') /\
    vqueue (dev w') = replicate 128 None /\
    register_cache (dev w') = reset_registers /\
    EvIoctl 3 (IOMMU_DESTROY 77) ∈ trace w' /\
    heap w' !! 1%nat = None.
Proof.
  destruct (reset_releases_queues_and_restores_registers queue5_live
              queue5_live_wf)
    as (w' & E & Hv & _ & Hr & _ & _ & _ & Hd).
  exists w'. split; [exact E|]. split; [exact Hv|]. split; [exact Hr|].
  exact (Hd 5%nat 1%nat {| vqueue_viommu := viommu0; vqueue_id := 77 |}
            viommu0 eq_refl eq_refl eq_refl).
Defined.

(** X16. Reset is idempotent: in a state whose pointers are valid, a
    second reset right after a reset returns the very same state.  With no
    queue left to release it sends nothing to the kernel and prints
    nothing, and the registers are at their reset values already. *)
Theorem reset_is_idempotent (w : World) :
  wf w ->
  exists w1, cmdqv_reset w = Ret (tt, w1) /\ cmdqv_reset w1 = Ret (tt, w1).
Proof.
  intros Hwf.
  destruct (cmdqv_reset_run w Hwf)
    as (w1 & E1 & Hq1 & Hr1 & _ & _ & _ & _ & Hlen1).
  exists w1. split; [exact E1|].
  unfold cmdqv_reset. rewrite bind_eq.
  rewrite (for_loop_exact cmdqv_reset_slot (fun _ => w1) 128 0).
  2:{ intros k Hk. apply reset_slot_empty; [lia|exact Hq1]. }
  destruct (cmdqv_init_regs_spec w1 Hlen1) as (s' & -> & Hr & Hv & Hq & Hp).
  rewrite (dev_ext (dev w1) s'); [by rewrite set_dev_eta| |assumption..].
  by rewrite Hr, Hr1.
Qed.

Lemma reset_is_idempotent_witness :
  exists w1, cmdqv_reset queue5_live = Ret (tt, w1) /\
             cmdqv_reset w1 = Ret (tt, w1).
Proof.
  exact (reset_is_idempotent queue5_live queue5_live_wf).
Defined.

(** X17. In a state whose pointers are valid, reset zeroes the shadows of
    the per-queue registers of the shared page but neither unmaps nor
    clears the page: the page pointer and the words of the page are as
    before, so the first read of such a register after the reset returns
    the word the page held before it, not the zero of the shadow. *)
Theorem reset_keeps_shared_page
    (k : live_register) (i size base : Z) (w : World) :
  wf w -> 0 <= i < 128 -> page_at w base ->
  exists w1 w2,
    cmdqv_reset w = Ret (tt, w1) /\
    nth (Z.to_nat i) (live_shadow k (dev w1)) 0 = 0 /\
    vcmdq_page0 (dev w1) = vcmdq_page0 (dev w) /\ mem w1 = mem w /\
    tegra241_cmdqv_read (live_address k i) size w1 =
      Ret (default 0 (mem w !! (base + 0x80 * i + live_offset k)), w2).
Proof.
  intros Hwf Hi Hpage.
  destruct (cmdqv_reset_run w Hwf)
    as (w1 & E1 & Hq1 & Hr1 & _ & Hp1 & Hm1 & Hs1 & Hlen1).
  assert (page_at w1 base) as Hpage1.
  { unfold page_at. rewrite Hp1, Hs1. exact Hpage. }
  destruct (read_live_register k i size base w1 Hi Hpage1) as (w2 & E2 & _).
  exists w1, w2. split; [exact E1|]. split; [|split; [exact Hp1|split]].
  - assert (live_shadow k (dev w1) = replicate 128 0) as ->.
    { unfold register_cache, reset_registers in Hr1.
      destruct k; cbn [live_shadow]; congruence. }
    rewrite nth_lookup, lookup_replicate_2 by lia. reflexivity.
  - exact Hm1.
  - rewrite E2, Hm1. f_equal. f_equal.
    rewrite nth_lookup, list_lookup_insert_eq; [reflexivity|].
    rewrite (live_shadow_length k _ Hlen1). lia.
Qed.

Lemma queue5_status_raised_wf : wf queue5_status_raised.
Proof.
  destruct queue5_live_wf as [Hlen Hlive Hun].
  constructor; [exact Hlen|exact Hlive|exact Hun].
Qed.

Lemma reset_keeps_shared_page_witness :
  exists w1 w2,
    cmdqv_reset queue5_status_raised = Ret (tt, w1) /\
    nth 5 (vcmdq_status (dev w1)) 0 = 0 /\
    tegra241_cmdqv_read (A_VCMDQi_STATUS 5) 4 w1 = Ret (1, w2).
Proof.
  destruct (reset_keeps_shared_page STATUS 5 4 0x7f0000 queue5_status_raised
              queue5_status_raised_wf ltac:(lia) (or_introl eq_refl))
    as (w1 & w2 & E1 & Hz & _ & _ & E2).
  exists w1, w2. split; [exact E1|]. split; [exact Hz | exact E2].
Defined.

(** ** The backend object *)

Lemma open_descriptors_snoc (evs : list host_event) (e : host_event) :
  open_descriptors (evs ++ [e]) = track_step (open_descriptors evs) e.
Proof. unfold open_descriptors. by rewrite foldl_app. Qed.

Lemma u32_small (x : Z) : 0 <= x < 2 ^ 32 -> u32 x = x.
Proof. intros H. unfold u32. by apply Z.mod_small. Qed.

(** The invariant of an internally opened backend: the descriptor is open
    exactly while there are users, and it is the only one. *)
Record owned_inv (n : Z) (h : Host) : Prop := {
  oi_owned : owned (backend_obj h) = true;
  oi_users : 0 <= users (backend_obj h) <= n;
  oi_open : open_descriptors (host_events h) =
            Some (if users (backend_obj h) =? 0 then []
                  else [fd (backend_obj h)]);
  oi_idle : users (backend_obj h) = 0 -> fd (backend_obj h) = -1;
}.

Lemma owned_inv_step (n : Z) (h : Host) (op : backend_op) :
  owned_inv n h -> n + 1 < 2 ^ 32 -> owned_inv (n + 1) (backend_step h op).
Proof.
  intros [Ho Hu Hopen Hidle] Hn. destruct op; cbn [backend_step].
  - unfold iommufd_backend_connect. rewrite Ho. cbn [andb].
    destruct (Z.eq_dec (users (backend_obj h)) 0) as [Hz|Hnz];
      [rewrite Hz; cbn [Z.eqb]
      |replace (users (backend_obj h) =? 0) with false
         by (symmetry; apply Z.eqb_neq; lia)].
    + rewrite Hz in Hopen. cbn [Z.eqb] in Hopen.
      destruct (Z.ltb_spec (qemu_open_old h (host_events h)) 0) as [Hneg|Hpos];
        cbn [snd].
      * constructor; cbn [backend_obj host_events log_event].
        -- exact Ho.
        -- lia.
        -- rewrite !open_descriptors_snoc, Hopen. cbn [track_step].
           replace (0 <=? qemu_open_old h (host_events h)) with false
             by (symmetry; apply Z.leb_gt; lia).
           by rewrite Hz.
        -- exact Hidle.
      * constructor;
          cbn [backend_obj host_events log_event set_backend_obj set_users
               set_fd users fd owned];
          rewrite ?Hz; try change (u32 (0 + 1)) with 1.
        -- exact Ho.
        -- lia.
        -- rewrite open_descriptors_snoc, Hopen. cbn [track_step].
           replace (0 <=? qemu_open_old h (host_events h)) with true
             by (symmetry; apply Z.leb_le; lia).
           reflexivity.
        -- discriminate.
    + cbn [snd]. constructor;
        cbn [backend_obj host_events set_backend_obj set_users users fd owned];
        rewrite ?u32_small by lia.
      * exact Ho.
      * lia.
      * rewrite Hopen.
        replace (users (backend_obj h) =? 0) with false
          by (symmetry; apply Z.eqb_neq; lia).
        replace (users (backend_obj h) + 1 =? 0) with false
          by (symmetry; apply Z.eqb_neq; lia).
        reflexivity.
      * lia.
  - unfold iommufd_backend_disconnect.
    destruct (Z.eq_dec (users (backend_obj h)) 0) as [Hz|Hnz];
      [rewrite Hz; cbn [Z.eqb]
      |replace (users (backend_obj h) =? 0) with false
         by (symmetry; apply Z.eqb_neq; lia)].
    + constructor; try assumption. lia.
    + cbn [users set_users owned]. rewrite u32_small by lia. rewrite Ho.
      rewrite andb_true_r.
      replace (users (backend_obj h) =? 0) with false in Hopen
        by (symmetry; apply Z.eqb_neq; lia).
      destruct (Z.eq_dec (users (backend_obj h) - 1) 0) as [Hl|Hm];
        [rewrite Hl; cbn [Z.eqb]
        |replace (users (backend_obj h) - 1 =? 0) with false
           by (symmetry; apply Z.eqb_neq; lia)].
      * constructor;
          cbn [backend_obj host_events log_event set_backend_obj set_users
               set_fd users fd owned].
        -- exact Ho.
        -- lia.
        -- rewrite open_descriptors_snoc, Hopen. cbn [track_step].
           rewrite bool_decide_eq_true_2 by apply list_elem_of_here.
           rewrite ?Hl. cbn [Z.eqb remove].
           by destruct (Z.eq_dec _ _).
        -- reflexivity.
      * constructor;
          cbn [backend_obj host_events set_backend_obj set_users users fd owned].
        -- exact Ho.
        -- lia.
        -- rewrite Hopen.
           try replace (users (backend_obj h) - 1 =? 0) with false
             by (symmetry; apply Z.eqb_neq; lia).
           reflexivity.
        -- lia.
Qed.

Lemma owned_inv_run (ops : list backend_op) (n : Z) (h : Host) :
  owned_inv n h -> n + Z.of_nat (length ops) < 2 ^ 32 ->
  owned_inv (n + Z.of_nat (length ops)) (backend_run ops h).
Proof.
  revert n h. induction ops as [|op ops IH]; intros n h Hinv Hn.
  - cbn. by rewrite Z.add_0_r.
  - cbn [backend_run foldl length] in *.
    replace (n + Z.of_nat (S (length ops)))
      with (n + 1 + Z.of_nat (length ops)) in * by lia.
    apply IH; [|lia]. apply owned_inv_step; [assumption|lia].
Qed.

(** X18. An internally opened backend never leaks and never closes twice
    the descriptor of /dev/iommu.  Started from the object as
    [iommufd_backend_init] leaves it, after any sequence of fewer than
    2^32 calls of [iommufd_backend_connect] and
    [iommufd_backend_disconnect], the descriptors opened and not closed
    are: none when the backend has no user, and then [fd] is -1 and the
    object can be deleted; the one in [fd] when it has users.  No
    descriptor that is not open has been closed. *)
Theorem owned_backend_descriptor_balanced (ops : list backend_op) (h0 : Host) :
  open_descriptors (host_events h0) = Some [] ->
  Z.of_nat (length ops) < 2 ^ 32 ->
  let h := backend_run ops (iommufd_backend_init h0) in
  let be := backend_obj h in
  owned be = true /\ 0 <= users be <= Z.of_nat (length ops) /\
  open_descriptors (host_events h) =
    Some (if iommufd_backend_can_be_deleted h then [] else [fd be]) /\
  (iommufd_backend_can_be_deleted h = true -> fd be = -1).
Proof.
  intros Hfresh Hlen h be.
  destruct (owned_inv_run ops 0 (iommufd_backend_init h0)) as [Ho Hu Hopen Hidle].
  - constructor; cbn; try done. 
  - lia.
  - fold h in Ho, Hu, Hopen, Hidle. fold be in Ho, Hu, Hopen, Hidle.
    split; [exact Ho|]. split; [lia|]. split; [exact Hopen|].
    unfold iommufd_backend_can_be_deleted. fold be.
    intros Hz. apply Hidle. by apply Z.eqb_eq.
Qed.

Lemma owned_backend_descriptor_balanced_witness :
  let h := backend_run [op_connect; op_connect; op_disconnect; op_disconnect]
             (iommufd_backend_init host0) in
  host_events h = [ev_open_dev_iommu 7; ev_close 7] /\
  open_descriptors (host_events h) = Some [] /\
  fd (backend_obj h) = -1.
Proof.
  destruct (owned_backend_descriptor_balanced
              [op_connect; op_connect; op_disconnect; op_disconnect] host0
              eq_refl ltac:(cbn; lia))
    as (_ & _ & Hopen & Hidle).
  split; [reflexivity|]. split; [exact Hopen|]. exact (Hidle eq_refl).
Defined.

(** X19. When /dev/iommu cannot be opened, [iommufd_backend_connect] on an
    internally opened backend without users returns the negative result of
    the open, sets the error and leaves the object as it was: no user is
    counted, the object can still be deleted, and a disconnection that
    follows does nothing.  The next connection opens the device again and,
    if that succeeds with descriptor [f], returns 0 with [f] stored and one
    user. *)
Theorem failed_connect_counts_no_user (h : Host) :
  owned (backend_obj h) = true -> users (backend_obj h) = 0 ->
  qemu_open_old h (host_events h) < 0 ->
  let r := qemu_open_old h (host_events h) in
  exists h',
    iommufd_backend_connect h = (r, h') /\
    backend_obj h' = backend_obj h /\
    iommufd_backend_can_be_deleted h' = true /\
    host_events h' =
      host_events h ++ [ev_open_dev_iommu r; ev_error_opening_failed] /\
    iommufd_backend_disconnect h' = h' /\
    forall f, qemu_open_old h' (host_events h') = f -> 0 <= f ->
      exists h'', iommufd_backend_connect h' = (0, h'') /\
        fd (backend_obj h'') = f /\ users (backend_obj h'') = 1 /\
        host_events h'' = host_events h' ++ [ev_open_dev_iommu f].
Proof.
  intros Ho Hu Hneg r.
  exists (log_event ev_error_opening_failed (log_event (ev_open_dev_iommu r) h)).
  split.
  { unfold iommufd_backend_connect. rewrite Ho, Hu. cbn [andb Z.eqb]. fold r.
    replace (r <? 0) with true by (symmetry; apply Z.ltb_lt; exact Hneg).
    reflexivity. }
  split; [reflexivity|].
  split; [unfold iommufd_backend_can_be_deleted; cbn; by rewrite Hu|].
  split; [cbn; by rewrite <- app_assoc|].
  split.
  { unfold iommufd_backend_disconnect. cbn [backend_obj log_event].
    by rewrite Hu. }
  intros f Hf Hpos. eexists. split.
  { unfold iommufd_backend_connect. cbn [backend_obj log_event].
    rewrite Ho, Hu. cbn [andb Z.eqb]. rewrite Hf.
    replace (f <? 0) with false by (symmetry; apply Z.ltb_ge; exact Hpos).
    reflexivity. }
  cbn. rewrite Hu. by repeat split.
Qed.

Lemma failed_connect_counts_no_user_witness :
  exists h',
    iommufd_backend_connect (iommufd_backend_init host_no_iommu) = (-1, h') /\
    iommufd_backend_can_be_deleted h' = true.
Proof.
  destruct (failed_connect_counts_no_user (iommufd_backend_init host_no_iommu)
              eq_refl eq_refl ltac:(cbn; lia))
    as (h' & E & _ & Hd & _).
  exists h'. split; [exact E | exact Hd].
Defined.

Lemma not_owned_step (h : Host) (op : backend_op) :
  owned (backend_obj h) = false ->
  owned (backend_obj (backend_step h op)) = false /\
  fd (backend_obj (backend_step h op)) = fd (backend_obj h) /\
  host_events (backend_step h op) = host_events h.
Proof.
  intros Ho. destruct op; cbn [backend_step].
  - unfold iommufd_backend_connect. rewrite Ho. cbn [andb snd]. by repeat split.
  - unfold iommufd_backend_disconnect.
    destruct (users (backend_obj h) =? 0); [by repeat split|].
    cbn [owned set_users]. rewrite Ho, andb_false_r. by repeat split.
Qed.

(** X20. A descriptor handed to the backend from outside (property [fd])
    is never opened or closed by the backend: after
    [iommufd_backend_set_fd] has stored it, no sequence of connections and
    disconnections, and not the finalization of the object either, makes
    a system call or changes [fd].  When the descriptor cannot be parsed
    the object is left as it was. *)
Theorem external_descriptor_never_closed
    (f : Z) (ops : list backend_op) (h0 : Host) :
  f <> -1 ->
  let h := iommufd_backend_finalize
             (backend_run ops (iommufd_backend_set_fd f h0)) in
  host_events h = host_events h0 /\
  fd (backend_obj h) = f /\ owned (backend_obj h) = false /\
  backend_obj (iommufd_backend_set_fd (-1) h0) = backend_obj h0.
Proof.
  intros Hf h.
  assert (forall h1, owned (backend_obj h1) = false ->
            owned (backend_obj (backend_run ops h1)) = false /\
            fd (backend_obj (backend_run ops h1)) = fd (backend_obj h1) /\
            host_events (backend_run ops h1) = host_events h1) as Hrun.
  { induction ops as [|op ops IH]; intros h1 Ho; [by repeat split|].
    cbn [backend_run foldl].
    destruct (not_owned_step h1 op Ho) as (Ho' & Hfd' & Hev').
    destruct (IH (backend_step h1 op) Ho') as (? & ? & ?).
    unfold backend_run in *. repeat split; congruence. }
  assert (iommufd_backend_set_fd f h0 =
          set_backend_obj (set_owned false (set_fd f (backend_obj h0))) h0)
    as Hset.
  { unfold iommufd_backend_set_fd.
    by replace (f =? -1) with false by (symmetry; by apply Z.eqb_neq). }
  destruct (Hrun (iommufd_backend_set_fd f h0)) as (Ho & Hfd & Hev).
  { by rewrite Hset. }
  unfold h, iommufd_backend_finalize. rewrite Ho, Hev, Hfd.
  split; [by rewrite Hset|]. split; [by rewrite Hset|].
  split; [exact Ho|]. reflexivity.
Qed.

Lemma external_descriptor_never_closed_witness :
  let h := iommufd_backend_finalize
             (backend_run [op_connect; op_disconnect]
                (iommufd_backend_set_fd 9 (iommufd_backend_init host0))) in
  host_events h = [] /\ fd (backend_obj h) = 9.
Proof.
  destruct (external_descriptor_never_closed 9 [op_connect; op_disconnect]
              (iommufd_backend_init host0) ltac:(lia))
    as (Hev & Hfd & _).
  split; [exact Hev | exact Hfd].
Defined.

Lemma setup_vcmdq_rejects_without_effect_witness :
  tegra241_cmdqv_setup_vcmdq 5 no_shared_page = Ret (- ENODEV, no_shared_page) /\
  tegra241_cmdqv_setup_vcmdq 5 power_on = Ret (- EINVAL, power_on).
Proof.
  split.
  - refine (proj1 (setup_vcmdq_rejects_without_effect 5 no_shared_page _) _);
      [lia | reflexivity].
  - refine (proj1 (proj2 (setup_vcmdq_rejects_without_effect 5 power_on _)) _ _);
      [lia | by eexists | reflexivity].
Defined.

(** ** Allocation of a queue object *)

(** X21. [iommufd_viommu_alloc_queue] sends one IOMMU_VQUEUE_ALLOC request
    and leaves the device and the shared page alone.  When the kernel
    rejects the request it returns NULL, prints the error and frees the
    object it had allocated: the heap is as before.  When the kernel
    grants it, it returns a new object, at an address that was not in
    use, that holds the virtual IOMMU and the queue id of the reply
    (a 32-bit field); the rest of the heap is as before. *)
Theorem alloc_queue_frees_object_on_failure
    (v : IOMMUFDViommu) (dt : uapi.vqueue_data_type) (len : Z)
    (data : uapi.iommu_vqueue_tegra241_cmdqv) (w : World) :
  heap w !! next_ptr w = None ->
  let req := IOMMU_VQUEUE_ALLOC (viommu_id v) dt len data in
  let r := kernel_reply w req in
  exists res w',
    iommufd_viommu_alloc_queue v dt len data w = Ret (res, w') /\
    dev w' = dev w /\ mem w' = mem w /\
    match r_errno r with
    | Some e =>
        res = None /\ heap w' = heap w /\
        trace w' = trace w ++ [EvIoctl (fd (iommufd v)) req;
                               EvReport (msg_vqueue_alloc_failed e)]
    | None =>
        exists p, res = Some p /\ heap w !! p = None /\
        heap w' = <[p := {| vqueue_viommu := v;
                            vqueue_id := u32 (r_out r) |}]> (heap w) /\
        trace w' = trace w ++ [EvIoctl (fd (iommufd v)) req]
    end.
Proof.
  intros Hfresh req r.
  destruct (alloc_queue_cases v dt len data w Hfresh)
    as (res & w' & E & Hd & Hm & _ & Hcases).
  fold req in Hcases. fold r in Hcases.
  exists res, w'. split; [exact E|]. split; [exact Hd|]. split; [exact Hm|].
  destruct (r_errno r); [exact Hcases|].
  destruct Hcases as (-> & Hh & Ht). exists (next_ptr w). by repeat split.
Qed.

Lemma alloc_queue_frees_object_on_failure_witness :
  (exists w',
     iommufd_viommu_alloc_queue viommu0 uapi.IOMMU_VQUEUE_DATA_TEGRA241_CMDQV 16
       (setup_data 6 0x30007) queue5_live = Ret (None, w') /\
     heap w' = heap queue5_live) /\
  (exists p w',
     iommufd_viommu_alloc_queue viommu0 uapi.IOMMU_VQUEUE_DATA_TEGRA241_CMDQV 16
       (setup_data 5 0x10005) power_on = Ret (Some p, w') /\
     heap w' = <[p := {| vqueue_viommu := viommu0; vqueue_id := 77 |}]>
                 (heap power_on)).
Proof.
  split.
  - destruct (alloc_queue_frees_object_on_failure viommu0
                uapi.IOMMU_VQUEUE_DATA_TEGRA241_CMDQV 16 (setup_data 6 0x30007)
                queue5_live eq_refl)
      as (res & w' & E & _ & _ & Hc).
    destruct Hc as (-> & Hh & _). exists w'. split; [exact E | exact Hh].
  - destruct (alloc_queue_frees_object_on_failure viommu0
                uapi.IOMMU_VQUEUE_DATA_TEGRA241_CMDQV 16 (setup_data 5 0x10005)
                power_on eq_refl)
      as (res & w' & E & _ & _ & Hc).
    destruct Hc as (p & -> & _ & Hh & _). exists p, w'.
    split; [exact E | exact Hh].
Defined.

(** ** Registers that exist in the register cache only *)

(** X22. The config register and the allocation map are read back as
    written (the low 32 bits of the value).  The map is decoded in groups
    of 128 bytes: a write at any offset of the map is read back at every
    offset of the same group, 0x200..0x27f, 0x280..0x2ff, 0x300..0x37f or
    0x380..0x3fc, and lands in entry 0, 1, 2 or 3 of the array; the other
    124 entries are out of the guest's reach. *)
Theorem config_and_alloc_map_round_trip (o o' v size size' : Z) (w : World) :
  wf_dev (dev w) ->
  A_CMDQ_ALLOC_MAP_0 <= o <= A_CMDQ_ALLOC_MAP_127 ->
  A_CMDQ_ALLOC_MAP_0 <= o' <= A_CMDQ_ALLOC_MAP_127 ->
  (o - A_CMDQ_ALLOC_MAP_0) / 128 = (o' - A_CMDQ_ALLOC_MAP_0) / 128 ->
  (exists w' w'',
     tegra241_cmdqv_write A_CONFIG v size w = Ret (tt, w') /\
     tegra241_cmdqv_read A_CONFIG size' w' = Ret (u32 v, w'')) /\
  (exists w' w'',
     tegra241_cmdqv_write o v size w = Ret (tt, w') /\
     cmdq_alloc_map (dev w') =
       <[Z.to_nat ((o - A_CMDQ_ALLOC_MAP_0) / 128) := u32 v]>
         (cmdq_alloc_map (dev w)) /\
     0 <= (o - A_CMDQ_ALLOC_MAP_0) / 128 <= 3 /\
     tegra241_cmdqv_read o' size' w' = Ret (u32 v, w'')).
Proof.
  intros Hlen Ho Ho' Hgroup.
  destruct (map_page0_once_dev w) as (w1 & E1 & Hr1 & _).
  split.
  - eexists. 
    assert (tegra241_cmdqv_write A_CONFIG v size w =
            Ret (tt, set_dev (set_config (u32 v) (dev w1)) w1)) as E.
    { unfold tegra241_cmdqv_write. rewrite bind_eq, E1. reflexivity. }
    destruct (map_page0_once_dev (set_dev (set_config (u32 v) (dev w1)) w1))
      as (w2 & E2 & Hr2 & _).
    exists w2. split; [exact E|].
    unfold tegra241_cmdqv_read. rewrite bind_eq, E2.
    cbn [Z.ltb Z.compare Z.eqb A_CONFIG]. run.
    unfold register_cache in Hr2. cbn [dev set_dev] in Hr2.
    f_equal. f_equal. transitivity (config (set_config (u32 v) (dev w1)));
      [congruence|reflexivity].
  - assert (cmdq_alloc_map (dev w1) = cmdq_alloc_map (dev w)) as Hmap
      by (unfold register_cache in Hr1; congruence).
    set (k := (o - A_CMDQ_ALLOC_MAP_0) / 128) in *.
    assert (0 <= k <= 3) as Hk.
    { unfold k. revert Ho. addr_consts. intros Ho.
      div_facts (o - (512 + 0 * 4)) 128. lia. }
    assert (in_bounds arr_cmdq_alloc_map k = true) as Hin
      by (apply in_bounds_intro; simpl; lia).
    set (w' := set_dev (set_cmdq_alloc_map
                          (<[Z.to_nat k := u32 v]> (cmdq_alloc_map (dev w1)))
                          (dev w1)) w1).
    assert (tegra241_cmdqv_write o v size w = Ret (tt, w')) as E.
    { unfold tegra241_cmdqv_write. rewrite bind_eq, E1.
      revert Ho. addr_consts. intros Ho. settle_tests.
      fold A_CMDQ_ALLOC_MAP_0 in k.
      change ((o - (512 + 0 * 4)) / 128) with k.
      by rewrite wr_arr_in_bounds by assumption. }
    destruct (map_page0_once_dev w') as (w2 & E2 & Hr2 & _).
    exists w', w2. split; [exact E|]. split; [by rewrite <- Hmap|].
    split; [exact Hk|].
    unfold tegra241_cmdqv_read. rewrite bind_eq, E2.
    revert Ho' Hgroup. addr_consts. intros Ho' Hgroup. settle_tests.
    rewrite <- Hgroup. rewrite rd_arr_in_bounds by assumption.
    f_equal. f_equal.
    assert (cmdq_alloc_map (dev w2) = cmdq_alloc_map (dev w')) as ->
      by (unfold register_cache in Hr2; congruence).
    cbn [w' dev set_dev cmdq_alloc_map set_cmdq_alloc_map].
    rewrite nth_lookup, list_lookup_insert_eq; [reflexivity|].
    rewrite Hmap, (len_cmdq_alloc_map _ Hlen). lia.
Qed.

Lemma config_and_alloc_map_round_trip_witness :
  exists w' w'',
    tegra241_cmdqv_write (A_CMDQ_ALLOC_MAP_ 1) 0x22 4 queue5_live =
      Ret (tt, w') /\
    cmdq_alloc_map (dev w') =
      <[0%nat := 0x22]> (cmdq_alloc_map (dev queue5_live)) /\
    tegra241_cmdqv_read (A_CMDQ_ALLOC_MAP_ 0) 4 w' = Ret (0x22, w'').
Proof.
  destruct (config_and_alloc_map_round_trip (A_CMDQ_ALLOC_MAP_ 1)
              (A_CMDQ_ALLOC_MAP_ 0) 0x22 4 4 queue5_live
              (wf_lengths _ queue5_live_wf)
              ltac:(addr_consts; lia) ltac:(addr_consts; lia) eq_refl)
    as (_ & w' & w'' & E & Hm & _ & R).
  exists w', w''. split; [exact E|]. split; [exact Hm | exact R].
Defined.

(** ** Realization *)

(** X23. Realizing a device none of whose slots holds a queue, such as the
    object that was just created, sends nothing to the kernel, prints
    nothing and never reads through [s->viommu], which is still NULL: it
    only sets the registers to their reset values. *)
Theorem realize_of_fresh_device (w : World) :
  wf_dev (dev w) -> vqueue (dev w) = replicate 128 None ->
  exists s', cmdqv_realize w = Ret (tt, set_dev s' w) /\
    register_cache s' = reset_registers /\
    vqueue s' = vqueue (dev w) /\ viommu s' = viommu (dev w) /\
    vcmdq_page0 s' = vcmdq_page0 (dev w).
Proof.
  intros Hlen Hq. unfold cmdqv_realize, cmdqv_reset. rewrite bind_eq.
  rewrite (for_loop_exact cmdqv_reset_slot (fun _ => w) 128 0).
  2:{ intros k Hk. apply reset_slot_empty; [lia|exact Hq]. }
  destruct (cmdqv_init_regs_spec w Hlen) as (s' & E & Hr & Hv & Hq' & Hp).
  exists s'. split; [exact E|]. split; [exact Hr|].
  split; [exact Hq'|]. split; [exact Hv | exact Hp].
Qed.

Lemma realize_of_fresh_device_witness :
  exists s', cmdqv_realize power_on = Ret (tt, set_dev s' power_on) /\
             register_cache s' = reset_registers /\ viommu s' = None.
Proof.
  destruct (realize_of_fresh_device power_on) as (s' & E & Hr & _ & Hv & _).
  - constructor; reflexivity.
  - reflexivity.
  - exists s'. split; [exact E|]. split; [exact Hr | exact Hv].
Defined.

(** ** Configuring a queue that is not set up *)

Lemma map_page0_once_valid (w : World) :
  wf w -> heap_below w ->
  exists w1, map_page0_once w = Ret (tt, w1) /\ wf w1 /\ heap_below w1 /\
    vqueue (dev w1) = vqueue (dev w) /\
    vcmdq_base (dev w1) = vcmdq_base (dev w) /\ heap w1 = heap w.
Proof.
  intros Hwf Hbelow.
  destruct (map_page0_once_dev w)
    as (w1 & E1 & Hr1 & Hq1 & Hv1 & Hh1 & _).
  assert (next_ptr w1 = next_ptr w) as Hn1.
  { revert E1. unfold map_page0_once, tegra241_cmdqv_init_vcmdq_page0. run.
    destruct (vcmdq_page0 (dev w)); cbn; [by intros [= <-]|].
    destruct (shared_page w); cbn; by intros [= <-]. }
  exists w1. split; [exact E1|].
  destruct (wf_after_noop w w1 Hwf Hbelow Hr1 Hq1) as [Hwf1 Hb1].
  - by rewrite Hv1.
  - exact Hh1.
  - lia.
  - split; [exact Hwf1|]. split; [exact Hb1|]. split; [exact Hq1|].
    split; [|exact Hh1]. unfold register_cache in Hr1. congruence.
Qed.

Lemma wf_base_update (w : World) (l : list Z) :
  wf w -> heap_below w -> length l = 128%nat ->
  wf (set_dev (set_vcmdq_base l (dev w)) w) /\
  heap_below (set_dev (set_vcmdq_base l (dev w)) w).
Proof.
  intros [Hlen Hlive Hun] Hbelow Hl. split; [constructor|exact Hbelow].
  - destruct Hlen. by constructor.
  - exact Hlive.
  - exact Hun.
Qed.

(** A write to a base register is an update of the shadow base followed
    by one reconfiguration. *)
Lemma base_write_is_setup (high : bool) (i v size : Z) (w w1 : World) :
  wf_dev (dev w1) -> 0 <= i < 128 -> map_page0_once w = Ret (tt, w1) ->
  exists x,
    tegra241_cmdqv_write
      (if high then A_VCMDQi_BASE_H i else A_VCMDQi_BASE_L i) v size w =
    (tegra241_cmdqv_setup_vcmdq i;; mret tt)
      (set_dev (set_vcmdq_base (<[Z.to_nat i := x]> (vcmdq_base (dev w1)))
                  (dev w1)) w1).
Proof.
  intros Hlen Hi E1.
  assert (in_bounds arr_vcmdq_base i = true) as Hin
    by (apply in_bounds_intro; simpl; lia).
  pose proof (len_vcmdq_base _ Hlen) as Hl.
  destruct high.
  - unfold A_VCMDQi_BASE_H.
    rewrite (write_page1_decode i 4 v size w w1) by (assumption || lia).
    unfold tegra241_cmdqv_write_vcmdq. addr_consts. settle_tests.
    rewrite bind_eq, modify_arr_in_bounds by assumption. cbv iota beta.
    rewrite bind_eq, modify_arr_in_bounds by assumption. cbv iota beta.
    cbn [dev set_dev vcmdq_base set_vcmdq_base].
    rewrite list_insert_insert_eq. eexists. reflexivity.
  - unfold A_VCMDQi_BASE_L.
    replace (0x20000 + i * 0x80) with (0x20000 + 0 + i * 0x80) by lia.
    rewrite (write_page1_decode i 0 v size w w1) by (assumption || lia).
    unfold tegra241_cmdqv_write_vcmdq. addr_consts. settle_tests.
    rewrite bind_eq.
    destruct (size =? 8); [|destruct (size =? 4)].
    + rewrite wr_arr_in_bounds by assumption. cbv iota beta.
      eexists. reflexivity.
    + rewrite bind_eq, modify_arr_in_bounds by assumption. cbv iota beta.
      rewrite modify_arr_in_bounds by assumption. cbv iota beta.
      cbn [dev set_dev vcmdq_base set_vcmdq_base].
      rewrite list_insert_insert_eq. eexists. reflexivity.
    + cbv [mret M_ret]. cbv iota beta.
      exists (nth (Z.to_nat i) (vcmdq_base (dev w1)) 0).
      rewrite list_insert_id by (apply lookup_nth_in_range; lia).
      by rewrite set_vcmdq_base_eta, set_dev_eta.
Qed.

(** X24. Programming the base of a queue that is not set up never breaks
    the validity of the pointers, whatever the kernel answers: in a valid
    state, a write of any value and size to the base-low or base-high
    register of a queue whose slot is empty returns a state that is valid
    again.  The slot then holds a live object, or is still empty and the
    heap is as before.  (Reconfiguring a queue that is set up does not
    have this property when the kernel rejects the new queue.) *)
Theorem base_write_on_empty_slot_keeps_validity
    (high : bool) (i v size : Z) (w : World) :
  wf w -> heap_below w -> 0 <= i < 128 ->
  vqueue (dev w) !! Z.to_nat i = Some None ->
  exists w',
    tegra241_cmdqv_write
      (if high then A_VCMDQi_BASE_H i else A_VCMDQi_BASE_L i) v size w =
      Ret (tt, w') /\
    wf w' /\ heap_below w' /\
    ((exists p, vqueue (dev w') = <[Z.to_nat i := Some p]> (vqueue (dev w)) /\
                is_Some (heap w' !! p) /\ heap w !! p = None) \/
     (vqueue (dev w') = vqueue (dev w) /\ heap w' = heap w)).
Proof.
  intros Hwf Hbelow Hi Hslot.
  destruct (map_page0_once_valid w Hwf Hbelow)
    as (w1 & E1 & Hwf1 & Hb1 & Hq1 & _ & Hh1).
  destruct (base_write_is_setup high i v size w w1 (wf_lengths _ Hwf1) Hi E1)
    as (x & ->).
  set (l := <[Z.to_nat i := x]> (vcmdq_base (dev w1))).
  destruct (wf_base_update w1 l Hwf1 Hb1) as [Hwf2 Hb2].
  { unfold l. rewrite length_insert. apply (len_vcmdq_base _ (wf_lengths _ Hwf1)). }
  set (w2 := set_dev (set_vcmdq_base l (dev w1)) w1) in *.
  destruct (setup_vcmdq_run i w2 Hwf2 Hb2 Hi)
    as (r & w' & E & _ & _ & _ & H0 & Hn & Hfail & _).
  exists w'. rewrite bind_eq, E. split; [reflexivity|].
  assert (vqueue (dev w2) = vqueue (dev w)) as Hq2 by exact Hq1.
  assert (heap w2 = heap w) as Hh2 by exact Hh1.
  assert (next_ptr w2 = next_ptr w1) as Hn2 by reflexivity.
  destruct (Z.eq_dec r 0) as [Hz|Hnz].
  - destruct (H0 Hz) as (_ & Hq' & (q & Hq & _) & Hwf' & Hb').
    split; [exact Hwf'|]. split; [exact Hb'|]. left.
    exists (next_ptr w2). rewrite Hq', Hq2. split; [reflexivity|].
    split; [by eexists|].
    rewrite <- Hh2. destruct (heap w2 !! next_ptr w2) eqn:El; [|reflexivity].
    assert (next_ptr w2 < next_ptr w2)%nat; [|lia]. apply Hb2. by eexists.
  - destruct (Hfail Hnz) as (Hh' & Hwf' & Hb').
    { rewrite Hq2. exact Hslot. }
    split; [exact Hwf'|]. split; [exact Hb'|]. right.
    rewrite (Hn Hnz), Hh'. by split.
Qed.

Lemma base_write_on_empty_slot_keeps_validity_witness :
  exists w',
    tegra241_cmdqv_write (A_VCMDQi_BASE_L 6) 0x30007 4 queue5_live =
      Ret (tt, w') /\ wf w' /\ heap_below w'.
Proof.
  destruct (base_write_on_empty_slot_keeps_validity false 6 0x30007 4
              queue5_live queue5_live_wf queue5_live_heap_below
              ltac:(lia) eq_refl)
    as (w' & E & Hwf & Hb & _).
  exists w'. split; [exact E|]. split; [exact Hwf | exact Hb].
Defined.

(** ** The other requests of the backend *)

(** X25. The wrappers with an out-parameter write it only when the kernel
    accepts the request: [iommufd_backend_alloc_ioas],
    [iommufd_backend_alloc_hwpt] and [iommufd_backend_get_device_info]
    then return 0 with the kernel's id (a 32-bit field) stored, and leave
    the caller's variable as it was otherwise.  Their error values differ:
    [iommufd_backend_alloc_hwpt] returns [-errno], the other two return
    the -1 of [ioctl], whatever [errno] is. *)
Theorem out_parameter_written_only_on_success
    (be : IOMMUFDBackend) (old : Z)
    (flags dev_id pt_id data_type data_len data_ptr devid len data : Z)
    (s : Sys) :
  let r1 := sys_reply s (IOMMU_IOAS_ALLOC 0) in
  let r2 := sys_reply s
    (IOMMU_HWPT_ALLOC flags dev_id pt_id data_type data_len data_ptr) in
  let r3 := sys_reply s (IOMMU_GET_HW_INFO devid len data) in
  (exists s',
     iommufd_backend_alloc_ioas be old s =
     (match r_errno r1 with
      | None => (0, u32 (r_out r1))
      | Some _ => (-1, old)
      end, s')) /\
  (exists s',
     iommufd_backend_alloc_hwpt be dev_id pt_id flags data_type data_len
       data_ptr old s =
     (match r_errno r2 with
      | None => (0, u32 (r_out r2))
      | Some e => (- e, old)
      end, s')) /\
  (exists s',
     iommufd_backend_get_device_info be devid old data len s =
     (match r_errno r3 with
      | None => (0, u32 (r_out r3))
      | Some _ => (-1, old)
      end, s')).
Proof.
  intros r1 r2 r3. split; [|split].
  - unfold iommufd_backend_alloc_ioas, sys_ioctl. fold r1.
    destruct (r_errno r1); eexists; reflexivity.
  - unfold iommufd_backend_alloc_hwpt, sys_ioctl. fold r2.
    destruct (r_errno r2); eexists; reflexivity.
  - unfold iommufd_backend_get_device_info, sys_ioctl. fold r3.
    destruct (r_errno r3); eexists; reflexivity.
Qed.

(** X26. [iommufd_backend_alloc_viommu] returns NULL when the kernel
    rejects the request, after printing the error and freeing the object
    it had allocated: the heap is as before.  When the kernel accepts, it
    returns a new object, at an address that was not in use, that holds
    the backend, the page table id it was given and the kernel's id. *)
Theorem alloc_viommu_frees_object_on_failure
    (be : IOMMUFDBackend) (dev_id viommu_type hwpt_id : Z) (s : Sys) :
  viommu_heap s !! viommu_next s = None ->
  let req := IOMMU_VIOMMU_ALLOC viommu_type dev_id hwpt_id in
  let r := sys_reply s req in
  exists res s',
    iommufd_backend_alloc_viommu be dev_id viommu_type hwpt_id s = (res, s') /\
    match r_errno r with
    | Some e =>
        res = None /\ viommu_heap s' = viommu_heap s /\
        sys_trace s' = sys_trace s ++ [BeIoctl (fd be) req;
                                       BeReport (msg_viommu_alloc_failed e)]
    | None =>
        exists p, res = Some p /\ viommu_heap s !! p = None /\
        viommu_heap s' =
          <[p := {| iommufd := be; s2_hwpt_id := hwpt_id;
                    viommu_id := u32 (r_out r) |}]> (viommu_heap s) /\
        sys_trace s' = sys_trace s ++ [BeIoctl (fd be) req]
    end.
Proof.
  intros Hfresh req r.
  assert (sys_reply
            (set_viommu_next (S (viommu_next s))
               (set_viommu_heap
                  (<[viommu_next s :=
                       {| iommufd := be; s2_hwpt_id := 0; viommu_id := 0 |}]>
                     (viommu_heap s)) s)) req = r) as Hr by reflexivity.
  unfold req in *. clear req.
  unfold iommufd_backend_alloc_viommu, sys_ioctl. cbv zeta. rewrite Hr.
  clearbody r.
  destruct (r_errno r) as [e|]; cbn -[u32]; eexists _, _;
    (split; [reflexivity|]); cbn -[u32].
  - split; [reflexivity|]. split; [by apply delete_insert_id|].
    by rewrite <- app_assoc.
  - exists (viommu_next s). split; [reflexivity|]. split; [exact Hfresh|].
    split; [apply insert_insert_eq|reflexivity].
Qed.

Lemma alloc_viommu_frees_object_on_failure_witness :
  (exists s', iommufd_backend_alloc_viommu be0 2 1 7 sys_rejecting = (None, s') /\
              viommu_heap s' = viommu_heap sys_rejecting) /\
  (exists p s', iommufd_backend_alloc_viommu be0 2 1 7 sys_granting =
                  (Some p, s') /\
                viommu_heap s' !! p =
                  Some {| iommufd := be0; s2_hwpt_id := 7; viommu_id := 42 |}).
Proof.
  split.
  - destruct (alloc_viommu_frees_object_on_failure be0 2 1 7 sys_rejecting
                eq_refl) as (res & s' & E & Hc).
    destruct Hc as (-> & Hh & _). exists s'. split; [exact E | exact Hh].
  - destruct (alloc_viommu_frees_object_on_failure be0 2 1 7 sys_granting
                eq_refl) as (res & s' & E & Hc).
    destruct Hc as (p & -> & _ & Hh & _). exists p, s'.
    split; [exact E|]. rewrite Hh. apply lookup_insert_eq.
Defined.

(** ** What the reconfiguration leaves alone *)

Lemma env_same_refl (w : World) : env_same w w.
Proof. by repeat split. Qed.

Lemma env_same_trans (w1 w2 w3 : World) :
  env_same w1 w2 -> env_same w2 w3 -> env_same w1 w3.
Proof.
  intros (? & ? & ? & ?) (? & ? & ? & ?). repeat split; congruence.
Qed.

Lemma keeps_env_ret {A} (a : A) : keeps_env (mret a).
Proof. intros w a' w' [= _ <-]. apply env_same_refl. Qed.

Lemma keeps_env_bind {A B} (m : M A) (k : A -> M B) :
  keeps_env m -> (forall a, keeps_env (k a)) -> keeps_env (m ≫= k).
Proof.
  intros Hm Hk w b w'. rewrite bind_eq.
  destruct (m w) as [[a w1]| |] eqn:E; try discriminate.
  intros E'. eapply env_same_trans; [eapply Hm|eapply Hk]; eassumption.
Qed.

Lemma keeps_env_get_dev : keeps_env get_dev.
Proof. intros w a w' [= _ <-]. apply env_same_refl. Qed.

Lemma keeps_env_put_dev s : keeps_env (put_dev s).
Proof. intros w a w' [= _ <-]. by repeat split. Qed.

Lemma keeps_env_report m : keeps_env (report m).
Proof. intros w a w' [= _ <-]. by repeat split. Qed.

Lemma keeps_env_get_errno : keeps_env get_errno.
Proof. intros w a w' [= _ <-]. apply env_same_refl. Qed.

Lemma keeps_env_get_smmu_viommu : keeps_env get_smmu_viommu.
Proof. intros w a w' [= _ <-]. apply env_same_refl. Qed.

Lemma keeps_env_is_ram a : keeps_env (cpu_physical_memory_is_ram a).
Proof. intros w x w' [= _ <-]. apply env_same_refl. Qed.

Lemma keeps_env_ioctl f req : keeps_env (ioctl f req).
Proof.
  intros w a w'. unfold ioctl.
  destruct (r_errno _); intros [= _ <-]; by repeat split.
Qed.

Lemma keeps_env_g_malloc q : keeps_env (g_malloc q).
Proof. intros w a w' [= _ <-]. by repeat split. Qed.

Lemma keeps_env_g_free p : keeps_env (g_free p).
Proof.
  intros w a w'. unfold g_free.
  destruct (heap w !! p); [|discriminate]. intros [= _ <-]. by repeat split.
Qed.

Lemma keeps_env_deref p : keeps_env (deref p).
Proof.
  intros w a w'. unfold deref.
  destruct (heap w !! p); [|discriminate]. intros [= _ <-]. apply env_same_refl.
Qed.

Lemma keeps_env_store p q : keeps_env (store p q).
Proof.
  intros w a w'. unfold store.
  destruct (heap w !! p); [|discriminate]. intros [= _ <-]. by repeat split.
Qed.

Lemma keeps_env_aget {A} (d : A) a l i : keeps_env (aget d a l i).
Proof.
  unfold aget. destruct (in_bounds a i); [apply keeps_env_ret|].
  intros w x w'. discriminate.
Qed.

Lemma keeps_env_aset {A} a (l : list A) i v : keeps_env (aset a l i v).
Proof.
  unfold aset. destruct (in_bounds a i); [apply keeps_env_ret|].
  intros w x w'. discriminate.
Qed.

Ltac keeps_env_step :=
  first [ apply keeps_env_bind; [|intros ?]
        | apply keeps_env_ret | apply keeps_env_get_dev
        | apply keeps_env_put_dev | apply keeps_env_report
        | apply keeps_env_get_errno | apply keeps_env_get_smmu_viommu
        | apply keeps_env_is_ram | apply keeps_env_ioctl
        | apply keeps_env_g_malloc | apply keeps_env_g_free
        | apply keeps_env_deref | apply keeps_env_store
        | apply keeps_env_aget | apply keeps_env_aset
        | match goal with
          | |- keeps_env (match ?x with _ => _ end) => destruct x
          | |- keeps_env (let '(_, _) := ?x in _) => destruct x
          end ].

Lemma keeps_env_free_id be id : keeps_env (iommufd_backend_free_id be id).
Proof. unfold iommufd_backend_free_id. repeat keeps_env_step. Qed.

Lemma keeps_env_alloc_queue v dt len data :
  keeps_env (iommufd_viommu_alloc_queue v dt len data).
Proof. unfold iommufd_viommu_alloc_queue. repeat keeps_env_step. Qed.

Lemma keeps_env_setup_vcmdq index :
  keeps_env (tegra241_cmdqv_setup_vcmdq index).
Proof.
  unfold tegra241_cmdqv_setup_vcmdq, rd_arr.
  repeat first [ apply keeps_env_free_id | apply keeps_env_alloc_queue
               | keeps_env_step ].
Qed.

(** ** A reconfiguration that the kernel rejects *)

(** X27. Whenever a queue that is set up is reconfigured and the kernel
    rejects the new queue, the slot is left dangling.  In a valid state,
    with a configuration that passes the checks, a slot that holds the
    object [p], and a kernel that answers the allocation (asked after the
    release of the old queue) with an error, [tegra241_cmdqv_setup_vcmdq]
    returns an error code, the slot still holds [p], and [p] has been
    freed: the pointers are no longer valid, and the next call for the
    same queue reads through the freed object. *)
Theorem failed_reconfiguration_leaves_dangling_slot
    (index : Z) (w : World) (p : ptr) (q : IOMMUFDVqueue)
    (bsv : IOMMUFDViommu) (e : Z) :
  wf w -> heap_below w -> 0 <= index < 128 ->
  setup_checks_pass w (nth (Z.to_nat index) (vcmdq_base (dev w)) 0) ->
  smmu_viommu w = Some bsv ->
  vqueue (dev w) !! Z.to_nat index = Some (Some p) ->
  heap w !! p = Some q ->
  r_errno (kernel w (requests_of (trace w) ++ [IOMMU_DESTROY (vqueue_id q)])
             (setup_request index w bsv)) = Some e ->
  exists r w',
    tegra241_cmdqv_setup_vcmdq index w = Ret (r, w') /\ r <> 0 /\
    vqueue (dev w') !! Z.to_nat index = Some (Some p) /\
    heap w' !! p = None /\
    ~ wf w' /\
    tegra241_cmdqv_setup_vcmdq index w' = Undefined (UseAfterFree p).
Proof.
  intros Hwf Hbelow Hi Hc Hb Hslot Hq Hrej.
  destruct (setup_vcmdq_run index w Hwf Hbelow Hi)
    as (r & w' & E & Hr & _ & _ & _ & Hn & _ & _ & Hpass).
  destruct (Hpass Hc bsv Hb) as (Hiff & Hold). rewrite Hslot in Hold.
  destruct Hold as (Hgone & _).
  assert (r <> 0) as Hnz.
  { intros Hz. apply Hiff in Hz. unfold release_request in Hz.
    rewrite Hslot, Hq in Hz. congruence. }
  assert (vqueue (dev w') !! Z.to_nat index = Some (Some p)) as Hslot'
    by (by rewrite (Hn Hnz)).
  exists r, w'. split; [exact E|]. split; [exact Hnz|].
  split; [exact Hslot'|]. split; [exact Hgone|]. split.
  { intros Hwf'. destruct (wf_live _ Hwf' _ _ Hslot') as [[q' Hq'] _].
    congruence. }
  destruct (keeps_env_setup_vcmdq index w r w' E) as (Hs' & Hram' & _).
  assert (vcmdq_base (dev w') = vcmdq_base (dev w)) as Hbase
    by (unfold register_cache in Hr; congruence).
  destruct Hc as (_ & Hsz & Hram).
  unfold tegra241_cmdqv_setup_vcmdq.
  rewrite bind_eq. cbv [get_smmu_viommu]. cbv iota beta.
  rewrite bind_eq, rd_arr_in_bounds by (apply in_bounds_intro; simpl; lia).
  cbv iota beta. rewrite bind_eq. cbv [get_dev]. cbv iota beta.
  rewrite bind_eq. unfold aget.
  rewrite in_bounds_intro by (simpl; lia). cbv [mret M_ret]. cbv iota beta.
  rewrite Hs', Hb, Hbase.
  fold (setup_data index (nth (Z.to_nat index) (vcmdq_base (dev w)) 0)).
  change (uapi.vcmdq_log2size
            (setup_data index (nth (Z.to_nat index) (vcmdq_base (dev w)) 0)))
    with (uapi.vcmdq_log2size
            (setup_data 0 (nth (Z.to_nat index) (vcmdq_base (dev w)) 0))).
  change (uapi.vcmdq_base
            (setup_data index (nth (Z.to_nat index) (vcmdq_base (dev w)) 0)))
    with (uapi.vcmdq_base
            (setup_data 0 (nth (Z.to_nat index) (vcmdq_base (dev w)) 0))).
  replace (uapi.vcmdq_log2size
             (setup_data 0 (nth (Z.to_nat index) (vcmdq_base (dev w)) 0)) =? 0)
    with false by (symmetry; by apply Z.eqb_neq).
  rewrite bind_eq. cbv [cpu_physical_memory_is_ram]. cbv iota beta.
  rewrite Hram', Hram. cbn [negb].
  rewrite bind_eq, nth_lookup, Hslot'. cbn [default from_option id].
  rewrite bind_eq. unfold deref. rewrite Hgone. reflexivity.
Qed.

Lemma failed_reconfiguration_leaves_dangling_slot_witness :
  exists r w',
    tegra241_cmdqv_setup_vcmdq 5 queue5_live = Ret (r, w') /\ r <> 0 /\
    vqueue (dev w') !! 5%nat = Some (Some 1%nat) /\
    heap w' !! 1%nat = None /\
    tegra241_cmdqv_setup_vcmdq 5 w' = Undefined (UseAfterFree 1%nat).
Proof.
  assert (setup_checks_pass queue5_live
            (nth (Z.to_nat 5) (vcmdq_base (dev queue5_live)) 0)) as Hc.
  { split; [by eexists|]. split; [discriminate|reflexivity]. }
  assert (smmu_viommu queue5_live = Some viommu0) as Hb by reflexivity.
  assert (vqueue (dev queue5_live) !! Z.to_nat 5 = Some (Some 1%nat))
    as Hslot by reflexivity.
  assert (heap queue5_live !! 1%nat =
            Some {| vqueue_viommu := viommu0; vqueue_id := 77 |})
    as Hq by reflexivity.
  assert (r_errno
            (kernel queue5_live
               (requests_of (trace queue5_live) ++
                [IOMMU_DESTROY
                   (vqueue_id {| vqueue_viommu := viommu0; vqueue_id := 77 |})])
               (setup_request 5 queue5_live viommu0)) = Some ENOMEM)
    as Hrej by reflexivity.
  destruct (failed_reconfiguration_leaves_dangling_slot 5 queue5_live 1%nat
              {| vqueue_viommu := viommu0; vqueue_id := 77 |} viommu0 ENOMEM
              queue5_live_wf queue5_live_heap_below ltac:(lia)
              Hc Hb Hslot Hq Hrej)
    as (r & w' & E & Hnz & Hs & Hg & _ & U).
  exists r, w'. split; [exact E|]. split; [exact Hnz|]. split; [exact Hs|].
  split; [exact Hg | exact U].
Defined.
